(** * E.V.E. master controller: task planning, worker selection and the
      retry / multi-step execution pipeline.

    Shallow embedding of [backend/master_controller/task_planner.py],
    [backend/master_controller/master_controller.py] and of the registry
    query and the task tables of [backend/core/database.py].

    Modelling conventions
    - A Python [str] is kept as its UTF-8 encoding, a [string] of bytes.
      Equality, concatenation, [startswith] and [in] on texts are those on
      the encodings; [len], slices, [strip] and [lower] work on the encoded
      characters (code points), see [Py].
    - Python [int] counters are [Z]; Python [float] scores are exact rationals
      [Q] (the order facts proved below only use that [+] and multiplication
      by a positive constant are monotone; which of two candidates with equal
      exact scores wins is not stated, since rounding may order them).
    - [print] calls write to the console only and are not modelled, except
      where evaluating their argument can raise.
    - Calls that leave the process (language model, database, HTTP, the
      health monitor, the validator, the context manager) are answered by an
      environment record; every such call consumes one tick of a clock, so the
      same call may be answered differently each time it is made.
    - The exceptions modelled are those of the language-model calls, of the
      worker call, of a step result that is not a string, and of the two
      writes to the database made outside any [try], [create_task] and
      [store_execution_result]: they raise on values the database refuses,
      which the environment tells, on a missing output (a [NOT NULL]
      column) and on a second row for one task in [performance_metrics] (its
      primary key).  Any other call to the database, the health monitor, the
      validator or the context manager is taken to return. *)

From Stdlib Require Import ZArith QArith Lqa Ascii String List Bool DecimalString.
From Stdlib Require Import Sorted Permutation.
From stdpp Require Import base gmap strings list.

Set Warnings "-register-all".

Local Open Scope string_scope.
Local Open Scope Z_scope.

(** ** Python string primitives *)

Module Py.

(** One byte of an encoded text. *)
Definition byte (n : N) : ascii := ascii_of_N n.

(** A byte that continues a character: [10xxxxxx].  Every other byte starts
    one. *)
Definition is_continuation (c : ascii) : bool :=
  let n := N_of_ascii c in ((128 <=? n) && (n <? 192))%N.

(** [chr(code_point).encode()], to write texts outside ASCII. *)
Definition utf8 (code_point : N) : string :=
  let cp := code_point in
  (if cp <? 128 then String (byte cp) EmptyString
   else if cp <? 2048 then
     String (byte (192 + cp / 64)) (String (byte (128 + cp mod 64)) EmptyString)
   else if cp <? 65536 then
     String (byte (224 + cp / 4096))
       (String (byte (128 + (cp / 64) mod 64))
          (String (byte (128 + cp mod 64)) EmptyString))
   else
     String (byte (240 + cp / 262144))
       (String (byte (128 + (cp / 4096) mod 64))
          (String (byte (128 + (cp / 64) mod 64))
             (String (byte (128 + cp mod 64)) EmptyString))))%N.

(** [s * n]. *)
Fixpoint times (s : string) (n : nat) : string :=
  match n with
  | O => EmptyString
  | S n' => s ++ times s n'
  end.

(** [s.isascii()]. *)
Fixpoint isascii (s : string) : bool :=
  match s with
  | EmptyString => true
  | String c s' => (N_of_ascii c <? 128)%N && isascii s'
  end.

(** The text is empty or starts with an ASCII character. *)
Definition ascii_head (s : string) : Prop :=
  match s with
  | EmptyString => True
  | String c _ => (N_of_ascii c < 128)%N
  end.

(** [c.lower()] for one ASCII character. *)
Definition lower_ascii (c : ascii) : ascii :=
  let n := N_of_ascii c in
  if ((65 <=? n) && (n <=? 90))%N then ascii_of_N (n + 32) else c.

(** U+0130, capital I with dot above: bytes C4 B0. *)
Definition is_dotted_I (c1 c2 : ascii) : bool :=
  ((N_of_ascii c1 =? 196) && (N_of_ascii c2 =? 176))%N.

(** U+212A, the Kelvin sign: bytes E2 84 AA. *)
Definition is_kelvin (c1 c2 c3 : ascii) : bool :=
  ((N_of_ascii c1 =? 226) && (N_of_ascii c2 =? 132) && (N_of_ascii c3 =? 170))%N.

(** [s.lower()].  The ASCII letters are mapped as usual.  Outside ASCII the
    two characters whose lowercase form holds an ASCII letter are mapped as
    Python maps them: U+0130 to [i] followed by U+0307 (two characters for
    one), the Kelvin sign to [k].  Any other cased letter outside ASCII is
    left as it is: its lowercase form is again one single character outside
    ASCII, so neither a length, nor a slice, nor the search for an ASCII
    word, nor the comparison with one, which is all this program does with a
    lowered text, can tell the difference (the lowered [handler] that
    [decide_and_route] returns is the one value it would show in). *)
Fixpoint lower (s : string) : string :=
  match s with
  | EmptyString => EmptyString
  | String c1 s1 =>
      match s1 with
      | EmptyString => String (lower_ascii c1) EmptyString
      | String c2 s2 =>
          if is_dotted_I c1 c2 then
            String "i"%char (String (byte 204) (String (byte 135) (lower s2)))
          else
            match s2 with
            | EmptyString => String (lower_ascii c1) (lower s1)
            | String c3 s3 =>
                if is_kelvin c1 c2 c3 then String "k"%char (lower s3)
                else String (lower_ascii c1) (lower s1)
            end
      end
  end.

(** [s.startswith(p)]. *)
Fixpoint startswith (p s : string) : bool :=
  match p, s with
  | EmptyString, _ => true
  | String _ _, EmptyString => false
  | String a p', String b s' => Ascii.eqb a b && startswith p' s'
  end.

(** [needle in hay]. *)
Fixpoint contains (needle hay : string) : bool :=
  startswith needle hay ||
  match hay with
  | EmptyString => false
  | String _ hay' => contains needle hay'
  end.

(** [s[:n]]: the first [n] characters, each with the bytes that continue
    it. *)
Fixpoint take (n : nat) (s : string) : string :=
  match s with
  | EmptyString => EmptyString
  | String c s' =>
      if is_continuation c then String c (take n s')
      else
        match n with
        | O => EmptyString
        | S n' => String c (take n' s')
        end
  end.

(** The number of characters of [s]. *)
Fixpoint chars (s : string) : nat :=
  match s with
  | EmptyString => O
  | String c s' => if is_continuation c then chars s' else S (chars s')
  end.

(** [len(s)]. *)
Definition len (s : string) : Z := Z.of_nat (chars s).

(** [c.isspace()] on the ASCII range: TAB, LF, VT, FF, CR, FS, GS, RS, US and
    the blank. *)
Definition isspace (c : ascii) : bool :=
  let n := N_of_ascii c in
  (((9 <=? n) && (n <=? 13)) || ((28 <=? n) && (n <=? 32)))%N.

(** [isspace()] on the characters of two bytes: U+0085 (C2 85) and U+00A0
    (C2 A0). *)
Definition isspace2 (c1 c2 : ascii) : bool :=
  let n1 := N_of_ascii c1 in
  let n2 := N_of_ascii c2 in
  ((n1 =? 194) && ((n2 =? 133) || (n2 =? 160)))%N.

(** [isspace()] on the characters of three bytes: U+1680 (E1 9A 80), U+2000
    to U+200A (E2 80 80 to E2 80 8A), U+2028, U+2029, U+202F (E2 80 A8, A9,
    AF), U+205F (E2 81 9F) and U+3000 (E3 80 80).  No other character is a
    blank for [str.strip()]. *)
Definition isspace3 (c1 c2 c3 : ascii) : bool :=
  let n1 := N_of_ascii c1 in
  let n2 := N_of_ascii c2 in
  let n3 := N_of_ascii c3 in
  (((n1 =? 225) && (n2 =? 154) && (n3 =? 128)) ||
   ((n1 =? 226) && (n2 =? 128) &&
    (((128 <=? n3) && (n3 <=? 138)) || (n3 =? 168) || (n3 =? 169) || (n3 =? 175))) ||
   ((n1 =? 226) && (n2 =? 129) && (n3 =? 159)) ||
   ((n1 =? 227) && (n2 =? 128) && (n3 =? 128)))%N.

(** [s.lstrip()]. *)
Fixpoint lstrip (s : string) : string :=
  match s with
  | EmptyString => EmptyString
  | String c1 s1 =>
      if isspace c1 then lstrip s1
      else
        match s1 with
        | EmptyString => s
        | String c2 s2 =>
            if isspace2 c1 c2 then lstrip s2
            else
              match s2 with
              | EmptyString => s
              | String c3 s3 => if isspace3 c1 c2 c3 then lstrip s3 else s
              end
        end
  end.

(** [s] holds blanks only. *)
Definition isblank (s : string) : bool :=
  match lstrip s with
  | EmptyString => true
  | String _ _ => false
  end.

(** [s.rstrip()]: the text is cut where only blanks follow. *)
Fixpoint rstrip (s : string) : string :=
  match s with
  | EmptyString => EmptyString
  | String c s' => if isblank s then EmptyString else String c (rstrip s')
  end.

(** [s.strip()]. *)
Definition strip (s : string) : string := rstrip (lstrip s).

(** [any(p(x) for x in l)]. *)
Definition any {A} (p : A -> bool) (l : list A) : bool := existsb p l.

(** [x in l] for a list or set of strings. *)
Definition str_in (x : string) (l : list string) : bool :=
  existsb (String.eqb x) l.

(** [d.get(k)] on a dictionary with string keys kept as an association list
    (a parsed JSON object: the keys are distinct). *)
Fixpoint assoc {A} (k : string) (d : list (string * A)) : option A :=
  match d with
  | [] => None
  | (k', v) :: d' => if String.eqb k k' then Some v else assoc k d'
  end.

End Py.

(** ** JSON values, as returned by [json.loads] and [response.json()] *)

Inductive json : Type :=
| JNull
| JBool (b : bool)
| JNum (n : Z)
| JFloat (x : Q)
| JStr (s : string)
| JArr (l : list json)
| JObj (d : list (string * json)).

(** Python truthiness of a decoded JSON value. *)
Definition truthy (v : json) : bool :=
  match v with
  | JNull => false
  | JBool b => b
  | JNum n => negb (n =? 0)
  | JFloat x => negb (Qeq_bool x 0)
  | JStr s => negb (String.eqb s "")
  | JArr l => match l with [] => false | _ => true end
  | JObj d => match d with [] => false | _ => true end
  end.

(** An uploaded file as [FileProcessor.process_uploads] hands it on. *)
Record upload := {
  filename : string;
  content : string;
  mime_type : string;
  size : Z
}.

(** ** TaskPlanner (task_planner.py) *)

Module TaskPlanner.

Record Plan := {
  steps : list string;
  is_multi_step : bool;
  reasoning : json
}.

Definition _IMAGE_PHRASES : list string := [
  "generate image"; "generate an image"; "generate a image";
  "create image"; "create an image"; "create a image";
  "make image"; "make an image"; "make a image";
  "draw a"; "draw an"; "draw me";
  "generate img"; "create img"; "make img";
  "generate pic"; "create pic"; "make pic";
  "generate photo"; "create photo"; "make photo";
  "generate picture"; "create picture"; "make picture";
  "image of"; "picture of"; "photo of";
  "render image"; "render a"; "visualize";
  "show me a picture"; "show me an image"
].

Definition _is_image_request (message : string) : bool :=
  let msg := Py.lower message in
  Py.any (fun phrase => Py.contains phrase msg) _IMAGE_PHRASES.

Definition _default_plan : Plan :=
  {| steps := ["general"];
     is_multi_step := false;
     reasoning := JStr "Default single-step plan" |}.

Definition valid_types : list string :=
  ["coding"; "documentation"; "analysis"; "general"; "image_generation"].

Definition type_aliases : list (string * string) := [
  ("code", "coding"); ("programming", "coding"); ("development", "coding");
  ("doc", "documentation"); ("docs", "documentation"); ("writing", "documentation");
  ("analyze", "analysis"); ("research", "analysis"); ("data", "analysis");
  ("image", "image_generation"); ("picture", "image_generation");
  ("draw", "image_generation"); ("generate_image", "image_generation")
].

(** One turn of the loop [for step in result["steps"]]: [None] is the
    [AttributeError] of [step.lower()] on a value that is not a string. *)
Definition normalize_step (step : json) : option (list string) :=
  match step with
  | JStr raw =>
      let s := Py.strip (Py.lower raw) in
      let s := match Py.assoc s type_aliases with Some t => t | None => s end in
      Some (if Py.str_in s valid_types then [s] else [])
  | _ => None
  end.

(** The whole loop, building [valid_steps]. *)
Fixpoint collect_steps (l : list json) : option (list string) :=
  match l with
  | [] => Some []
  | step :: l' =>
      match normalize_step step with
      | None => None
      | Some here =>
          match collect_steps l' with
          | None => None
          | Some rest => Some (here ++ rest)%list
          end
      end
  end.

(** The body of the [try] block once the classifier has answered with the
    decoded value [result]; [None] stands for a raised exception.  On a value
    that is not an object the test ["steps" not in result] either sends to
    [_default_plan] or raises, and the handler returns [_default_plan] too. *)
Definition plan_of_result (result : json) : option Plan :=
  match result with
  | JObj d =>
      match Py.assoc "steps" d with
      | Some (JArr l) =>
          match collect_steps l with
          | None => None
          | Some valid_steps =>
              let valid_steps :=
                match valid_steps with [] => ["general"] | _ => valid_steps end in
              Some {| steps := valid_steps;
                      is_multi_step := (1 <? Z.of_nat (length valid_steps));
                      reasoning :=
                        match Py.assoc "reasoning" d with
                        | Some r => r
                        | None => JStr "AI task planning"
                        end |}
          end
      | _ => Some _default_plan
      end
  | _ => None
  end.

(** [plan_task].  [client] tells whether the planner was built with an API
    key; [classifier] is the answer of the language model to the planning
    prompt, already decoded ([None]: the call or the decoding raised).  The
    classifier is only consulted on the last branch. *)
Definition plan_task (client : bool) (classifier : option json)
    (message : string) : Plan :=
  if negb client then
    {| steps := ["general"];
       is_multi_step := false;
       reasoning := JStr "No AI planner available - single step execution" |}
  else if _is_image_request message then
    {| steps := ["image_generation"];
       is_multi_step := false;
       reasoning := JStr "User wants to generate or create an image" |}
  else
    match classifier with
    | None => _default_plan
    | Some result =>
        match plan_of_result result with
        | None => _default_plan
        | Some plan => plan
        end
    end.

(** [should_continue_to_next_step]. *)
Definition error_indicators : list string :=
  ["error"; "failed"; "cannot"; "unable to"; "sorry"; "apologize";
   "something went wrong"].

Definition should_continue_to_next_step
    (current_step total_steps : Z) (current_result : string) : bool :=
  let result_lower := Py.take 200 (Py.lower current_result) in
  if Py.any (fun indicator => Py.contains indicator result_lower) error_indicators
  then false
  else current_step <? total_steps - 1.


End TaskPlanner.

(** ** Worker registry (core/database.py) *)

Module Database.

(** A row of table [ai_agents], as the cursor returns it.  Timestamps are
    in microseconds. *)
Record agent := {
  agent_id : Z;
  agent_name : string;
  capability : string;
  status : string;
  last_heartbeat : Z;
  host : string;
  port : Z;
  cpu_usage : Q;
  memory_usage : Q
}.

(** [INTERVAL '30 seconds']. *)
Definition heartbeat_window : Z := 30000000.

(** [last_heartbeat > NOW() - INTERVAL '30 seconds' AND status != 'failed']. *)
Definition is_live (now : Z) (a : agent) : bool :=
  (now - heartbeat_window <? last_heartbeat a) &&
  negb (String.eqb (status a) "failed").

(** [capability LIKE '%task_type%' OR capability = 'general'].  The kinds
    that reach this branch of the query hold no wildcard character, so the
    pattern is a plain substring test. *)
Definition serves (task_type : string) (a : agent) : bool :=
  Py.contains task_type (capability a) || String.eqb (capability a) "general".

(** [CASE status WHEN 'idle' THEN 1 WHEN 'busy' THEN 2 ELSE 3 END]. *)
Definition status_rank (a : agent) : Z :=
  if String.eqb (status a) "idle" then 1
  else if String.eqb (status a) "busy" then 2
  else 3.

(** [ORDER BY status rank, cpu_usage ASC, memory_usage ASC]: does [a] sort
    no later than [b]? *)
Definition row_le (a b : agent) : bool :=
  if status_rank a <? status_rank b then true
  else if status_rank b <? status_rank a then false
  else match (cpu_usage a ?= cpu_usage b)%Q with
       | Lt => true
       | Gt => false
       | Eq => match (memory_usage a ?= memory_usage b)%Q with
               | Gt => false
               | _ => true
               end
       end.

Fixpoint insert_row (a : agent) (l : list agent) : list agent :=
  match l with
  | [] => [a]
  | b :: l' => if row_le a b then a :: l else b :: insert_row a l'
  end.

(** The [ORDER BY] clause; rows with equal keys keep the order of the table
    (the query leaves their order open). *)
Fixpoint order_rows (l : list agent) : list agent :=
  match l with
  | [] => []
  | a :: l' => insert_row a (order_rows l')
  end.

(** [get_available_agents(task_type)] on the rows [table] read at time [now]. *)
Definition get_available_agents (table : list agent) (now : Z)
    (task_type : string) : list agent :=
  if negb (String.eqb task_type "") &&
     negb (Py.str_in task_type ["general"; "image_generation"])
  then order_rows (List.filter (fun a => is_live now a && serves task_type a) table)
  else order_rows (List.filter (is_live now) table).

End Database.

(** ** IntelligentRouter: selection and success tracking *)

Module Router.

Import Database.

(** One entry of [worker_stats]: [{'success': _, 'total': _}]. *)
Record Stats := { success : Z; total : Z }.

Definition no_stats : Stats := {| success := 0; total := 0 |}.

(** [self.worker_stats.get(name, {'success': 0, 'total': 0})]. *)
Definition stats_of (worker_stats : gmap string Stats) (name : string) : Stats :=
  default no_stats (worker_stats !! name).

(** The [success_rate] of the scoring loop. *)
Definition success_rate (st : Stats) : Q :=
  if 0 <? total st
  then (inject_Z (success st) / inject_Z (total st))%Q
  else (9 # 10)%Q.

(** [health in ["dead", "unhealthy"]]. *)
Definition excluded (health : string) : bool :=
  Py.str_in health ["dead"; "unhealthy"].

(** The health bonus or penalty applied to a score. *)
Definition health_factor (health : string) : Q :=
  if String.eqb health "healthy" then (11 # 10)%Q
  else if String.eqb health "degraded" then (9 # 10)%Q
  else 1%Q.

(** [score] from a success rate, a task count and a health state. *)
Definition score_from (rate : Q) (tasks : Z) (health : string) : Q :=
  ((rate + inject_Z (Z.min tasks 10) * (1 # 100)) * health_factor health)%Q.

(** The score the loop gives to a worker with statistics [st]. *)
Definition score (st : Stats) (health : string) : Q :=
  score_from (success_rate st) (total st) health.

(** The loop building [scored]: the workers that pass the health check, with
    their score and success rate. *)
Fixpoint scored_workers (worker_stats : gmap string Stats)
    (check_worker_health : string -> string)
    (available : list agent) : list (agent * Q * Q) :=
  match available with
  | [] => []
  | worker :: rest =>
      let name := agent_name worker in
      let health := check_worker_health name in
      if excluded health
      then scored_workers worker_stats check_worker_health rest
      else
        let stats := stats_of worker_stats name in
        (worker, score stats health, success_rate stats)
          :: scored_workers worker_stats check_worker_health rest
  end.

(** [max(rest, key=...)] started from [best]: a later element replaces the
    current one only when its key is strictly greater. *)
Fixpoint max_from {A} (key : A -> Q) (best : A) (rest : list A) : A :=
  match rest with
  | [] => best
  | x :: rest' =>
      max_from key (if Qle_bool (key x) (key best) then best else x) rest'
  end.

(** [select_best_worker(worker_type, available)]. *)
Definition select_best_worker (worker_stats : gmap string Stats)
    (check_worker_health : string -> string)
    (worker_type : string) (available : list agent) : option agent :=
  match available with
  | [] => None
  | _ =>
      match scored_workers worker_stats check_worker_health available with
      | [] => None
      | first :: others =>
          let best := max_from (fun x => snd (fst x)) first others in
          Some (fst (fst best))
      end
  end.

(** The update of [worker_stats] made by [log_result(worker_name, success)]. *)
Definition log_result (worker_stats : gmap string Stats)
    (worker_name : string) (ok : bool) : gmap string Stats :=
  let worker_stats :=
    match worker_stats !! worker_name with
    | None => <[worker_name := no_stats]> worker_stats
    | Some _ => worker_stats
    end in
  let st := stats_of worker_stats worker_name in
  let st := {| success := success st; total := total st + 1 |} in
  let st := if ok then {| success := success st + 1; total := total st |} else st in
  <[worker_name := st]> worker_stats.

(** The counters of every worker are sound: [0 <= success <= total]. *)
Definition sound_stats (ws : gmap string Stats) : Prop :=
  forall name, 0 <= success (stats_of ws name) <= total (stats_of ws name).

(** The [worker_stats] of a router after the calls [log_result(name, ok)]
    listed in [calls], the first one first; a new router starts with [{}]. *)
Definition replay (calls : list (string * bool)) : gmap string Stats :=
  fold_left (fun ws call => log_result ws (fst call) (snd call)) calls ∅.

End Router.

(** ** WorkerExecutor.execute *)

Module WorkerExecutor.

Import Database.

(** Exceptions seen by [execute]: [requests.Timeout], or any other one with
    its [str(e)]. *)
Inductive exn :=
| Timeout
| Error (msg : string).

(** What [requests.post] does: it raises, or it returns a response with a
    status code and a body that [response.json()] decodes ([inl msg]: the
    decoding raises with message [msg]). *)
Inductive http_outcome :=
| Raised (e : exn)
| Responded (status_code : Z) (body : string + json).

(** The tuple [(output, success, duration, extra_data)].  [extra_data] is
    [{}] ([None]) or [{"file": v}] ([Some v]). *)
Record outcome := {
  output : json;
  success : bool;
  duration : Q;
  extra_data : option json
}.

(** [str(n)] for an integer. *)
Definition str_of_Z (n : Z) : string :=
  DecimalString.NilZero.string_of_int (Z.to_int n).

(** [type(v).__name__]. *)
Definition type_name (v : json) : string :=
  match v with
  | JNull => "NoneType"
  | JBool _ => "bool"
  | JNum _ => "int"
  | JFloat _ => "float"
  | JStr _ => "str"
  | JArr _ => "list"
  | JObj _ => "dict"
  end.

Definition AttributeError (v : json) (attr : string) : exn :=
  Error ("'" ++ type_name v ++ "' object has no attribute '" ++ attr ++ "'").

(** [f"http://{worker['host']}:{worker['port']}/execute"]. *)
Definition url_of (worker : agent) : string :=
  "http://" ++ host worker ++ ":" ++ str_of_Z (port worker) ++ "/execute".

Definition nl : string := String (ascii_of_nat 10) EmptyString.

(** [f"{context}\n\n{message}" if context else message]. *)
Definition prompt_of (context message : string) : string :=
  if String.eqb context "" then message else context ++ nl ++ nl ++ message.

(** The branch [response.status_code == 200], from [response.json()] on;
    [inl e]: exception [e] is raised inside the [try] block. *)
Definition on_ok (body : string + json) (elapsed : Q) : exn + outcome :=
  match body with
  | inl msg => inl (Error msg)
  | inr result =>
      match result with
      | JObj d =>
          let output := default (JStr "") (Py.assoc "result" d) in
          let success := default (JBool true) (Py.assoc "success" d) in
          let extra_data := Py.assoc "file" d in
          (* the [print] under ["file" in result] calls [.get] on the file *)
          match extra_data with
          | Some (JObj _) | None =>
              if negb (truthy success) then
                inr {| output := output; success := false;
                       duration := elapsed; extra_data := extra_data |}
              else
                match output with
                | JStr text =>
                    if Py.contains "error" (Py.take 100 (Py.lower text)) then
                      inr {| output := output; success := false;
                             duration := elapsed; extra_data := extra_data |}
                    else
                      inr {| output := output; success := true;
                             duration := elapsed; extra_data := extra_data |}
                | _ => inl (AttributeError output "lower")
                end
          | Some file => inl (AttributeError file "get")
          end
      | _ => inl (AttributeError result "get")
      end
  end.

(** The [try] block. *)
Definition try_block (reply : http_outcome) (elapsed : Q) : exn + outcome :=
  match reply with
  | Raised e => inl e
  | Responded status_code body =>
      if status_code =? 200 then on_ok body elapsed
      else inr {| output := JStr ("Worker error: HTTP " ++ str_of_Z status_code);
                  success := false; duration := elapsed; extra_data := None |}
  end.

(** [execute(worker, message, files, context, timeout)].  [post url prompt
    files] is the behaviour of [requests.post] on the payload built from the
    prompt and the files, [elapsed] the time it took.  The result is [inr] of
    the returned tuple, or [inl] of an exception that leaves the function. *)
Definition execute (post : string -> string -> list upload -> http_outcome)
    (elapsed : Q) (worker : agent) (message : string) (files : list upload)
    (context : string) (timeout : Z) : exn + outcome :=
  let url := url_of worker in
  let prompt := prompt_of context message in
  match try_block (post url prompt files) elapsed with
  | inr r => inr r
  | inl Timeout =>
      inr {| output := JStr ("Worker timeout after " ++ str_of_Z timeout ++ "s");
             success := false; duration := elapsed; extra_data := None |}
  | inl (Error msg) =>
      inr {| output := JStr ("Worker error: " ++ Py.take 100 msg);
             success := false; duration := elapsed; extra_data := None |}
  end.

End WorkerExecutor.

(** ** The request pipeline (master_controller.py) *)

Module Pipeline.

Import Database WorkerExecutor.

(** A stored conversation message: [{'role': _, 'content': _}]. *)
Record turn := { role : string; said : string }.

(** The dictionary returned by [validate_answer]. *)
Record validation := {
  quality_score : Q;
  should_retry : bool;
  issues : string
}.

(** The call [client.chat.completions.create] of [answer_directly]: the
    content of the first choice, or an exception with its [str(e)]. *)
Inductive chat_outcome :=
| ChatContent (c : json)
| ChatError (msg : string).

(** Everything outside the process.  The first argument of a field that
    has one of type [nat] is the tick at which the call is made.
    [db_refuses_task] and [db_refuses_output] tell which values the database
    driver or the database refuse to write for a reason the tables do not
    show (a value the driver cannot adapt, a text with a NUL character, a
    text too long for its column): the description and kind of a task, and
    the output of a worker. *)
Record Env := {
  client : bool;
  planner_reply : nat -> string -> list upload -> option json;
  chat_reply : nat -> list turn -> chat_outcome;
  agents_table : nat -> list agent;
  db_now : nat -> Z;
  db_refuses_task : string -> string -> bool;
  db_refuses_output : json -> bool;
  last_messages : nat -> string -> list turn;
  parse_document : nat -> string -> string -> option string;
  wall_clock : nat -> Z;
  check_worker_health : nat -> string -> string;
  http_post : nat -> string -> string -> list upload -> http_outcome;
  http_elapsed : nat -> Q;
  validate_answer : nat -> string -> json -> string -> validation;
  get_smart_context : nat -> string -> list turn -> string -> string
}.

(** The calls a run is observed by, in the order they are made.  Plain reads
    (the clock, the history, the parsing of uploads, the replies of the
    language model) are answered by the environment and leave no event. *)
Inductive event :=
| StoreMessage (conversation_id role : string) (text : json)
| Planned (message : string) (plan : TaskPlanner.Plan)
| CreateTask (task_desc task_type : string)
| SmartContext (message : string)
| Lookup (task_type : string)
| Select (worker_type : string) (available : list agent)
| Assign (task_id agent_id order : Z)
| Dispatch (worker : agent) (message : string)
| StoreResult (task_id agent_id : Z) (text : json) (ok : bool)
| Direct (message : string)
| Validate (message : string) (answer : json) (worker_name : string)
    (verdict : validation)
| LogResult (worker_name : string) (ok : bool).

(** The mutable state: the router's [worker_stats], the clock of external
    calls and, of the database, what the constraints on the task tables read:
    the last value of the sequence behind [user_tasks.task_id] (a [SERIAL]
    column) and the rows of [performance_metrics], a table whose primary key
    is [task_id]; a row is kept as its [agent_id]. *)
Record World := {
  worker_stats : gmap string Router.Stats;
  clock : nat;
  last_task_id : Z;
  performance_metrics : gmap Z Z
}.

(** A run of a piece of the pipeline: what it returns, the state it leaves
    and the calls it made. *)
Record Run (A : Type) := {
  result : A;
  world : World;
  calls : list event
}.

Arguments result {A} _.
Arguments world {A} _.
Arguments calls {A} _.

Definition M (A : Type) : Type := World -> Run A.

Definition ret {A} (a : A) : M A :=
  fun w => {| result := a; world := w; calls := [] |}.

Definition bind {A B} (m : M A) (k : A -> M B) : M B :=
  fun w =>
    let r := m w in
    let r' := k (result r) (world r) in
    {| result := result r'; world := world r';
       calls := (calls r ++ calls r')%list |}.

Notation "'let*' x := m 'in' k" := (bind m (fun x => k))
  (at level 10, x pattern, m at level 100, k at level 200).

(** The state after one more external call. *)
Definition tick (w : World) : World :=
  {| worker_stats := worker_stats w; clock := S (clock w);
     last_task_id := last_task_id w;
     performance_metrics := performance_metrics w |}.

(** An external call: read the answer at the current tick, advance the clock. *)
Definition ask {A} (f : nat -> A) : M A :=
  fun w => {| result := f (clock w); world := tick w; calls := [] |}.

Definition emit (e : event) : M unit :=
  fun w => {| result := tt; world := w; calls := [e] |}.

Definition read_stats : M (gmap string Router.Stats) :=
  fun w => {| result := worker_stats w; world := w; calls := [] |}.

Definition write_stats (s : gmap string Router.Stats) : M unit :=
  fun w => {| result := tt;
              world := {| worker_stats := s; clock := clock w;
                          last_task_id := last_task_id w;
                          performance_metrics := performance_metrics w |};
              calls := [] |}.

(** [INSERT INTO user_tasks ... RETURNING task_id]: the new row gets the next
    value of the sequence. *)
Definition insert_user_task : M Z :=
  fun w => {| result := last_task_id w + 1;
              world := {| worker_stats := worker_stats w; clock := S (clock w);
                          last_task_id := last_task_id w + 1;
                          performance_metrics := performance_metrics w |};
              calls := [] |}.

(** [INSERT INTO performance_metrics (agent_id, task_id, ...)]: [false] when
    the table already holds a row for [task_id], which the primary key
    forbids; the statement then raises and nothing is written. *)
Definition insert_performance_metric (task_id agent_id : Z) : M bool :=
  fun w =>
    match performance_metrics w !! task_id with
    | Some _ => {| result := false; world := tick w; calls := [] |}
    | None =>
        {| result := true;
           world := {| worker_stats := worker_stats w; clock := S (clock w);
                       last_task_id := last_task_id w;
                       performance_metrics :=
                         <[task_id := agent_id]> (performance_metrics w) |};
           calls := [] |}
    end.

(** A call to the database that raises: it takes its tick and returns
    nothing. *)
Definition db_raises {A} : M (option A) := ask (fun _ => None).

Section WithEnv.

Variable env : Env.

(** [create_task(user_id, task_desc, task_type, priority)]: returns the
    [task_id] of the new row; [None]: the function raises. *)
Definition create_task (task_desc task_type : string) : M (option Z) :=
  let* _ := emit (CreateTask task_desc task_type) in
  if db_refuses_task env task_desc task_type then db_raises
  else
    let* task_id := insert_user_task in
    ret (Some task_id).

(** [store_execution_result(task_id, agent_id, output_data, success,
    execution_time)]; [None]: the function raises.  Its first statement
    inserts [output_data] into [execution_results], where the column is
    [NOT NULL]; its last one inserts into [performance_metrics].  Both run in
    one transaction, so nothing is kept of a call that raises. *)
Definition store_execution_result (task_id agent_id : Z) (output_data : json)
    (ok : bool) : M (option unit) :=
  let* _ := emit (StoreResult task_id agent_id output_data ok) in
  match output_data with
  | JNull => db_raises
  | _ =>
      if db_refuses_output env output_data then db_raises
      else
        let* inserted := insert_performance_metric task_id agent_id in
        if inserted then ret (Some tt) else ret None
  end.

(** [router.planner.plan_task(message, file_data)]. *)
Definition plan_task (message : string) (file_data : list upload)
    : M TaskPlanner.Plan :=
  let* reply := ask (fun t => planner_reply env t message file_data) in
  let plan := TaskPlanner.plan_task (client env) reply message in
  let* _ := emit (Planned message plan) in
  ret plan.

(** [l[-n:]]. *)
Definition last_n {A} (n : nat) (l : list A) : list A :=
  skipn (length l - n) l.

(** [router.answer_directly(message, conversation_history)]. *)
Definition answer_directly (message : string) (history : list turn) : M json :=
  let* _ := emit (Direct message) in
  if negb (client env) then ret (JStr "I'm offline. Please try again later.")
  else
    let earlier :=
      List.map (fun msg =>
             {| role := if String.eqb (role msg) "user" then "user" else "assistant";
                said := said msg |})
          (last_n 5 history) in
    let messages := (earlier ++ [{| role := "user"; said := message |}])%list in
    let* reply := ask (fun t => chat_reply env t messages) in
    match reply with
    | ChatContent c => ret c
    | ChatError msg => ret (JStr ("I encountered an error: " ++ Py.take 100 msg))
    end.

(** [get_available_agents(task_type=...)] against the registry. *)
Definition lookup (task_type : string) : M (list agent) :=
  let* _ := emit (Lookup task_type) in
  ask (fun t => get_available_agents (agents_table env t) (db_now env t) task_type).

(** [router.select_best_worker(worker_type, available)], reading the health
    monitor as it is at the time of the call. *)
Definition select_best_worker (worker_type : string) (available : list agent)
    : M (option agent) :=
  let* _ := emit (Select worker_type available) in
  let* stats := read_stats in
  ask (fun t => Router.select_best_worker stats (check_worker_health env t)
                  worker_type available).

(** [router.log_result(worker_name, success, duration, quality_score)]; the
    reports to the health monitor and to the analytics are part of the event. *)
Definition log_result (worker_name : string) (ok : bool) : M unit :=
  let* _ := emit (LogResult worker_name ok) in
  let* stats := read_stats in
  write_stats (Router.log_result stats worker_name ok).

Definition fallback_map : list (string * list string) := [
  ("coding", ["general"; "analysis"]);
  ("documentation", ["general"; "analysis"]);
  ("analysis", ["general"; "documentation"]);
  ("general", ["analysis"; "documentation"; "coding"]);
  ("image_generation", ["coding"; "analysis"; "general"])
].

(** [for fallback_type in fallbacks: ...], with the [break] on the first
    kind that has workers; returns [(available, worker_type)]. *)
Fixpoint try_fallbacks (fallbacks : list string) (worker_type : string)
    : M (list agent * string) :=
  match fallbacks with
  | [] => ret ([], worker_type)
  | fallback_type :: rest =>
      let* available := lookup fallback_type in
      match available with
      | [] => try_fallbacks rest worker_type
      | _ => ret (available, fallback_type)
      end
  end.

(** The variables that live across the attempts of [execute_single_step].
    [worker_name] starts as [None] in the source and is assigned on every
    path before it is read; it starts as the empty string here. *)
Record attempt_state := {
  response_text : json;
  worker_name : string;
  succeeded : bool;
  took : Q;
  extra : option json
}.

Definition by_master (answer : json) : attempt_state :=
  {| response_text := answer; worker_name := "Master-Controller";
     succeeded := true; took := 0%Q; extra := None |}.

(** [worker_executor.execute(worker, message, file_data, smart_context)]:
    the default timeout is 120. *)
Definition dispatch (worker : agent) (message : string)
    (file_data : list upload) (smart_context : string) : M (exn + outcome) :=
  let* _ := emit (Dispatch worker message) in
  ask (fun t => execute (http_post env t) (http_elapsed env t)
                  worker message file_data smart_context 120).

(** Worker lookup of one attempt: the pool of the planned kind or, when it
    is empty, of the first fallback kind that has workers; returns
    [(available, worker_type)]. *)
Definition find_workers (step_type : string) : M (list agent * string) :=
  let worker_type := step_type in
  let* available := lookup worker_type in
  match available with
  | [] =>
      try_fallbacks (default ["general"] (Py.assoc worker_type fallback_map))
        worker_type
  | _ => ret (available, worker_type)
  end.

(** The block under [if available:]: select a worker, send it the task and
    store what it returned, or let the master answer when no worker passes
    the health check.  [None]: an exception leaves the function, which is the
    one of [store_execution_result], called outside any [try]
    ([assign_task_to_agent] is called inside one, where the second
    assignment of a task fails on the primary key of [task_assignments], and
    [execute] catches its own). *)
Definition ask_worker (message : string) (file_data : list upload)
    (smart_context : string) (history : list turn) (task_id attempt : Z)
    (available : list agent) (worker_type : string) (st : attempt_state)
    : M (option attempt_state) :=
  match available with
  | [] => ret (Some st)
  | _ =>
      let* worker := select_best_worker worker_type available in
      match worker with
      | Some worker =>
          let* _ := emit (Assign task_id (agent_id worker) (attempt + 1)) in
          let* r := dispatch worker message file_data smart_context in
          match r with
          | inl _ => ret None
          | inr r =>
              let* stored := store_execution_result task_id (agent_id worker)
                               (output r) (success r) in
              match stored with
              | Some _ =>
                  ret (Some {| response_text := output r;
                               worker_name := agent_name worker;
                               succeeded := success r;
                               took := duration r;
                               extra := extra_data r |})
              | None => ret None
              end
          end
      | None =>
          let* answer := answer_directly message history in
          ret (Some (by_master answer))
      end
  end.

(** The block under [if not available or not response_text:]. *)
Definition ensure_answer (message : string) (history : list turn)
    (available : list agent) (st : attempt_state) : M attempt_state :=
  if match available with [] => true | _ => false end
     || negb (truthy (response_text st))
  then
    let* answer := answer_directly message history in
    ret (by_master answer)
  else ret st.

(** STEP 4: validate the answer, then [router.log_result]. *)
Definition validate_and_log (message : string) (st : attempt_state)
    : M validation :=
  let* verdict :=
    ask (fun t => validate_answer env t message (response_text st)
                    (worker_name st)) in
  let* _ := emit (Validate message (response_text st) (worker_name st) verdict) in
  let* _ := log_result (worker_name st) (succeeded st) in
  ret verdict.

(** One turn of [for attempt in range(max_retries)], up to and including
    [router.log_result]; returns the variables and the validation. *)
Definition run_attempt (step_type message : string) (file_data : list upload)
    (smart_context : string) (history : list turn) (task_id : Z)
    (attempt : Z) (st : attempt_state)
    : M (option (attempt_state * validation)) :=
  let* (available, worker_type) := find_workers step_type in
  let* st := ask_worker message file_data smart_context history task_id attempt
               available worker_type st in
  match st with
  | None => ret None
  | Some st =>
      let* st := ensure_answer message history available st in
      let* verdict := validate_and_log message st in
      ret (Some (st, verdict))
  end.

(** [range(n)]. *)
Definition range (n : nat) : list Z := List.map Z.of_nat (seq 0 n).

Definition max_retries : nat := 2.

(** [for attempt in range(max_retries): ...] with its [break]. *)
Fixpoint retry_loop (step_type message : string) (file_data : list upload)
    (smart_context : string) (history : list turn) (task_id : Z)
    (attempts : list Z) (st : attempt_state) : M (option attempt_state) :=
  match attempts with
  | [] => ret (Some st)
  | attempt :: rest =>
      let* r := run_attempt step_type message file_data smart_context history
                  task_id attempt st in
      match r with
      | None => ret None
      | Some (st, verdict) =>
          if negb (should_retry verdict) || Qle_bool 6 (quality_score verdict)
          then ret (Some st)
          else retry_loop step_type message file_data smart_context history
                 task_id rest st
      end
  end.

(** [execute_single_step]: returns [(response_text, extra_data)]; [None]:
    an exception leaves the function. *)
Definition execute_single_step (step_type message : string)
    (file_data : list upload) (file_context : string) (history : list turn)
    : M (option (json * option json)) :=
  let* task_id := create_task message step_type in
  match task_id with
  | None => ret None
  | Some task_id =>
      let* _ := emit (SmartContext message) in
      let* smart_context :=
        ask (fun t => get_smart_context env t message history file_context) in
      let* st :=
        retry_loop step_type message file_data smart_context history task_id
          (range max_retries)
          {| response_text := JNull; worker_name := ""; succeeded := false;
             took := 0%Q; extra := None |} in
      match st with
      | None => ret None
      | Some st => ret (Some (response_text st, extra st))
      end
  end.

(** The variables that live across the steps of [execute_multi_step]. *)
Record multi_state := {
  final_response : string;
  final_extra_data : option json;
  accumulated_context : string
}.

(** The text between two step outputs: [\n\n---\n\n]. *)
Definition separator : string := nl ++ nl ++ "---" ++ nl ++ nl.

(** [step_message] of step [i]. *)
Definition step_message (i : nat) (message previous step_type : string) : string :=
  match i with
  | O => message
  | S _ =>
      "Continue from previous step." ++ nl ++ nl ++
      "Original task: " ++ message ++ nl ++ nl ++
      "Previous step result:" ++ nl ++ Py.take 500 previous ++ "..." ++ nl ++ nl ++
      "Now perform: " ++ step_type
  end.

(** The assignments made after step [i] has returned [step_response] and
    [step_extra_data]. *)
Definition absorb (i : nat) (step_type : string) (st : multi_state)
    (step_response : string) (step_extra_data : option json) : multi_state :=
  {| final_response :=
       match i with
       | O => step_response
       | S _ => final_response st ++ separator ++ step_response
       end;
     final_extra_data :=
       match i with
       | O => step_extra_data
       | S _ =>
           match step_extra_data with
           | Some _ => step_extra_data
           | None => final_extra_data st
           end
       end;
     accumulated_context :=
       accumulated_context st ++ nl ++ nl ++ "Step " ++
       str_of_Z (Z.of_nat i + 1) ++ " (" ++ step_type ++ ") result:" ++ nl ++
       Py.take 500 step_response |}.

(** [for i, step_type in enumerate(steps): ...].  A step result that is not
    a string makes [step_response[:500]] or [current_result.lower()] raise:
    the exception leaves the function ([None]). *)
Fixpoint multi_loop (message : string) (file_data : list upload)
    (history : list turn) (total : Z) (i : nat) (todo : list string)
    (st : multi_state) : M (option multi_state) :=
  match todo with
  | [] => ret (Some st)
  | step_type :: rest =>
      let* r :=
        execute_single_step step_type
          (step_message i message (final_response st) step_type)
          file_data (accumulated_context st) history in
      match r with
      | Some (JStr step_response, step_extra_data) =>
          let st := absorb i step_type st step_response step_extra_data in
          if TaskPlanner.should_continue_to_next_step (Z.of_nat i) total
               step_response
          then multi_loop message file_data history total (S i) rest st
          else ret (Some st)
      | _ => ret None
      end
  end.

(** [execute_multi_step]: returns [(final_response, final_extra_data)]. *)
Definition execute_multi_step (task_plan : TaskPlanner.Plan) (message : string)
    (file_data : list upload) (file_context : string) (history : list turn)
    : M (option (string * option json)) :=
  let steps := TaskPlanner.steps task_plan in
  let* st :=
    multi_loop message file_data history (Z.of_nat (length steps)) 0 steps
      {| final_response := ""; final_extra_data := None;
         accumulated_context := file_context |} in
  ret (option_map (fun st => (final_response st, final_extra_data st)) st).

(** [sep.join(parts)]. *)
Fixpoint join (sep : string) (parts : list string) : string :=
  match parts with
  | [] => ""
  | [p] => p
  | p :: rest => p ++ sep ++ join sep rest
  end.

(** The loop of [FileProcessor.process_uploads] that fills [parsed_texts]. *)
Fixpoint parsed_texts (files : list upload) : M (list string) :=
  match files with
  | [] => ret []
  | file :: rest =>
      let* parsed :=
        ask (fun t => parse_document env t (filename file) (content file)) in
      let* others := parsed_texts rest in
      match parsed with
      | Some text =>
          if 0 <? Py.len (Py.strip text)
          then ret (("=== " ++ filename file ++ " ===" ++ nl ++ text) :: others)
          else ret others
      | None => ret others
      end
  end.

(** [file_processor.process_uploads(files)] on files already read and
    encoded: returns [(file_data, context)]. *)
Definition process_uploads (files : list upload) : M (list upload * string) :=
  match files with
  | [] => ret ([], "")
  | _ =>
      let* texts := parsed_texts files in
      ret (files, join (nl ++ nl) texts)
  end.

(** The body returned to the caller of [/process_message]. *)
Record payload := {
  response : json;
  conversation : string;
  file : option json
}.

(** STEP 2 of [process_message]: run the plan. *)
Definition run_plan (task_plan : TaskPlanner.Plan) (message : string)
    (file_data : list upload) (file_context : string) (history : list turn)
    : M (option (json * option json)) :=
  if TaskPlanner.is_multi_step task_plan then
    let* r := execute_multi_step task_plan message file_data file_context history in
    ret (option_map (fun r => (JStr (fst r), snd r)) r)
  else
    let step_type := hd "" (TaskPlanner.steps task_plan) in
    if String.eqb step_type "general" && (Py.len (Py.strip message) <? 50) then
      let* answer := answer_directly message history in
      ret (Some (answer, None))
    else
      execute_single_step step_type message file_data file_context history.

(** [process_message] up to and including STEP 1: the conversation, the
    files, the history and the plan.  [create_or_get_conversation] and
    [store_message] catch their own exceptions; the first one leaves no
    event. *)
Definition prepare (user_id message : string)
    (conversation_id : option string) (files : list upload)
    : M (string * list upload * string * list turn * TaskPlanner.Plan) :=
  let* conversation_id :=
    match conversation_id with
    | Some c => if String.eqb c "" then
                  let* now := ask (wall_clock env) in
                  ret (user_id ++ "_" ++ str_of_Z now)
                else ret c
    | None => let* now := ask (wall_clock env) in
              ret (user_id ++ "_" ++ str_of_Z now)
    end in
  let* _ := emit (StoreMessage conversation_id "user" (JStr message)) in
  let* (file_data, file_context) := process_uploads files in
  let* history := ask (fun t => last_messages env t conversation_id) in
  let* task_plan := plan_task message file_data in
  ret (conversation_id, file_data, file_context, history, task_plan).

(** [process_message(user_id, message, conversation_id, files)]; [None]: an
    exception leaves the handler. *)
Definition process_message (user_id message : string)
    (conversation_id : option string) (files : list upload)
    : M (option payload) :=
  let* (conversation_id, file_data, file_context, history, task_plan) :=
    prepare user_id message conversation_id files in
  let* r := run_plan task_plan message file_data file_context history in
  match r with
  | None => ret None
  | Some (response_text, extra_data) =>
      let* _ := emit (StoreMessage conversation_id "assistant" response_text) in
      ret (Some {| response := response_text;
                   conversation := conversation_id;
                   file := extra_data |})
  end.

(** The steps that [execute_multi_step] runs, with what each returned, in
    the order they run: the same calls of [execute_single_step], kept in a
    list [done] instead of being folded into one text.  Used to state what the
    aggregate is made of. *)
Fixpoint executed_steps (message : string) (file_data : list upload)
    (history : list turn) (total : Z) (todo : list string)
    (done : list (string * option json)) (context : string)
    : M (option (list (string * option json))) :=
  match todo with
  | [] => ret (Some done)
  | step_type :: rest =>
      let i := length done in
      let* r :=
        execute_single_step step_type
          (step_message i message (join separator (List.map fst done)) step_type)
          file_data context history in
      match r with
      | Some (JStr step_response, step_extra_data) =>
          let done' := (done ++ [(step_response, step_extra_data)])%list in
          let context' :=
            context ++ nl ++ nl ++ "Step " ++ str_of_Z (Z.of_nat i + 1) ++
            " (" ++ step_type ++ ") result:" ++ nl ++ Py.take 500 step_response in
          if TaskPlanner.should_continue_to_next_step (Z.of_nat i) total
               step_response
          then executed_steps message file_data history total rest done' context'
          else ret (Some done')
      | _ => ret None
      end
  end.

End WithEnv.

(** *** Reading the calls of a run *)

(** The answers that were validated, with their verdicts, in order. *)
Fixpoint validations (l : list event) : list (json * validation) :=
  match l with
  | [] => []
  | Validate _ answer _ verdict :: l' => (answer, verdict) :: validations l'
  | _ :: l' => validations l'
  end.

(** The workers that were dispatched to, in order. *)
Fixpoint dispatched (l : list event) : list agent :=
  match l with
  | [] => []
  | Dispatch worker _ :: l' => worker :: dispatched l'
  | _ :: l' => dispatched l'
  end.

(** The kinds looked up in the registry, in order. *)
Fixpoint lookups (l : list event) : list string :=
  match l with
  | [] => []
  | Lookup task_type :: l' => task_type :: lookups l'
  | _ :: l' => lookups l'
  end.

(** The kinds of the tasks created, one per step that ran, in order. *)
Fixpoint tasks_created (l : list event) : list string :=
  match l with
  | [] => []
  | CreateTask _ task_type :: l' => task_type :: tasks_created l'
  | _ :: l' => tasks_created l'
  end.

(** The messages the master answered itself, in order. *)
Fixpoint direct_answers (l : list event) : list string :=
  match l with
  | [] => []
  | Direct message :: l' => message :: direct_answers l'
  | _ :: l' => direct_answers l'
  end.

(** A call that belongs to the worker path: task creation, context shaping,
    registry lookup, selection, assignment, dispatch, result storage,
    validation and result logging. *)
Definition on_worker_path (e : event) : bool :=
  match e with
  | StoreMessage _ _ _ | Planned _ _ | Direct _ => false
  | _ => true
  end.

(** The verdict that ends the retry loop:
    [not validation["should_retry"] or validation["quality_score"] >= 6]. *)
Definition accepted (verdict : validation) : bool :=
  negb (should_retry verdict) || Qle_bool 6 (quality_score verdict).

(** The artifact kept by the assignments of [execute_multi_step]: the one of
    the latest step that came with one. *)
Definition latest_artifact (l : list (option json)) : option json :=
  fold_left (fun kept x => match x with Some _ => x | None => kept end) l None.

End Pipeline.

(** ** Concrete deployments, used to run the pipeline on examples *)

Module Scenarios.

Import Database WorkerExecutor Pipeline.

Definition agent_named (id : Z) (name kind : string) : agent :=
  {| agent_id := id; agent_name := name; capability := kind; status := "idle";
     last_heartbeat := 1000000000; host := "127.0.0.1"; port := 5000 + id;
     cpu_usage := 0; memory_usage := 0 |}.

Definition coder : agent := agent_named 1 "coder-1" "coding".
Definition helper_a : agent := agent_named 2 "general-a" "general".
Definition helper_b : agent := agent_named 3 "general-b" "general".

Definition fresh_world : World :=
  {| worker_stats := ∅; clock := 0; last_task_id := 0;
     performance_metrics := ∅ |}.

Definition good_verdict : validation :=
  {| quality_score := 8; should_retry := false; issues := "" |}.

Definition poor_verdict : validation :=
  {| quality_score := 3; should_retry := true; issues := "too short" |}.

Definition reply_text (text : string) : http_outcome :=
  Responded 200 (inr (JObj [("result", JStr text); ("success", JBool true)])).

(** A deployment with a language-model client, the registry [table], the
    health monitor [health], workers answering [post] and a validator
    answering [verdict]. *)
Definition deployment (table : list agent) (health : string -> string)
    (post : string -> string -> list upload -> http_outcome)
    (verdict : json -> validation) : Env :=
  {| client := true;
     planner_reply := fun _ _ _ => Some (JObj [("steps", JArr [JStr "general"])]);
     chat_reply := fun _ _ => ChatContent (JStr "Hello! How can I help?");
     agents_table := fun _ => table;
     db_now := fun _ => 1000000001;
     db_refuses_task := fun _ _ => false;
     db_refuses_output := fun _ => false;
     last_messages := fun _ _ => [];
     parse_document := fun _ _ _ => None;
     wall_clock := fun _ => 1000;
     check_worker_health := fun _ => health;
     http_post := fun _ => post;
     http_elapsed := fun _ => 1%Q;
     validate_answer := fun _ _ answer _ => verdict answer;
     get_smart_context := fun _ _ _ _ => "" |}.

(** All coding workers unhealthy, two general workers: [general-a] degraded,
    [general-b] healthy. *)
Definition coders_down_health (name : string) : string :=
  if String.eqb name "coder-1" then "unhealthy"
  else if String.eqb name "general-a" then "degraded"
  else "healthy".

Definition coders_down : Env :=
  deployment [coder; helper_a; helper_b] coders_down_health
    (fun _ _ _ => reply_text "def add(a, b): return a + b")
    (fun _ => good_verdict).

(** [general-b] has one recorded task, which failed. *)
Definition after_one_failure : World :=
  {| worker_stats := Router.replay [("general-b", false)]; clock := 0;
     last_task_id := 0; performance_metrics := ∅ |}.

(** The first step comes with a file, the second one without. *)
Definition chart : json := JObj [("filename", JStr "chart.png")].

Definition file_then_text : Env :=
  deployment [helper_a] (fun _ => "healthy")
    (fun _ prompt _ =>
       if Py.startswith "Continue from previous step." prompt
       then reply_text "The chart shows steady growth."
       else Responded 200 (inr (JObj [("result", JStr "Chart drawn.");
                                      ("success", JBool true);
                                      ("file", chart)])))
    (fun _ => good_verdict).

Definition two_steps : TaskPlanner.Plan :=
  {| TaskPlanner.steps := ["analysis"; "documentation"];
     TaskPlanner.is_multi_step := true;
     TaskPlanner.reasoning := JStr "chart, then report" |}.

(** The loop variables before the first attempt. *)
Definition no_answer_yet : attempt_state :=
  {| response_text := JNull; worker_name := ""; succeeded := false;
     took := 0%Q; extra := None |}.

(** A validator that is never satisfied. *)
Definition never_satisfied : Env :=
  deployment [helper_a] (fun _ => "healthy")
    (fun _ _ _ => reply_text "ok") (fun _ => poor_verdict).

(** A worker that reports a failure without any text:
    [{"result": null, "success": false}]. *)
Definition silent_failure : Env :=
  deployment [helper_a] (fun _ => "healthy")
    (fun _ _ _ =>
       Responded 200 (inr (JObj [("result", JNull); ("success", JBool false)])))
    (fun _ => good_verdict).

End Scenarios.

(** ** IntelligentRouter.decide_and_route *)

Module Decision.


Definition valid_types : list string :=
  ["coding"; "documentation"; "analysis"; "general"].

Definition type_aliases : list (string * string) := [
  ("code", "coding"); ("programming", "coding"); ("development", "coding");
  ("doc", "documentation"); ("docs", "documentation"); ("writing", "documentation");
  ("analyze", "analysis"); ("research", "analysis"); ("data", "analysis")
].





(** [name.split('.')[-1]]: the text after the last dot, the whole name when
    it has no dot. *)
Fixpoint last_segment (name : string) : string :=
  match name with
  | EmptyString => EmptyString
  | String c rest =>
      if Py.contains "." rest then last_segment rest
      else if Ascii.eqb c "."%char then rest
      else name
  end.

(** [file_types] of [_build_decision_prompt] and [_build_planning_prompt]. *)
Definition file_types (files : list upload) : list string :=
  List.map (fun f => last_segment (filename f)) files.

End Decision.

(** ** Diagnostics (master_controller.py) *)

Module Endpoints.

(** [worker_health_score] of [get_diagnostics]. *)
Definition worker_health_score (healthy_workers total_workers : Z) : Q :=
  if 0 <? total_workers
  then (inject_Z healthy_workers / inject_Z total_workers * 10)%Q
  else 0%Q.

(** [min(a, b)] on numbers. *)
Definition min_of (a b : Q) : Q := if Qle_bool a b then a else b.

(** [cache_score]: [min(cache_efficiency / 10, 10)]. *)
Definition cache_score (cache_efficiency : Q) : Q :=
  min_of (cache_efficiency / 10) 10.

(** [system_score]. *)
Definition system_score (healthy_workers total_workers : Z)
    (cache_efficiency avg_quality : Q) : Q :=
  (worker_health_score healthy_workers total_workers * (4 # 10) +
   cache_score cache_efficiency * (2 # 10) +
   min_of avg_quality 10 * (4 # 10))%Q.

(** [system_status]. *)
Definition system_status (score : Q) : string :=
  if Qle_bool (85 # 10) score then "excellent"
  else if Qle_bool 7 score then "good"
  else "degraded".

End Endpoints.

(** ** More ways to read the calls of a run *)

Module Readers.

Import Pipeline.

(** The results logged with [router.log_result], in order. *)
Fixpoint logged (l : list event) : list (string * bool) :=
  match l with
  | [] => []
  | LogResult worker_name ok :: l' => (worker_name, ok) :: logged l'
  | _ :: l' => logged l'
  end.

(** The pools handed to [select_best_worker], with the kind, in order. *)
Fixpoint selections (l : list event) : list (string * list Database.agent) :=
  match l with
  | [] => []
  | Select worker_type available :: l' => (worker_type, available) :: selections l'
  | _ :: l' => selections l'
  end.

(** [worker_stats] after the results [results] have been logged. *)
Definition log_all (results : list (string * bool))
    (ws : gmap string Router.Stats) : gmap string Router.Stats :=
  fold_left (fun ws r => Router.log_result ws (fst r) (snd r)) results ws.

(** A piece of the pipeline changes [worker_stats] only by logging results:
    the map it leaves is the one it found with the logged results applied. *)
Definition tracks {A} (m : M A) : Prop :=
  forall w,
    worker_stats (world (m w))
      = log_all (logged (calls (m w))) (worker_stats w).

(** A piece of the pipeline that writes no row of [performance_metrics]. *)
Definition leaves_metrics {A} (m : M A) : Prop :=
  forall w, performance_metrics (world (m w)) = performance_metrics w.

(** The descriptions of the tasks created, in order. *)
Fixpoint task_descs (l : list event) : list string :=
  match l with
  | [] => []
  | CreateTask task_desc _ :: l' => task_desc :: task_descs l'
  | _ :: l' => task_descs l'
  end.

(** The lowered text holds one of the failure indicators of
    [should_continue_to_next_step] within its first 200 characters. *)
Definition looks_failed (text : string) : bool :=
  Py.any (fun indicator => Py.contains indicator (Py.take 200 (Py.lower text)))
    TaskPlanner.error_indicators.


(** The kinds tried for a planned kind: the kind, then its fallback chain. *)
Definition kinds_tried (step_type : string) : list string :=
  step_type :: default ["general"] (Py.assoc step_type fallback_map).

End Readers.

(** * Properties *)

(** ** Strings *)

Module PyFacts.

Import Py.

Lemma append_nil_r (s : string) : s ++ "" = s.
Proof.
  induction s as [|c s IH]; [reflexivity|].
  change (String c (s ++ "") = String c s). rewrite IH. reflexivity.
Qed.

Lemma append_assoc (a b c : string) : (a ++ b) ++ c = a ++ b ++ c.
Proof.
  induction a as [|x a IH]; [reflexivity|].
  change (String x ((a ++ b) ++ c) = String x (a ++ b ++ c)). rewrite IH.
  reflexivity.
Qed.

Lemma startswith_app (p rest : string) : startswith p (p ++ rest) = true.
Proof.
  induction p as [|c p IH]; simpl; [reflexivity|].
  rewrite Ascii.eqb_refl. exact IH.
Qed.

Lemma startswith_split (p s : string) :
  startswith p s = true -> exists rest, s = p ++ rest.
Proof.
  revert s. induction p as [|c p IH]; intros s H.
  - exists s. reflexivity.
  - destruct s as [|d s]; simpl in H; [discriminate|].
    apply andb_prop in H as [Hc Hp].
    apply Ascii.eqb_eq in Hc. subst d.
    destruct (IH _ Hp) as [rest ->]. exists rest. reflexivity.
Qed.

Lemma contains_startswith (p s : string) :
  startswith p s = true -> contains p s = true.
Proof. intros H. destruct s; simpl; rewrite H; reflexivity. Qed.

(** [contains] is the substring relation. *)
Lemma contains_spec (p s : string) :
  contains p s = true <-> exists before after, s = before ++ p ++ after.
Proof.
  split.
  - induction s as [|c s IH]; simpl; intros H.
    + rewrite orb_false_r in H. apply startswith_split in H as [rest ->].
      exists "", rest. reflexivity.
    + apply orb_prop in H as [H|H].
      * apply startswith_split in H as [rest ->]. exists "", rest. reflexivity.
      * destruct (IH H) as (b & a & ->). exists (String c b), a. reflexivity.
  - intros (b & a & ->). induction b as [|c b IH].
    + apply contains_startswith. apply (startswith_app p a).
    + change (String c b ++ p ++ a) with (String c (b ++ p ++ a)).
      simpl. rewrite IH. apply orb_true_r.
Qed.

(** *** Lowering *)

Lemma lower3 (c1 c2 c3 : ascii) (s : string) :
  lower (String c1 (String c2 (String c3 s)))
  = if is_dotted_I c1 c2 then
      String "i"%char (String (byte 204) (String (byte 135) (lower (String c3 s))))
    else if is_kelvin c1 c2 c3 then String "k"%char (lower s)
    else String (lower_ascii c1) (lower (String c2 (String c3 s))).
Proof. reflexivity. Qed.

Lemma lower2 (c1 c2 : ascii) :
  lower (String c1 (String c2 ""))
  = if is_dotted_I c1 c2 then
      String "i"%char (String (byte 204) (String (byte 135) ""))
    else String (lower_ascii c1) (lower (String c2 "")).
Proof. reflexivity. Qed.

Lemma dotted_I_second (c1 c2 : ascii) :
  (N_of_ascii c2 < 128)%N -> is_dotted_I c1 c2 = false.
Proof.
  intros H. unfold is_dotted_I.
  destruct (N.eqb_spec (N_of_ascii c2) 176) as [E|E]; [lia|apply andb_false_r].
Qed.

Lemma dotted_I_first (c1 c2 : ascii) :
  (N_of_ascii c1 < 128)%N -> is_dotted_I c1 c2 = false.
Proof.
  intros H. unfold is_dotted_I.
  destruct (N.eqb_spec (N_of_ascii c1) 196) as [E|E]; [lia|reflexivity].
Qed.

Lemma kelvin_first (c1 c2 c3 : ascii) :
  (N_of_ascii c1 < 128)%N -> is_kelvin c1 c2 c3 = false.
Proof.
  intros H. unfold is_kelvin.
  destruct (N.eqb_spec (N_of_ascii c1) 226) as [E|E]; [lia|reflexivity].
Qed.

Lemma kelvin_second (c1 c2 c3 : ascii) :
  (N_of_ascii c2 < 128)%N -> is_kelvin c1 c2 c3 = false.
Proof.
  intros H. unfold is_kelvin.
  destruct (N.eqb_spec (N_of_ascii c2) 132) as [E|E];
    [lia|rewrite andb_false_r; reflexivity].
Qed.

Lemma kelvin_third (c1 c2 c3 : ascii) :
  (N_of_ascii c3 < 128)%N -> is_kelvin c1 c2 c3 = false.
Proof.
  intros H. unfold is_kelvin.
  destruct (N.eqb_spec (N_of_ascii c3) 170) as [E|E];
    [lia|apply andb_false_r].
Qed.

(** An ASCII character is lowered on its own, whatever follows it. *)
Lemma lower_cons_ascii (c : ascii) (s : string) :
  (N_of_ascii c < 128)%N -> lower (String c s) = String (lower_ascii c) (lower s).
Proof.
  intros H. destruct s as [|c2 [|c3 s]].
  - reflexivity.
  - rewrite lower2, (dotted_I_first _ _ H). reflexivity.
  - rewrite lower3, (dotted_I_first _ _ H), (kelvin_first _ _ _ H). reflexivity.
Qed.

(** Lowering does not look across a place where an ASCII character starts. *)
Lemma lower_app_ascii (a s : string) :
  ascii_head s -> lower (a ++ s) = lower a ++ lower s.
Proof.
  intros Hs.
  assert (H : forall n a, (String.length a <= n)%nat ->
                lower (a ++ s) = lower a ++ lower s).
  { clear a. induction n as [|n IH]; intros a Hn.
    - destruct a; [reflexivity|simpl in Hn; lia].
    - destruct a as [|c1 [|c2 [|c3 a]]].
      + reflexivity.
      + destruct s as [|d s]; [rewrite !append_nil_r; reflexivity|].
        cbn [ascii_head] in Hs.
        change (String c1 "" ++ String d s) with (String c1 (String d s)).
        destruct s as [|d2 s].
        * rewrite lower2, (dotted_I_second _ _ Hs). reflexivity.
        * rewrite lower3, (dotted_I_second _ _ Hs), (kelvin_second _ _ _ Hs).
          reflexivity.
      + destruct s as [|d s]; [rewrite !append_nil_r; reflexivity|].
        cbn [ascii_head] in Hs.
        change (String c1 (String c2 "") ++ String d s)
          with (String c1 (String c2 (String d s))).
        rewrite lower3, lower2, (kelvin_third _ _ _ Hs).
        destruct (is_dotted_I c1 c2); [reflexivity|].
        change (String c2 (String d s)) with (String c2 "" ++ String d s).
        rewrite (IH (String c2 "")) by (simpl in *; lia). reflexivity.
      + change (String c1 (String c2 (String c3 a)) ++ s)
          with (String c1 (String c2 (String c3 (a ++ s)))).
        rewrite !lower3.
        destruct (is_dotted_I c1 c2).
        * change (String c3 (a ++ s)) with (String c3 a ++ s).
          rewrite (IH (String c3 a)) by (simpl in *; lia). reflexivity.
        * destruct (is_kelvin c1 c2 c3).
          -- rewrite (IH a) by (simpl in *; lia). reflexivity.
          -- change (String c2 (String c3 (a ++ s)))
               with (String c2 (String c3 a) ++ s).
             rewrite (IH (String c2 (String c3 a))) by (simpl in *; lia).
             reflexivity. }
  apply (H (String.length a)). lia.
Qed.

(** An ASCII text is lowered character by character, whatever follows it. *)
Lemma lower_isascii_app (a s : string) :
  isascii a = true -> lower (a ++ s) = lower a ++ lower s.
Proof.
  induction a as [|c a IH]; [reflexivity|].
  cbn [isascii]. intros H. apply andb_prop in H as [Hc Ha].
  apply N.ltb_lt in Hc.
  change (String c a ++ s) with (String c (a ++ s)).
  rewrite !(lower_cons_ascii _ _ Hc), (IH Ha). reflexivity.
Qed.

Lemma isascii_head (p rest : string) : isascii p = true -> p <> "" -> ascii_head (p ++ rest).
Proof.
  destruct p as [|c p]; [congruence|]. cbn [isascii]. intros H _.
  apply andb_prop in H as [Hc _]. apply N.ltb_lt in Hc. exact Hc.
Qed.

(** An ASCII word that lowering leaves unchanged is found in the lowered
    text wherever it is found in the text. *)
Lemma contains_lower_fixed (p s : string) :
  isascii p = true -> lower p = p ->
  contains p s = true -> contains p (lower s) = true.
Proof.
  intros Hp Hfix H. destruct p as [|c p]; [destruct (lower s); reflexivity|].
  apply contains_spec in H as (b & a & ->). apply contains_spec.
  rewrite lower_app_ascii by (apply isascii_head; [exact Hp|discriminate]).
  rewrite (lower_isascii_app _ _ Hp), Hfix.
  exists (lower b), (lower a). reflexivity.
Qed.

(** *** Characters *)

Lemma chars_app (a b : string) : chars (a ++ b) = (chars a + chars b)%nat.
Proof.
  induction a as [|c a IH]; [reflexivity|].
  change (String c a ++ b) with (String c (a ++ b)). cbn [chars].
  destruct (is_continuation c); rewrite IH; reflexivity.
Qed.

Lemma len_app (a b : string) : len (a ++ b) = len a + len b.
Proof. unfold len. rewrite chars_app. lia. Qed.

Lemma chars_take (n : nat) (s : string) : (chars (take n s) <= n)%nat.
Proof.
  revert n. induction s as [|c s IH]; intros n; cbn [take chars]; [lia|].
  destruct (is_continuation c) eqn:E; cbn [chars]; rewrite ?E; [apply IH|].
  destruct n as [|n]; cbn [chars]; rewrite ?E; [lia|].
  specialize (IH n). lia.
Qed.

(** A slice is a prefix. *)
Lemma take_prefix (n : nat) (s : string) : exists rest, s = take n s ++ rest.
Proof.
  revert n. induction s as [|c s IH]; intros n; [exists ""; reflexivity|].
  cbn [take]. destruct (is_continuation c).
  - destruct (IH n) as [rest Hr]. exists rest.
    change (String c s = String c (take n s ++ rest)). rewrite <- Hr. reflexivity.
  - destruct n as [|n]; [exists (String c s); reflexivity|].
    destruct (IH n) as [rest Hr]. exists rest.
    change (String c s = String c (take n s ++ rest)). rewrite <- Hr. reflexivity.
Qed.

Lemma take_app (n : nat) (a b : string) :
  (chars a <= n)%nat -> take n (a ++ b) = a ++ take (n - chars a) b.
Proof.
  revert n. induction a as [|c a IH]; intros n H.
  - cbn. rewrite Nat.sub_0_r. reflexivity.
  - change (String c a ++ b) with (String c (a ++ b)).
    cbn [take chars] in *. destruct (is_continuation c).
    + rewrite (IH n H). reflexivity.
    + destruct n as [|n]; [lia|].
      rewrite (IH n) by lia. reflexivity.
Qed.

Lemma take_all (n : nat) (s : string) : (chars s <= n)%nat -> take n s = s.
Proof.
  revert n. induction s as [|c s IH]; intros n H; [reflexivity|].
  cbn [take chars] in *. destruct (is_continuation c).
  - rewrite (IH n H). reflexivity.
  - destruct n as [|n]; [lia|]. rewrite (IH n) by lia. reflexivity.
Qed.

(** What a slice holds, the text holds. *)
Lemma contains_take (p : string) (n : nat) (s : string) :
  contains p (take n s) = true -> contains p s = true.
Proof.
  intros H. apply contains_spec in H as (b & a & E).
  destruct (take_prefix n s) as [rest Hr].
  apply contains_spec. exists b, (a ++ rest).
  rewrite Hr, E, !append_assoc. reflexivity.
Qed.

(** A word that ends within the first [n] characters is in the slice. *)
Lemma contains_take_within (p before after : string) (n : nat) :
  (chars before + chars p <= n)%nat ->
  contains p (take n (before ++ p ++ after)) = true.
Proof.
  intros H. rewrite take_app by lia. rewrite take_app by lia.
  apply contains_spec. eexists _, _. reflexivity.
Qed.

Lemma any_true {A} (p : A -> bool) (l : list A) (x : A) :
  In x l -> p x = true -> any p l = true.
Proof. intros Hin Hp. apply existsb_exists. exists x. split; assumption. Qed.

End PyFacts.

(** ** Task planning *)

Module PlannerFacts.

Import TaskPlanner.

Lemma image_phrases_lowercase (phrase : string) :
  In phrase _IMAGE_PHRASES -> Py.isascii phrase = true /\ Py.lower phrase = phrase.
Proof.
  intros H.
  assert (F : forallb (fun p => Py.isascii p && String.eqb (Py.lower p) p)
                _IMAGE_PHRASES = true)
    by (vm_compute; reflexivity).
  rewrite forallb_forall in F. specialize (F _ H).
  apply andb_prop in F as [F1 F2]. split; [exact F1|].
  apply String.eqb_eq. exact F2.
Qed.

Lemma is_image_request_intro (message phrase : string) :
  In phrase _IMAGE_PHRASES ->
  Py.contains phrase message = true \/ Py.contains phrase (Py.lower message) = true ->
  _is_image_request message = true.
Proof.
  intros Hin H. unfold _is_image_request.
  apply (PyFacts.any_true _ _ phrase Hin).
  destruct H as [H|H]; [|exact H].
  destruct (image_phrases_lowercase _ Hin) as [Hascii Hfix].
  exact (PyFacts.contains_lower_fixed _ _ Hascii Hfix H).
Qed.

(** C1, as stated, fails: a planner built without an API key answers an
    explicit image request with the single step [general]. *)
Lemma plan_task_image_without_client :
  In "generate an image" _IMAGE_PHRASES /\
  Py.contains "generate an image" "generate an image of a sunset" = true /\
  steps (plan_task false None "generate an image of a sunset") = ["general"] /\
  steps (plan_task false None "generate an image of a sunset") <> ["image_generation"].
Proof.
  split; [simpl; tauto|]. split; [vm_compute; reflexivity|].
  split; [reflexivity|]. vm_compute. discriminate.
Qed.

(** C1 (amended): when the planner has a language-model client, every
    message that contains one of the fixed image phrases, literally or up to
    letter case, is planned as the single step [image_generation] with
    [is_multi_step] false, whatever the classifier would answer; without a
    client the plan is the single step [general]. *)
Theorem plan_task_image_fast_path (classifier : option json)
    (message phrase : string) (client : bool) :
  In phrase _IMAGE_PHRASES ->
  Py.contains phrase message = true \/ Py.contains phrase (Py.lower message) = true ->
  steps (plan_task client classifier message)
    = (if client then ["image_generation"] else ["general"]) /\
  is_multi_step (plan_task client classifier message) = false.
Proof.
  intros Hin H. pose proof (is_image_request_intro _ _ Hin H) as E.
  unfold plan_task. destruct client; simpl; [rewrite E|]; split; reflexivity.
Qed.

Lemma plan_task_image_fast_path_witness :
  steps (plan_task true (Some (JObj [("steps", JArr [JStr "coding"])]))
           "Please DRAW ME a cat")
    = ["image_generation"] /\
  is_multi_step (plan_task true (Some (JObj [("steps", JArr [JStr "coding"])]))
                   "Please DRAW ME a cat") = false.
Proof.
  apply (plan_task_image_fast_path _ "Please DRAW ME a cat" "draw me" true).
  - simpl. tauto.
  - right. vm_compute. reflexivity.
Defined.





(** Blanks around a step are stripped, also those outside ASCII, here
    U+0085 and U+00A0, before the step is lowered and looked up. *)
Lemma normalize_step_blanks :
  normalize_step (JStr (Py.utf8 133 ++ " Coding" ++ Py.utf8 160))
    = Some ["coding"] /\
  normalize_step (JStr ("docs" ++ Py.utf8 8232)) = Some ["documentation"] /\
  normalize_step (JStr "poetry") = Some [].
Proof. repeat split. Qed.


End PlannerFacts.

(** ** Worker selection and success tracking *)

Module RouterFacts.

Import Database Router.

Local Open Scope Q_scope.

Lemma excluded_spec (health : string) :
  excluded health = true <-> health = "dead" \/ health = "unhealthy".
Proof.
  unfold excluded, Py.str_in. simpl. rewrite !orb_true_iff, !String.eqb_eq.
  intuition discriminate.
Qed.

Lemma scored_workers_sound ws health available entry :
  In entry (scored_workers ws health available) ->
  In (fst (fst entry)) available /\
  excluded (health (agent_name (fst (fst entry)))) = false /\
  snd (fst entry) = score (stats_of ws (agent_name (fst (fst entry))))
                      (health (agent_name (fst (fst entry)))).
Proof.
  induction available as [|w rest IH]; simpl; [tauto|].
  destruct (excluded (health (agent_name w))) eqn:E; simpl.
  - intros H. destruct (IH H) as (? & ? & ?). auto.
  - intros [<-|H]; simpl; [auto|].
    destruct (IH H) as (? & ? & ?). auto.
Qed.

Lemma scored_workers_complete ws health available w :
  In w available -> excluded (health (agent_name w)) = false ->
  In (w, score (stats_of ws (agent_name w)) (health (agent_name w)),
      success_rate (stats_of ws (agent_name w)))
     (scored_workers ws health available).
Proof.
  induction available as [|v rest IH]; simpl; [tauto|].
  intros [->|H] E.
  - rewrite E. left. reflexivity.
  - destruct (excluded (health (agent_name v))); [|right]; auto.
Qed.

Lemma max_from_in {A} (key : A -> Q) (best : A) (rest : list A) :
  In (max_from key best rest) (best :: rest).
Proof.
  revert best. induction rest as [|x rest IH]; intros best; simpl; [auto|].
  destruct (IH (if Qle_bool (key x) (key best) then best else x)) as [H|H].
  - destruct (Qle_bool (key x) (key best)); [left|right; left]; exact H.
  - right. right. exact H.
Qed.

Lemma max_from_ge_best {A} (key : A -> Q) (best : A) (rest : list A) :
  key best <= key (max_from key best rest).
Proof.
  revert best. induction rest as [|x rest IH]; intros best; simpl.
  - apply Qle_refl.
  - destruct (Qle_bool (key x) (key best)) eqn:E; [apply IH|].
    eapply Qle_trans; [|apply IH].
    apply Qlt_le_weak, Qnot_le_lt. intros H.
    apply Qle_bool_iff in H. congruence.
Qed.

Lemma max_from_greatest {A} (key : A -> Q) (best : A) (rest : list A) (x : A) :
  In x (best :: rest) -> key x <= key (max_from key best rest).
Proof.
  revert best. induction rest as [|y rest IH]; intros best; simpl.
  - intros [->|[]]. apply Qle_refl.
  - intros [->|[->|H]].
    + eapply Qle_trans; [|apply max_from_ge_best].
      destruct (Qle_bool (key y) (key x)) eqn:E; [apply Qle_refl|].
      apply Qlt_le_weak, Qnot_le_lt. intros H.
      apply Qle_bool_iff in H. congruence.
    + eapply Qle_trans; [|apply max_from_ge_best].
      destruct (Qle_bool (key x) (key best)) eqn:E; [|apply Qle_refl].
      apply Qle_bool_iff. exact E.
    + apply IH. right. exact H.
Qed.

(** What [select_best_worker] returns: a candidate that passed the health
    check and whose score is the greatest among those that did. *)
Lemma select_best_worker_some ws health worker_type available w :
  select_best_worker ws health worker_type available = Some w ->
  In w available /\ excluded (health (agent_name w)) = false /\
  forall v, In v available -> excluded (health (agent_name v)) = false ->
    score (stats_of ws (agent_name v)) (health (agent_name v))
      <= score (stats_of ws (agent_name w)) (health (agent_name w)).
Proof.
  unfold select_best_worker. destruct available as [|a rest]; [discriminate|].
  destruct (scored_workers ws health (a :: rest)) as [|first others] eqn:E;
    [discriminate|].
  intros [= <-].
  pose proof (max_from_in (fun x => snd (fst x)) first others) as Hin.
  rewrite <- E in Hin.
  destruct (scored_workers_sound _ _ _ _ Hin) as (H1 & H2 & H3).
  split; [exact H1|]. split; [exact H2|].
  intros v Hv Ev. rewrite <- H3.
  pose proof (scored_workers_complete ws health _ v Hv Ev) as Hc.
  rewrite E in Hc.
  exact (max_from_greatest (fun x => snd (fst x)) first others _ Hc).
Qed.

Lemma select_best_worker_none ws health worker_type available :
  select_best_worker ws health worker_type available = None <->
  forall w, In w available -> excluded (health (agent_name w)) = true.
Proof.
  unfold select_best_worker. split.
  - destruct available as [|a rest]; [intros _ w []|].
    destruct (scored_workers ws health (a :: rest)) eqn:E; [|discriminate].
    intros _ w Hw. destruct (excluded (health (agent_name w))) eqn:Ex; [reflexivity|].
    pose proof (scored_workers_complete ws health _ w Hw Ex) as Hc.
    rewrite E in Hc. destruct Hc.
  - intros Hall. destruct available as [|a rest]; [reflexivity|].
    destruct (scored_workers ws health (a :: rest)) as [|first others] eqn:E;
      [reflexivity|].
    assert (Hin : In first (scored_workers ws health (a :: rest)))
      by (rewrite E; left; reflexivity).
    destruct (scored_workers_sound _ _ _ _ Hin) as (H1 & H2 & _).
    rewrite (Hall _ H1) in H2. discriminate.
Qed.

(** C4: [select_best_worker] never returns a candidate whose health state is
    [unhealthy] or [dead]; what it returns is one of the candidates; and it
    returns [None] when every candidate is excluded by the health check, in
    particular when there is no candidate. *)
Theorem select_best_worker_health (ws : gmap string Stats)
    (health : string -> string) (worker_type : string) (available : list agent) :
  (forall w, select_best_worker ws health worker_type available = Some w ->
     In w available /\
     health (agent_name w) <> "unhealthy" /\ health (agent_name w) <> "dead") /\
  ((forall w, In w available ->
      health (agent_name w) = "unhealthy" \/ health (agent_name w) = "dead") ->
   select_best_worker ws health worker_type available = None) /\
  select_best_worker ws health worker_type [] = None.
Proof.
  split; [|split; [|reflexivity]].
  - intros w H. apply select_best_worker_some in H as (Hin & Hex & _).
    split; [exact Hin|].
    split; intros E; rewrite E in Hex; discriminate.
  - intros Hall. apply select_best_worker_none. intros w Hw.
    apply excluded_spec. destruct (Hall w Hw); auto.
Qed.

Lemma select_best_worker_health_witness :
  let coder := {| agent_id := 1; agent_name := "coder-1"; capability := "coding";
                  status := "idle"; last_heartbeat := 0; host := "10.0.0.1";
                  port := 5001; cpu_usage := 0; memory_usage := 0 |} in
  select_best_worker ∅ (fun _ => "unhealthy") "coding" [coder] = None.
Proof.
  intros coder.
  apply (proj1 (proj2 (select_best_worker_health ∅ (fun _ => "unhealthy")
                         "coding" [coder]))).
  intros w _. left. reflexivity.
Defined.

(** The counters of a worker are sound when [0 <= success <= total]. *)
Lemma success_rate_range (st : Stats) :
  (0 <= success st <= total st)%Z -> 0 <= success_rate st <= 1.
Proof.
  intros [Hs Ht]. unfold success_rate.
  destruct (total st) as [|p|p] eqn:Et; simpl.
  - split; discriminate.
  - unfold Qle, Qdiv, Qmult, Qinv, inject_Z. simpl. lia.
  - split; discriminate.
Qed.

Lemma health_factor_pos (health : string) : 0 < health_factor health.
Proof.
  unfold health_factor.
  destruct (String.eqb health "healthy"); [reflexivity|].
  destruct (String.eqb health "degraded"); reflexivity.
Qed.

Lemma score_base_pos (st : Stats) :
  (0 <= success st <= total st)%Z ->
  0 < success_rate st + inject_Z (Z.min (total st) 10) * (1 # 100).
Proof.
  intros H. pose proof (success_rate_range st H) as [Hr _].
  assert (Hm : 0 <= inject_Z (Z.min (total st) 10)).
  { change 0 with (inject_Z 0). rewrite <- Zle_Qle. lia. }
  destruct (Z.eq_dec (total st) 0%Z) as [E|E].
  - unfold success_rate. rewrite E. simpl. reflexivity.
  - assert (Hm1 : 1 <= inject_Z (Z.min (total st) 10)).
    { change 1 with (inject_Z 1). rewrite <- Zle_Qle. lia. }
    lra.
Qed.

(** C5: the score is [success_rate + min(total, 10) * 0.01], with
    [success_rate] 0.9 at zero recorded tasks, times 1.1 for a healthy and 0.9
    for a degraded worker; for equal task counts and equal health a higher
    success rate gives an equal or higher score; and with sound counters a
    healthy worker scores strictly higher than the same worker degraded. *)
Theorem score_monotone (a b : Stats) (health : string) :
  (0 <= success a <= total a)%Z ->
  score a health ==
    (success_rate a + inject_Z (Z.min (total a) 10) * (1 # 100)) *
    (if String.eqb health "healthy" then 11 # 10
     else if String.eqb health "degraded" then 9 # 10 else 1) /\
  (total a = 0%Z -> success_rate a == 9 # 10) /\
  (total a = total b -> success_rate a <= success_rate b ->
   score a health <= score b health) /\
  score a "degraded" < score a "healthy".
Proof.
  intros Ha. split; [|split; [|split]].
  - unfold score, score_from, health_factor.
    destruct (String.eqb health "healthy"); [reflexivity|].
    destruct (String.eqb health "degraded"); reflexivity.
  - intros E. unfold success_rate. rewrite E. reflexivity.
  - intros Et Hr. unfold score, score_from. rewrite <- Et.
    pose proof (health_factor_pos health) as Hf.
    apply Qmult_le_compat_r; [|apply Qlt_le_weak; exact Hf].
    lra.
  - pose proof (score_base_pos a Ha) as Hb.
    unfold score, score_from, health_factor. simpl.
    set (base := success_rate a + inject_Z (Z.min (total a) 10) * (1 # 100)) in *.
    lra.
Qed.

Lemma score_monotone_witness :
  score {| success := 3; total := 4 |} "degraded"
    < score {| success := 3; total := 4 |} "healthy".
Proof.
  apply (score_monotone {| success := 3; total := 4 |}
                        {| success := 4; total := 4 |} "healthy").
  simpl. lia.
Defined.

Lemma stats_of_log_result ws name ok other :
  stats_of (log_result ws name ok) other =
  if String.eqb name other
  then {| success := success (stats_of ws name) + (if ok then 1 else 0);
          total := total (stats_of ws name) + 1 |}
  else stats_of ws other.
Proof.
  unfold log_result, stats_of.
  destruct (String.eqb name other) eqn:E.
  - apply String.eqb_eq in E. subst other.
    rewrite lookup_insert_eq. simpl.
    destruct (ws !! name) as [st|] eqn:L; simpl.
    + rewrite L. simpl. destruct ok; simpl; f_equal; lia.
    + rewrite lookup_insert_eq. simpl. destruct ok; reflexivity.
  - apply String.eqb_neq in E.
    rewrite lookup_insert_ne by exact E.
    destruct (ws !! name); [reflexivity|].
    rewrite lookup_insert_ne by exact E. reflexivity.
Qed.

Lemma sound_stats_log_result ws name ok :
  sound_stats ws -> sound_stats (log_result ws name ok).
Proof.
  intros H other. rewrite stats_of_log_result.
  destruct (String.eqb name other); [|apply H].
  specialize (H name). simpl. destruct ok; lia.
Qed.

Lemma sound_stats_fold calls ws :
  sound_stats ws ->
  sound_stats (fold_left (fun ws call => log_result ws (fst call) (snd call))
                 calls ws).
Proof.
  revert ws. induction calls as [|[name ok] calls IH]; intros ws H; simpl.
  - exact H.
  - apply IH, sound_stats_log_result, H.
Qed.

Lemma sound_stats_replay calls : sound_stats (replay calls).
Proof.
  apply sound_stats_fold. intros name. unfold stats_of.
  rewrite lookup_empty. simpl. lia.
Qed.

(** C9: after any sequence of [log_result] calls on a new router, every
    worker name has [0 <= success <= total]; one more call adds exactly 1 to
    the [total] of the worker it names, adds 1 to its [success] only for a
    successful outcome and leaves the other workers alone; hence the
    [success_rate] read by [select_best_worker] lies in [0, 1], and is 0.9 for
    a worker with no recorded task. *)
Theorem log_result_counters (calls : list (string * bool)) (name : string) :
  let ws := replay calls in
  (0 <= success (stats_of ws name) <= total (stats_of ws name))%Z /\
  (forall worker ok,
     total (stats_of (log_result ws worker ok) worker)
       = (total (stats_of ws worker) + 1)%Z /\
     success (stats_of (log_result ws worker ok) worker)
       = (success (stats_of ws worker) + (if ok then 1 else 0))%Z /\
     (forall other, other <> worker ->
        stats_of (log_result ws worker ok) other = stats_of ws other)) /\
  0 <= success_rate (stats_of ws name) <= 1 /\
  (total (stats_of ws name) = 0%Z -> success_rate (stats_of ws name) == 9 # 10).
Proof.
  intros ws. pose proof (sound_stats_replay calls name) as H. fold ws in H.
  split; [exact H|]. split; [|split].
  - intros worker ok. rewrite !stats_of_log_result, String.eqb_refl. simpl.
    split; [reflexivity|]. split; [reflexivity|].
    intros other Hne. rewrite stats_of_log_result.
    destruct (String.eqb worker other) eqn:E; [|reflexivity].
    apply String.eqb_eq in E. congruence.
  - apply success_rate_range, H.
  - intros E. unfold success_rate. rewrite E. reflexivity.
Qed.

Lemma log_result_counters_witness :
  success_rate
    (stats_of (replay [("coder-2", true); ("coder-2", false)]) "coder-1")
  == 9 # 10.
Proof.
  apply (proj2 (proj2 (proj2 (log_result_counters
                                [("coder-2", true); ("coder-2", false)]
                                "coder-1")))).
  vm_compute. reflexivity.
Defined.

End RouterFacts.

(** ** Calling a worker *)

Module ExecutorFacts.

Import Database WorkerExecutor.

(** Every path through [execute] ends in a [return]. *)
Lemma execute_returns post elapsed worker message files context timeout :
  exists r, execute post elapsed worker message files context timeout = inr r.
Proof.
  unfold execute.
  destruct (try_block _ elapsed) as [[|msg]|r]; eexists; reflexivity.
Qed.






End ExecutorFacts.

(** ** The registry query *)

Module DatabaseFacts.

Import Database.

Lemma insert_row_in (a b : agent) (l : list agent) :
  In a (insert_row b l) <-> a = b \/ In a l.
Proof.
  induction l as [|c l IH]; simpl.
  - intuition congruence.
  - destruct (row_le b c); simpl; [intuition congruence|].
    rewrite IH. intuition congruence.
Qed.

Lemma order_rows_in (a : agent) (l : list agent) :
  In a (order_rows l) <-> In a l.
Proof.
  induction l as [|b l IH]; simpl; [tauto|].
  rewrite insert_row_in, IH. intuition congruence.
Qed.


(** For [general] and [image_generation] it returns every live worker. *)
Lemma get_available_agents_any table now task_type a :
  In task_type ["general"; "image_generation"] ->
  In a (get_available_agents table now task_type) <->
  In a table /\ is_live now a = true.
Proof.
  intros Hk. unfold get_available_agents.
  assert (E : negb (String.eqb task_type "") &&
              negb (Py.str_in task_type ["general"; "image_generation"]) = false).
  { simpl in Hk. destruct Hk as [<-|[<-|[]]]; reflexivity. }
  rewrite E, order_rows_in, filter_In. tauto.
Qed.

End DatabaseFacts.

(** ** The request pipeline *)

Module PipelineFacts.

Import Database WorkerExecutor Pipeline Readers.

Lemma validations_app (l1 l2 : list event) :
  validations (l1 ++ l2) = (validations l1 ++ validations l2)%list.
Proof.
  induction l1 as [|e l1 IH]; [reflexivity|].
  destruct e; simpl; rewrite IH; reflexivity.
Qed.

Lemma dispatched_app (l1 l2 : list event) :
  dispatched (l1 ++ l2) = (dispatched l1 ++ dispatched l2)%list.
Proof.
  induction l1 as [|e l1 IH]; [reflexivity|].
  destruct e; simpl; rewrite IH; reflexivity.
Qed.

Lemma lookups_app (l1 l2 : list event) :
  lookups (l1 ++ l2) = (lookups l1 ++ lookups l2)%list.
Proof.
  induction l1 as [|e l1 IH]; [reflexivity|].
  destruct e; simpl; rewrite IH; reflexivity.
Qed.

Lemma tasks_created_app (l1 l2 : list event) :
  tasks_created (l1 ++ l2) = (tasks_created l1 ++ tasks_created l2)%list.
Proof.
  induction l1 as [|e l1 IH]; [reflexivity|].
  destruct e; simpl; rewrite IH; reflexivity.
Qed.

Lemma direct_answers_app (l1 l2 : list event) :
  direct_answers (l1 ++ l2) = (direct_answers l1 ++ direct_answers l2)%list.
Proof.
  induction l1 as [|e l1 IH]; [reflexivity|].
  destruct e; simpl; rewrite IH; reflexivity.
Qed.

(** *** Blocks that write no row of [performance_metrics] *)

Lemma leaves_metrics_ret {A} (a : A) : leaves_metrics (ret a).
Proof. intros w. reflexivity. Qed.

Lemma leaves_metrics_ask {A} (f : nat -> A) : leaves_metrics (ask f).
Proof. intros w. reflexivity. Qed.

Lemma leaves_metrics_emit (e : event) : leaves_metrics (emit e).
Proof. intros w. reflexivity. Qed.

Lemma leaves_metrics_read_stats : leaves_metrics read_stats.
Proof. intros w. reflexivity. Qed.

Lemma leaves_metrics_write_stats s : leaves_metrics (write_stats s).
Proof. intros w. reflexivity. Qed.

Lemma leaves_metrics_bind {A B} (m : M A) (k : A -> M B) :
  leaves_metrics m -> (forall a, leaves_metrics (k a)) -> leaves_metrics (bind m k).
Proof.
  intros Hm Hk w. unfold bind. cbn [world]. rewrite Hk. apply Hm.
Qed.

Ltac leaves_parts :=
  repeat match goal with
    | |- leaves_metrics (ret _) => apply leaves_metrics_ret
    | |- leaves_metrics (ask _) => apply leaves_metrics_ask
    | |- leaves_metrics read_stats => apply leaves_metrics_read_stats
    | |- leaves_metrics (write_stats _) => apply leaves_metrics_write_stats
    | |- leaves_metrics (emit _) => apply leaves_metrics_emit
    | |- leaves_metrics (bind _ _) => apply leaves_metrics_bind; [|intros]
    | |- leaves_metrics (match ?x with _ => _ end) => destruct x
    end.

Section WithEnv.

Variable env : Env.

(** Unfold one monadic block down to the runs of its parts. *)
Ltac run_binds :=
  unfold bind, emit, ask, ret;
  cbn [result world calls clock worker_stats last_task_id performance_metrics tick].

Ltac step_into f := unfold f; run_binds.

(** *** The attempts of a single step *)

Lemma answer_directly_run message history w :
  calls (answer_directly env message history w) = [Direct message] /\
  worker_stats (world (answer_directly env message history w)) = worker_stats w.
Proof.
  step_into answer_directly.
  destruct (client env); cbn; [|split; reflexivity].
  destruct (chat_reply env _ _); cbn; split; reflexivity.
Qed.

Lemma leaves_metrics_answer_directly message history :
  leaves_metrics (answer_directly env message history).
Proof. unfold answer_directly. leaves_parts. Qed.

Lemma leaves_metrics_try_fallbacks fallbacks worker_type :
  leaves_metrics (try_fallbacks env fallbacks worker_type).
Proof.
  induction fallbacks as [|k rest IH]; cbn [try_fallbacks];
    [apply leaves_metrics_ret|].
  unfold lookup. leaves_parts. exact IH.
Qed.

Lemma leaves_metrics_find_workers step_type :
  leaves_metrics (find_workers env step_type).
Proof.
  unfold find_workers, lookup. leaves_parts. apply leaves_metrics_try_fallbacks.
Qed.

Lemma leaves_metrics_ensure_answer message history available st :
  leaves_metrics (ensure_answer env message history available st).
Proof.
  unfold ensure_answer. destruct (_ || _); leaves_parts.
  apply leaves_metrics_answer_directly.
Qed.

Lemma leaves_metrics_validate_and_log message st :
  leaves_metrics (validate_and_log env message st).
Proof. unfold validate_and_log, log_result. leaves_parts. Qed.

Lemma try_fallbacks_run fallbacks worker_type w :
  validations (calls (try_fallbacks env fallbacks worker_type w)) = [] /\
  dispatched (calls (try_fallbacks env fallbacks worker_type w)) = [] /\
  direct_answers (calls (try_fallbacks env fallbacks worker_type w)) = [].
Proof.
  revert w. induction fallbacks as [|k rest IH]; intros w.
  - repeat split.
  - cbn [try_fallbacks]. step_into lookup.
    destruct (get_available_agents _ _ k); cbn [result world calls].
    + apply IH.
    + repeat split.
Qed.

Lemma find_workers_run step_type w :
  validations (calls (find_workers env step_type w)) = [] /\
  dispatched (calls (find_workers env step_type w)) = [] /\
  direct_answers (calls (find_workers env step_type w)) = [].
Proof.
  step_into find_workers. step_into lookup.
  destruct (get_available_agents _ _ step_type); cbn [result world calls].
  - apply try_fallbacks_run.
  - repeat split.
Qed.

(** With workers of the planned kind in the registry there is one lookup
    and the fallback kinds are not tried. *)
Lemma find_workers_found step_type w :
  get_available_agents (agents_table env (clock w)) (db_now env (clock w)) step_type
    <> [] ->
  result (find_workers env step_type w)
    = (get_available_agents (agents_table env (clock w)) (db_now env (clock w))
         step_type, step_type) /\
  calls (find_workers env step_type w) = [Lookup step_type] /\
  world (find_workers env step_type w) = tick w.
Proof.
  intros Hne. step_into find_workers. step_into lookup.
  destruct (get_available_agents _ _ step_type); [congruence|].
  repeat split.
Qed.

(** What [store_execution_result] does: it raises on a missing text, on a
    value that the database refuses and on a task that has its row in
    [performance_metrics]; otherwise it writes that row. *)
Lemma store_execution_result_run task_id agent_id output_data ok w :
  let r := store_execution_result env task_id agent_id output_data ok w in
  calls r = [StoreResult task_id agent_id output_data ok] /\
  worker_stats (world r) = worker_stats w /\
  clock (world r) = S (clock w) /\
  (result r <> None <->
   output_data <> JNull /\ db_refuses_output env output_data = false /\
   performance_metrics w !! task_id = None) /\
  performance_metrics (world r)
    = match result r with
      | Some _ => <[task_id := agent_id]> (performance_metrics w)
      | None => performance_metrics w
      end.
Proof.
  unfold store_execution_result, insert_performance_metric, db_raises.
  destruct output_data; run_binds;
    try (destruct (db_refuses_output env _) eqn:Er; run_binds;
         try (destruct (performance_metrics w !! task_id) eqn:E);
         cbn [result world calls clock worker_stats performance_metrics tick
              app];
         repeat split; try reflexivity; try discriminate; try tauto;
         try (intros (_ & H & _); discriminate);
         try (intros (_ & _ & H); discriminate);
         intros H; exfalso; apply H; reflexivity).
Qed.

(** The block under [if available:].  It validates nothing and dispatches at
    most once; it removes no row of [performance_metrics]; a dispatch for a
    task that has its row there raises, and a dispatch that returns has
    written the row of the task. *)
Lemma ask_worker_run message file_data smart_context history task_id attempt
    available worker_type st w :
  let r := ask_worker env message file_data smart_context history task_id
             attempt available worker_type st w in
  validations (calls r) = [] /\
  (length (dispatched (calls r)) <= 1)%nat /\
  (forall id, performance_metrics w !! id <> None ->
     performance_metrics (world r) !! id <> None) /\
  (performance_metrics w !! task_id <> None -> dispatched (calls r) <> [] ->
   result r = None) /\
  (result r <> None -> dispatched (calls r) <> [] ->
   performance_metrics (world r) !! task_id <> None) /\
  (result r = None ->
   exists before agent_id output ok,
     calls r = (before ++ [StoreResult task_id agent_id output ok])%list).
Proof.
  unfold ask_worker. destruct available as [|a rest].
  - cbn. repeat split; auto; try lia; try congruence; discriminate.
  - step_into select_best_worker. unfold read_stats.
    cbn [result world calls clock worker_stats].
    destruct (Router.select_best_worker _ _ worker_type (a :: rest)) as [g|].
    + step_into dispatch.
      destruct (ExecutorFacts.execute_returns
                  (http_post env (S (clock w))) (http_elapsed env (S (clock w)))
                  g message file_data smart_context 120) as [r ->].
      cbn [result world calls clock worker_stats].
      destruct (store_execution_result_run task_id (agent_id g) (output r)
                  (success r) (tick (tick w))) as (Sc & _ & _ & Sr & Sm).
      cbv zeta in Sc, Sr, Sm. rewrite Sc.
      destruct (result (store_execution_result env task_id (agent_id g)
                          (output r) (success r) (tick (tick w)))) eqn:Er;
        cbn [result world calls app validations dispatched length].
      * rewrite Sm. cbn [performance_metrics tick].
        destruct (proj1 Sr ltac:(discriminate)) as (_ & _ & Hnone).
        cbn [performance_metrics tick] in Hnone.
        split; [reflexivity|]. split; [lia|]. split.
        { intros id Hid. destruct (decide (id = task_id)) as [->|Hne];
            [congruence|]. rewrite lookup_insert_ne by congruence. exact Hid. }
        split; [congruence|]. split; [|discriminate].
        intros _ _. rewrite lookup_insert_eq. discriminate.
      * rewrite Sm. cbn [performance_metrics tick].
        split; [reflexivity|]. split; [lia|]. split; [auto|].
        split; [intros; reflexivity|]. split; [congruence|].
        intros _. exists [Select worker_type (a :: rest);
                          Assign task_id (agent_id g) (attempt + 1);
                          Dispatch g message], (agent_id g), (output r), (success r).
        reflexivity.
    + run_binds.
      pose proof (leaves_metrics_answer_directly message history (tick w)) as Hm.
      destruct (answer_directly_run message history (tick w)) as [Hc _].
      rewrite Hc, Hm. cbn [performance_metrics tick app validations dispatched length].
      repeat split; auto; try lia; try congruence; discriminate.
Qed.

Lemma ensure_answer_run message history available st w :
  validations (calls (ensure_answer env message history available st w)) = [] /\
  dispatched (calls (ensure_answer env message history available st w)) = [] /\
  lookups (calls (ensure_answer env message history available st w)) = [].
Proof.
  unfold ensure_answer.
  destruct (_ || _).
  - run_binds.
    destruct (answer_directly_run message history w) as [-> _].
    repeat split.
  - repeat split.
Qed.


Lemma validate_and_log_run message st w :
  calls (validate_and_log env message st w)
    = [Validate message (response_text st) (worker_name st)
         (result (validate_and_log env message st w));
       LogResult (worker_name st) (succeeded st)].
Proof. reflexivity. Qed.

(** One attempt: when it returns, it ends with the validation of the answer
    it produced; when it raises, the call that raised is
    [store_execution_result] and nothing was validated. *)
Lemma run_attempt_run step_type message file_data smart_context history
    task_id attempt st w :
  let r := run_attempt env step_type message file_data smart_context history
             task_id attempt st w in
  (length (dispatched (calls r)) <= 1)%nat /\
  (forall id, performance_metrics w !! id <> None ->
     performance_metrics (world r) !! id <> None) /\
  (performance_metrics w !! task_id <> None -> dispatched (calls r) <> [] ->
   result r = None) /\
  (result r <> None -> dispatched (calls r) <> [] ->
   performance_metrics (world r) !! task_id <> None) /\
  match result r with
  | Some (st', verdict) =>
      exists before,
        calls r
          = (before ++ [Validate message (response_text st') (worker_name st')
                          verdict;
                        LogResult (worker_name st') (succeeded st')])%list /\
        validations before = []
  | None =>
      validations (calls r) = [] /\
      exists before agent_id output ok,
        calls r = (before ++ [StoreResult task_id agent_id output ok])%list
  end.
Proof.
  step_into run_attempt.
  destruct (find_workers_run step_type w) as (Fv & Fd & _).
  pose proof (leaves_metrics_find_workers step_type w) as Fm.
  destruct (find_workers env step_type w) as [[available worker_type] w1 c1].
  cbn [result world calls] in *.
  destruct (ask_worker_run message file_data smart_context history task_id
              attempt available worker_type st w1)
    as (Av & Ad & Amono & Araise & Astored & Anone).
  cbv zeta in Av, Ad, Amono, Araise, Astored, Anone.
  destruct (ask_worker env message file_data smart_context history task_id
              attempt available worker_type st w1) as [[st1|] w2 c2];
    cbn [result world calls] in *.
  - run_binds.
    destruct (ensure_answer_run message history available st1 w2)
      as (Ev & Ed & _).
    pose proof (leaves_metrics_ensure_answer message history available st1 w2)
      as Em.
    destruct (ensure_answer env message history available st1 w2)
      as [st2 w3 c3].
    cbn [result world calls] in *. rewrite validate_and_log_run.
    rewrite !dispatched_app, !length_app, Fd, Ed. cbn [length app dispatched].
    rewrite !app_nil_r.
    rewrite (leaves_metrics_validate_and_log message st2 w3), Em.
    rewrite <- Fm in *.
    split; [lia|]. split; [exact Amono|].
    split; [intros H1 H2; discriminate (Araise H1 H2)|].
    split; [intros _ H2; apply Astored; [discriminate|exact H2]|].
    exists (c1 ++ c2 ++ c3)%list. split.
    + rewrite <- !app_assoc. reflexivity.
    + rewrite !validations_app, Fv, Av, Ev. reflexivity.
  - rewrite app_nil_r, !dispatched_app, !validations_app, Fd, Fv, Av.
    cbn [app]. rewrite <- Fm in *.
    split; [exact Ad|]. split; [exact Amono|].
    split; [intros; reflexivity|]. split; [congruence|].
    split; [reflexivity|].
    destruct (Anone eq_refl) as (before & agent & out & ok & ->).
    exists (c1 ++ before)%list, agent, out, ok. rewrite app_assoc. reflexivity.
Qed.

Lemma accepted_spec (verdict : validation) :
  accepted verdict = true <->
  should_retry verdict = false \/ (6 <= quality_score verdict)%Q.
Proof.
  unfold accepted. rewrite orb_true_iff, negb_true_iff, Qle_bool_iff. tauto.
Qed.

Lemma rejected_spec (verdict : validation) :
  accepted verdict = false <->
  should_retry verdict = true /\ (quality_score verdict < 6)%Q.
Proof.
  unfold accepted. rewrite orb_false_iff, negb_false_iff. split.
  - intros [Hs Hq]. split; [exact Hs|]. apply Qnot_le_lt. intros H.
    apply Qle_bool_iff in H. congruence.
  - intros [Hs Hq]. split; [exact Hs|].
    destruct (Qle_bool 6 (quality_score verdict)) eqn:E; [|reflexivity].
    apply Qle_bool_iff in E. apply Qle_not_lt in E. contradiction.
Qed.

(** The loop over any list of attempts.  When it returns, every attempt but
    the last one made was rejected and the variables returned are those of
    the last one; when it raises, every answer validated so far was rejected
    and the call that raised is [store_execution_result].  Two dispatches
    for the same task never return. *)
Lemma retry_loop_run step_type message file_data smart_context history task_id
    attempts st w :
  let r := retry_loop env step_type message file_data smart_context history
             task_id attempts st w in
  (length (dispatched (calls r)) <= length attempts)%nat /\
  (forall id, performance_metrics w !! id <> None ->
     performance_metrics (world r) !! id <> None) /\
  (performance_metrics w !! task_id <> None -> dispatched (calls r) <> [] ->
   result r = None) /\
  ((2 <= length (dispatched (calls r)))%nat -> result r = None) /\
  match result r with
  | Some st' =>
      attempts <> [] ->
      exists rejected verdict,
        validations (calls r) = (rejected ++ [(response_text st', verdict)])%list /\
        Forall (fun av => accepted (snd av) = false) rejected /\
        (length rejected < length attempts)%nat /\
        (S (length rejected) < length attempts -> accepted verdict = true)%nat
  | None =>
      Forall (fun av => accepted (snd av) = false) (validations (calls r)) /\
      (length (validations (calls r)) < length attempts)%nat /\
      exists before agent_id output ok,
        calls r = (before ++ [StoreResult task_id agent_id output ok])%list
  end.
Proof.
  revert st w. induction attempts as [|attempt rest IH]; intros st w.
  - cbn. repeat split; auto; try lia; congruence.
  - cbn [retry_loop]. run_binds.
    destruct (run_attempt_run step_type message file_data smart_context history
                task_id attempt st w) as (Rd & Rmono & Rraise & Rstored & Rmatch).
    cbv zeta in Rd, Rmono, Rraise, Rstored, Rmatch.
    destruct (run_attempt env step_type message file_data smart_context history
                task_id attempt st w) as [[[st1 v1]|] w1 c1];
      cbn [result world calls] in *.
    + destruct Rmatch as (before & -> & Bv).
      fold (accepted v1).
      assert (Hv1 : validations
                      (before ++ [Validate message (response_text st1)
                                    (worker_name st1) v1;
                                  LogResult (worker_name st1) (succeeded st1)])
                    = [(response_text st1, v1)]).
      { rewrite validations_app, Bv. reflexivity. }
      destruct (accepted v1) eqn:Acc.
      * cbn [result world calls length]. rewrite app_nil_r, Hv1.
        split; [lia|]. split; [exact Rmono|].
        split; [intros H1 H2; discriminate (Rraise H1 H2)|].
        split; [intros H; lia|].
        intros _. exists [], v1. cbn [app length]. repeat split; auto; lia.
      * specialize (IH st1 w1). cbv zeta in IH.
        destruct IH as (Id & Imono & Iraise & I2 & Imatch).
        set (rr := retry_loop env step_type message file_data smart_context
                     history task_id rest st1 w1) in *.
        rewrite dispatched_app, length_app, validations_app, Hv1.
        cbn [length].
        split; [lia|]. split; [auto|].
        assert (Hsplit : forall (P : Prop),
                  (dispatched
                     (before ++ [Validate message (response_text st1)
                                   (worker_name st1) v1;
                                 LogResult (worker_name st1) (succeeded st1)])
                   = [] -> P) ->
                  (dispatched
                     (before ++ [Validate message (response_text st1)
                                   (worker_name st1) v1;
                                 LogResult (worker_name st1) (succeeded st1)])
                   <> [] -> P) -> P).
        { intros P H1 H2. destruct (dispatched (before ++ _)); [apply H1|apply H2];
            congruence. }
        split; [|split].
        -- intros Hrow Hd. apply (Hsplit (result rr = None)).
           ++ intros E. rewrite E in Hd. apply Iraise; auto.
           ++ intros Hne. discriminate (Rraise Hrow Hne).
        -- intros H2. apply (Hsplit (result rr = None)).
           ++ intros E. rewrite E in H2. cbn [length] in H2. apply I2. lia.
           ++ intros Hne. apply Iraise.
              ** apply Rstored; [discriminate|exact Hne].
              ** intros E. rewrite E in H2. cbn [length] in H2.
                 destruct (dispatched (before ++ _)) as [|x [|y l]];
                   cbn [length] in *; try congruence; lia.
        -- destruct (result rr) as [st'|] eqn:Er.
           ++ intros _. destruct rest as [|attempt' rest'].
              ** subst rr. cbn in Er. injection Er as <-. cbn.
                 exists [], v1. cbn [app length]. repeat split; auto; lia.
              ** destruct (Imatch ltac:(discriminate))
                   as (rejected & verdict & Hv & Hf & Hl & Ha).
                 exists ((response_text st1, v1) :: rejected), verdict.
                 rewrite Hv. split; [reflexivity|].
                 split; [constructor; [exact Acc|exact Hf]|].
                 cbn [length] in *. split; [lia|]. intros H. apply Ha. lia.
           ++ destruct Imatch as (Hf & Hl & before' & agent & out & ok & Hc).
              split; [constructor; [exact Acc|exact Hf]|].
              cbn [app length]. split; [lia|].
              exists ((before ++ [Validate message (response_text st1)
                                    (worker_name st1) v1;
                                  LogResult (worker_name st1) (succeeded st1)])
                      ++ before')%list, agent, out, ok.
              rewrite Hc. apply app_assoc.
    + destruct Rmatch as (Rv & before & agent & out & ok & ->).
      cbn [result world calls]. rewrite app_nil_r, Rv. cbn [length].
      split; [lia|]. split; [exact Rmono|]. split; [intros; reflexivity|].
      split; [intros; reflexivity|]. split; [constructor|]. split; [lia|].
      exists before, agent, out, ok. reflexivity.
Qed.

(** C6 (as the code behaves): a single step validates at most 2 answers and
    dispatches at most 2 times.  When it returns, every attempt but the last
    one made was rejected (the validator asked for a retry and scored it
    below 6), the answer returned is the one of the last attempt made, and a
    step that returns after one attempt had that answer accepted.  But a
    step whose two attempts are both dispatched to a worker does not return:
    the second call of [store_execution_result] for the task raises, and the
    exception leaves the step; the answers validated before an exception
    were all rejected, and there is at most one. *)
Theorem single_step_retries (step_type message : string)
    (file_data : list upload) (file_context : string) (history : list turn)
    (w : World) :
  let run := execute_single_step env step_type message file_data file_context
               history w in
  (length (validations (calls run)) <= 2)%nat /\
  (length (dispatched (calls run)) <= 2)%nat /\
  (forall answer artifact,
     result run = Some (answer, artifact) ->
     exists rejected verdict,
       validations (calls run) = (rejected ++ [(answer, verdict)])%list /\
       Forall (fun av => should_retry (snd av) = true /\
                         (quality_score (snd av) < 6)%Q) rejected /\
       ((length (validations (calls run)) < 2)%nat ->
        should_retry verdict = false \/ (6 <= quality_score verdict)%Q)) /\
  (length (dispatched (calls run)) = 2%nat -> result run = None) /\
  (result run = None ->
   Forall (fun av => should_retry (snd av) = true /\
                     (quality_score (snd av) < 6)%Q) (validations (calls run)) /\
   (length (validations (calls run)) < 2)%nat).
Proof.
  intros run. subst run. step_into execute_single_step.
  unfold create_task, insert_user_task, db_raises. run_binds.
  destruct (db_refuses_task env message step_type); run_binds.
  { cbn. split; [lia|]. split; [lia|]. split; [discriminate|].
    split; [discriminate|]. intros _. split; [constructor|lia]. }
  match goal with
  | |- context [retry_loop env ?a ?b ?c ?d ?e ?f ?g ?h ?i] =>
      destruct (retry_loop_run a b c d e f g h i)
        as (Hd & _ & _ & H2 & Hmatch);
      cbv zeta in Hd, H2, Hmatch;
      destruct (retry_loop env a b c d e f g h i) as [[st'|] w' c']
  end; cbn [result world calls] in *;
    change (length (range max_retries)) with 2%nat in *;
    rewrite ?app_nil_r; cbn [app validations dispatched].
  - destruct (Hmatch ltac:(discriminate)) as (rejected & verdict & Hv & Hf & Hl & Ha).
    rewrite Hv, length_app. cbn [length].
    split; [lia|]. split; [exact Hd|]. split; [|split].
    + intros answer artifact [= <- <-]. exists rejected, verdict.
      split; [reflexivity|]. split.
      * eapply Forall_impl; [exact Hf|]. intros av. apply rejected_spec.
      * intros Hlt. apply accepted_spec, Ha. lia.
    + intros H. specialize (H2 ltac:(lia)). discriminate.
    + discriminate.
  - destruct Hmatch as (Hf & Hl & _).
    split; [lia|]. split; [exact Hd|]. split; [discriminate|].
    split; [intros; reflexivity|]. intros _.
    split; [eapply Forall_impl; [exact Hf|]; intros av; apply rejected_spec|].
    exact Hl.
Qed.

(** *** Unhealthy workers of the planned kind *)


(** *** Multi-step plans *)

Lemma try_fallbacks_created fallbacks worker_type w :
  tasks_created (calls (try_fallbacks env fallbacks worker_type w)) = [].
Proof.
  revert w. induction fallbacks as [|k rest IH]; intros w; [reflexivity|].
  cbn [try_fallbacks]. step_into lookup.
  destruct (get_available_agents _ _ k); cbn [result world calls];
    [apply IH|reflexivity].
Qed.

Lemma run_attempt_created step_type message file_data smart_context history
    task_id attempt st w :
  tasks_created (calls (run_attempt env step_type message file_data
                          smart_context history task_id attempt st w)) = [].
Proof.
  step_into run_attempt.
  assert (Hf : tasks_created (calls (find_workers env step_type w)) = []).
  { step_into find_workers. step_into lookup.
    destruct (get_available_agents _ _ step_type); cbn [result world calls];
      [apply try_fallbacks_created|reflexivity]. }
  destruct (find_workers env step_type w) as [[available worker_type] w1 c1].
  cbn [result world calls] in *.
  assert (Ha : tasks_created
                 (calls (ask_worker env message file_data smart_context history
                           task_id attempt available worker_type st w1)) = []).
  { unfold ask_worker. destruct available as [|a rest]; [reflexivity|].
    step_into select_best_worker. unfold read_stats.
    cbn [result world calls clock worker_stats].
    destruct (Router.select_best_worker _ _ worker_type (a :: rest)) as [g|].
    - step_into dispatch.
      destruct (execute _ _ g _ _ _ _) as [e|r]; [reflexivity|]. run_binds.
      match goal with
      | |- context [store_execution_result env ?a ?b ?c ?d ?w0] =>
          rewrite (proj1 (store_execution_result_run a b c d w0));
          destruct (result (store_execution_result env a b c d w0))
      end; reflexivity.
    - run_binds. rewrite (proj1 (answer_directly_run message history _)).
      reflexivity. }
  destruct (ask_worker env message file_data smart_context history task_id
              attempt available worker_type st w1) as [[st1|] w2 c2];
    cbn [result world calls] in *;
    [|rewrite !tasks_created_app, Hf, Ha; reflexivity].
  assert (He : tasks_created
                 (calls (ensure_answer env message history available st1 w2)) = []).
  { unfold ensure_answer. destruct (_ || _); [|reflexivity].
    run_binds. rewrite (proj1 (answer_directly_run message history w2)).
    reflexivity. }
  run_binds. rewrite !tasks_created_app, Hf, Ha, He. reflexivity.
Qed.

Lemma retry_loop_created step_type message file_data smart_context history
    task_id attempts st w :
  tasks_created (calls (retry_loop env step_type message file_data
                          smart_context history task_id attempts st w)) = [].
Proof.
  revert st w. induction attempts as [|attempt rest IH]; intros st w;
    [reflexivity|].
  cbn [retry_loop]. run_binds.
  pose proof (run_attempt_created step_type message file_data smart_context
                history task_id attempt st w) as Hr.
  destruct (run_attempt env step_type message file_data smart_context history
              task_id attempt st w) as [[[st1 v1]|] w1 c1];
    cbn [result world calls] in *; rewrite !tasks_created_app, Hr;
    [|reflexivity].
  destruct (_ || _); [reflexivity|apply IH].
Qed.

(** A single step creates exactly one task, of the kind of the step. *)
Lemma execute_single_step_created step_type message file_data file_context
    history w :
  tasks_created (calls (execute_single_step env step_type message file_data
                          file_context history w)) = [step_type].
Proof.
  step_into execute_single_step.
  unfold create_task, insert_user_task, db_raises. run_binds.
  destruct (db_refuses_task env message step_type); run_binds;
    [reflexivity|].
  match goal with
  | |- context [retry_loop env ?a ?b ?c ?d ?e ?f ?g ?h ?i] =>
      pose proof (retry_loop_created a b c d e f g h i) as Hr;
      destruct (retry_loop env a b c d e f g h i) as [[st1|] w1 c1]
  end; cbn [result world calls app tasks_created] in *;
    rewrite !tasks_created_app, Hr; reflexivity.
Qed.

(** The steps that ran are the first steps of the plan, in the order of the
    plan, one output each. *)
Lemma executed_steps_order message file_data history total todo done context w
    outs :
  result (executed_steps env message file_data history total todo done context w)
    = Some outs ->
  exists more,
    outs = (done ++ more)%list /\
    tasks_created (calls (executed_steps env message file_data history total
                            todo done context w))
      = firstn (length more) todo.
Proof.
  revert done context w. induction todo as [|step_type rest IH];
    intros done context w.
  - cbn. intros [= <-]. exists []. rewrite app_nil_r. split; reflexivity.
  - cbn [executed_steps]. run_binds.
    pose proof (execute_single_step_created step_type
                  (step_message (length done) message
                     (join separator (List.map fst done)) step_type)
                  file_data context history w) as Hc.
    destruct (execute_single_step env step_type _ file_data context history w)
      as [[[[| | | |text| |] artifact]|] w1 c1];
      cbn [result world calls] in *; try discriminate.
    destruct (TaskPlanner.should_continue_to_next_step _ total text).
    + intros Hres. destruct (IH _ _ _ Hres) as (more & -> & Hm).
      exists ((text, artifact) :: more). rewrite <- app_assoc.
      split; [reflexivity|].
      rewrite tasks_created_app, Hc, Hm. reflexivity.
    + cbn. intros [= <-]. exists [(text, artifact)].
      split; [reflexivity|].
      rewrite app_nil_r, Hc. reflexivity.
Qed.

Lemma string_app_assoc (a b c : string) : (a ++ b) ++ c = a ++ b ++ c.
Proof.
  induction a as [|x a IH]; [reflexivity|].
  change (String x ((a ++ b) ++ c) = String x (a ++ b ++ c)). rewrite IH.
  reflexivity.
Qed.

Lemma join_snoc (sep : string) (l : list string) (x : string) :
  l <> [] -> join sep (l ++ [x]) = join sep l ++ sep ++ x.
Proof.
  induction l as [|a l IH]; [congruence|]. intros _.
  destruct l as [|b l].
  - reflexivity.
  - change (a ++ sep ++ join sep ((b :: l) ++ [x])
            = (a ++ sep ++ join sep (b :: l)) ++ sep ++ x).
    rewrite IH by discriminate. rewrite !string_app_assoc. reflexivity.
Qed.

Lemma latest_artifact_snoc (l : list (option json)) (x : option json) :
  latest_artifact (l ++ [x])
    = match x with Some _ => x | None => latest_artifact l end.
Proof. unfold latest_artifact. rewrite fold_left_app. reflexivity. Qed.

(** The loop of [execute_multi_step] against the list of the steps it runs:
    it keeps the outputs joined by the separator and the latest artifact. *)
Lemma multi_loop_run message file_data history total todo done st w :
  final_response st = join separator (List.map fst done) ->
  final_extra_data st = latest_artifact (List.map snd done) ->
  let a := multi_loop env message file_data history total (length done) todo
             st w in
  let b := executed_steps env message file_data history total todo done
             (accumulated_context st) w in
  world a = world b /\ calls a = calls b /\
  match result b with
  | Some outs =>
      exists st',
        result a = Some st' /\
        final_response st' = join separator (List.map fst outs) /\
        final_extra_data st' = latest_artifact (List.map snd outs) /\
        (length outs <= length done + length todo)%nat
  | None => result a = None
  end.
Proof.
  revert done st w. induction todo as [|step_type rest IH]; intros done st w Hf He.
  - cbn. split; [reflexivity|]. split; [reflexivity|].
    exists st. repeat split; auto; lia.
  - cbn [multi_loop executed_steps]. run_binds. rewrite Hf.
    set (r := execute_single_step env step_type _ file_data
                (accumulated_context st) history w).
    destruct (result r) as [[[| | | |text| |] artifact]|];
      try (cbn; repeat split; reflexivity).
    set (st1 := absorb (length done) step_type st text artifact).
    set (done1 := (done ++ [(text, artifact)])%list).
    assert (Hf1 : final_response st1 = join separator (List.map fst done1)).
    { unfold st1, done1, absorb. cbn [final_response].
      rewrite List.map_app. cbn [List.map fst].
      destruct done as [|d ds]; [reflexivity|].
      cbn [length]. rewrite Hf, join_snoc by discriminate. reflexivity. }
    assert (He1 : final_extra_data st1 = latest_artifact (List.map snd done1)).
    { unfold st1, done1, absorb. cbn [final_extra_data].
      rewrite List.map_app. cbn [List.map snd]. rewrite latest_artifact_snoc.
      destruct done as [|d ds]; [destruct artifact; reflexivity|].
      cbn [length]. rewrite He. reflexivity. }
    destruct (TaskPlanner.should_continue_to_next_step _ total text).
    + specialize (IH done1 st1 (world r) Hf1 He1).
      assert (Hlen : length done1 = S (length done))
        by (unfold done1; rewrite length_app; simpl; lia).
      rewrite Hlen in IH. cbn zeta in IH.
      destruct IH as (Hw & Hc & Hres).
      change (accumulated_context st1) with
        (accumulated_context st ++ nl ++ nl ++ "Step " ++
         str_of_Z (Z.of_nat (length done) + 1) ++ " (" ++ step_type ++
         ") result:" ++ nl ++ Py.take 500 text) in Hw, Hc, Hres.
      split; [exact Hw|]. split; [rewrite Hc; reflexivity|].
      destruct (result (executed_steps env message file_data history total rest
                          done1 _ (world r))) as [outs|]; [|exact Hres].
      destruct Hres as (st' & H1 & H2 & H3 & H4).
      exists st'. repeat split; auto. cbn [length]. lia.
    + cbn. split; [reflexivity|]. split; [reflexivity|].
      exists st1. repeat split; auto.
      unfold done1. rewrite length_app. simpl. lia.
Qed.

(** C7 (amended): the steps that run are the first steps of the plan, in
    plan order; the response is their outputs, in that order, joined by the
    separator [\n\n---\n\n]; the aggregate artifact is the one of the latest
    step that came with one: the artifact of the final step when it has one,
    otherwise the one kept from an earlier step. *)
Theorem multi_step_aggregate (task_plan : TaskPlanner.Plan) (message : string)
    (file_data : list upload) (file_context : string) (history : list turn)
    (w : World) :
  let run := execute_multi_step env task_plan message file_data file_context
               history w in
  let ran := executed_steps env message file_data history
               (Z.of_nat (length (TaskPlanner.steps task_plan)))
               (TaskPlanner.steps task_plan) [] file_context w in
  calls run = calls ran /\ world run = world ran /\
  match result ran with
  | Some outs =>
      result run = Some (join separator (List.map fst outs),
                         latest_artifact (List.map snd outs)) /\
      (length outs <= length (TaskPlanner.steps task_plan))%nat /\
      tasks_created (calls run)
        = firstn (length outs) (TaskPlanner.steps task_plan)
  | None => result run = None
  end /\
  (forall (earlier : list (option json)) (last : option json),
     latest_artifact (earlier ++ [last])
       = match last with Some _ => last | None => latest_artifact earlier end).
Proof.
  intros run ran. subst run ran. step_into execute_multi_step.
  pose proof (multi_loop_run message file_data history
                (Z.of_nat (length (TaskPlanner.steps task_plan)))
                (TaskPlanner.steps task_plan) []
                {| final_response := ""; final_extra_data := None;
                   accumulated_context := file_context |} w eq_refl eq_refl)
    as (Hw & Hc & Hres).
  cbn [length accumulated_context] in Hw, Hc, Hres.
  rewrite Hw, Hc, app_nil_r.
  split; [reflexivity|]. split; [reflexivity|].
  split; [|apply latest_artifact_snoc].
  destruct (result (executed_steps _ _ _ _ _ _ _ _ _)) as [outs|] eqn:Eo.
  - destruct Hres as (st' & -> & H2 & H3 & H4). cbn [option_map].
    rewrite H2, H3. split; [reflexivity|]. split; [simpl in H4; exact H4|].
    destruct (executed_steps_order _ _ _ _ _ _ _ _ _ Eo) as (more & -> & Hm).
    exact Hm.
  - rewrite Hres. reflexivity.
Qed.

(** *** Short general requests *)

Lemma parsed_texts_run files w :
  calls (parsed_texts env files w) = [] /\
  worker_stats (world (parsed_texts env files w)) = worker_stats w.
Proof.
  revert w. induction files as [|file rest IH]; intros w; [split; reflexivity|].
  cbn [parsed_texts]. run_binds.
  destruct (IH (tick w)) as [Hc Hs].
  destruct (parse_document env (clock w) (filename file) (content file))
    as [text|]; [destruct (0 <? Py.len (Py.strip text))|];
    cbn [result world calls]; rewrite Hc, Hs; split; reflexivity.
Qed.

Lemma process_uploads_run files w :
  calls (process_uploads env files w) = [] /\
  worker_stats (world (process_uploads env files w)) = worker_stats w.
Proof.
  unfold process_uploads. destruct files as [|file rest]; [split; reflexivity|].
  run_binds. destruct (parsed_texts_run (file :: rest) w) as [-> ->].
  split; reflexivity.
Qed.

(** What [process_message] has done when the plan is ready. *)
Lemma prepare_run user_id message conversation_id files w :
  let prep := prepare env user_id message conversation_id files w in
  calls prep = [StoreMessage (fst (fst (fst (fst (result prep))))) "user"
                  (JStr message);
                Planned message (snd (result prep))] /\
  worker_stats (world prep) = worker_stats w /\
  exists reply,
    snd (result prep) = TaskPlanner.plan_task (client env) reply message.
Proof.
  assert (Hgen : forall (first : M string) w0,
    calls (first w0) = [] -> worker_stats (world (first w0)) = worker_stats w0 ->
    let prep :=
      (let* conversation_id := first in
       let* _ := emit (StoreMessage conversation_id "user" (JStr message)) in
       let* (file_data, file_context) := process_uploads env files in
       let* history := ask (fun t => last_messages env t conversation_id) in
       let* task_plan := plan_task env message file_data in
       ret (conversation_id, file_data, file_context, history, task_plan)) w0 in
    calls prep = [StoreMessage (fst (fst (fst (fst (result prep))))) "user"
                    (JStr message);
                  Planned message (snd (result prep))] /\
    worker_stats (world prep) = worker_stats w0 /\
    exists reply,
      snd (result prep) = TaskPlanner.plan_task (client env) reply message).
  { intros first w0 Hc Hs. run_binds. rewrite Hc.
    destruct (process_uploads_run files (world (first w0))) as [Pc Ps].
    destruct (process_uploads env files (world (first w0)))
      as [[file_data file_context] w1 c1].
    cbn [result world calls] in *. subst c1.
    step_into plan_task. cbn [fst snd app].
    split; [reflexivity|]. split; [congruence|]. eexists. reflexivity. }
  unfold prepare.
  destruct conversation_id as [c|]; [destruct (String.eqb c "")|];
    apply Hgen; reflexivity.
Qed.

Lemma single_step_is_not_multi client reply message :
  TaskPlanner.is_multi_step (TaskPlanner.plan_task client reply message)
    = (1 <? Z.of_nat (length (TaskPlanner.steps
                                (TaskPlanner.plan_task client reply message)))).
Proof.
  unfold TaskPlanner.plan_task.
  destruct client; [|reflexivity]. cbn [negb].
  destruct (TaskPlanner._is_image_request message); [reflexivity|].
  destruct reply as [result|]; [|reflexivity].
  unfold TaskPlanner.plan_of_result.
  destruct result as [| | | | | |d]; try reflexivity.
  destruct (Py.assoc "steps" d) as [[| | | | |l|]|]; try reflexivity.
  destruct (TaskPlanner.collect_steps l); reflexivity.
Qed.

(** C10: when the plan of a request is the single step [general] and the
    stripped message is shorter than 50 characters, [process_message] stores
    the message, plans, lets the master answer with [answer_directly], stores
    that answer and returns it: it makes no registry lookup, no selection, no
    dispatch and no validation, and leaves the success counters untouched. *)
Theorem short_general_is_answered_directly (user_id message : string)
    (conversation_id : option string) (files : list upload) (w : World) :
  let prep := prepare env user_id message conversation_id files w in
  let task_plan := snd (result prep) in
  let history := snd (fst (result prep)) in
  let cid := fst (fst (fst (fst (result prep)))) in
  let answer := result (answer_directly env message history (world prep)) in
  let run := process_message env user_id message conversation_id files w in
  TaskPlanner.steps task_plan = ["general"] ->
  Py.len (Py.strip message) < 50 ->
  calls run = [StoreMessage cid "user" (JStr message);
               Planned message task_plan;
               Direct message;
               StoreMessage cid "assistant" answer] /\
  result run = Some {| response := answer; conversation := cid; file := None |} /\
  existsb on_worker_path (calls run) = false /\
  lookups (calls run) = [] /\ dispatched (calls run) = [] /\
  validations (calls run) = [] /\
  worker_stats (world run) = worker_stats w.
Proof.
  intros prep task_plan history cid answer run Hsteps Hshort.
  destruct (prepare_run user_id message conversation_id files w)
    as (Pc & Ps & reply & Hplan).
  fold prep in Pc, Ps, Hplan. fold task_plan in Hplan, Pc. fold cid in Pc.
  assert (Hmulti : TaskPlanner.is_multi_step task_plan = false).
  { rewrite Hplan, single_step_is_not_multi, <- Hplan, Hsteps. reflexivity. }
  assert (Hrun : calls run = (calls prep ++ [Direct message;
                                StoreMessage cid "assistant" answer])%list /\
                 result run = Some {| response := answer; conversation := cid;
                                      file := None |} /\
                 worker_stats (world run) = worker_stats (world prep)).
  { subst run task_plan history cid answer.
    destruct (result prep) as [[[[c fd] fc] h] p] eqn:Eprep. cbn [fst snd] in *.
    step_into process_message. fold prep. rewrite Eprep. cbv beta iota.
    unfold run_plan. rewrite Hmulti, Hsteps. cbn [hd].
    apply Z.ltb_lt in Hshort. rewrite Hshort, String.eqb_refl. cbn [andb].
    run_binds.
    destruct (answer_directly_run message h (world prep)) as [Ac As].
    rewrite Ac, As. repeat split. }
  destruct Hrun as (Hc & Hr & Hs). rewrite Hc, Pc, Hr, Hs, Ps.
  repeat split.
Qed.

End WithEnv.

Import Scenarios.



(** C6, as stated, fails: the validator rejects the answer of the first
    attempt and the second attempt is dispatched as well; storing its result
    raises, so the step does not return the current answer: it returns
    nothing, and the second answer is never validated. *)
Lemma never_satisfied_second_dispatch_raises :
  let run := execute_single_step never_satisfied "coding" "write add" [] "" []
               fresh_world in
  result run = None /\
  dispatched (calls run) = [helper_a; helper_a] /\
  validations (calls run) = [(JStr "ok", poor_verdict)] /\
  List.last (calls run) (Direct "")
    = StoreResult 1 (agent_id helper_a) (JStr "ok") true.
Proof. vm_compute. repeat split. Qed.

(** A result without text cannot be stored either ([output_data] is
    [NOT NULL]): the step raises at its first attempt, before the master
    could answer in place of the worker. *)
Example silent_failure_raises :
  let run := execute_single_step silent_failure "coding" "write add" [] "" []
               fresh_world in
  result run = None /\
  dispatched (calls run) = [helper_a] /\
  validations (calls run) = [] /\
  direct_answers (calls run) = [] /\
  List.last (calls run) (Direct "")
    = StoreResult 1 (agent_id helper_a) JNull false.
Proof. vm_compute. repeat split. Qed.

(** C7, as stated, fails: the final step comes without an artifact, and the
    aggregate still carries the file of the first step. *)
Lemma first_step_file_is_kept :
  let ran := executed_steps file_then_text "chart sales then report" [] [] 2
               (TaskPlanner.steps two_steps) [] "" fresh_world in
  let run := execute_multi_step file_then_text two_steps
               "chart sales then report" [] "" [] fresh_world in
  result ran = Some [("Chart drawn.", Some chart);
                     ("The chart shows steady growth.", None)] /\
  result run = Some ("Chart drawn." ++ separator ++
                     "The chart shows steady growth.", Some chart) /\
  snd <$> result run <> Some None.
Proof.
  split; [vm_compute; reflexivity|]. split; [vm_compute; reflexivity|].
  vm_compute. discriminate.
Qed.

(** Thirteen emoji (U+1F600), with a blank before and after: 13 characters
    once stripped, in 52 bytes. *)
Lemma short_general_is_answered_directly_witness :
  let message := " " ++ Py.times (Py.utf8 128512) 13 ++ " " in
  let run := process_message never_satisfied "u1" message None [] fresh_world in
  (String.length (Py.strip message) = 52)%nat /\
  direct_answers (calls run) = [message] /\ lookups (calls run) = [] /\
  validations (calls run) = [].
Proof.
  intros message. split; [reflexivity|].
  destruct (short_general_is_answered_directly never_satisfied "u1" message
              None [] fresh_world eq_refl ltac:(vm_compute; reflexivity))
    as (Hc & _ & _ & Hl & _ & Hv & _).
  cbv zeta. rewrite Hl, Hv, Hc. repeat split.
Defined.

End PipelineFacts.

(** * Further properties *)

(** ** More on strings *)

Module PyMore.

Import Py.

Lemma contains_skip (a p s : string) :
  contains p s = true -> contains p (a ++ s) = true.
Proof.
  intros H. apply PyFacts.contains_spec in H as (b & c & ->).
  apply PyFacts.contains_spec. exists (a ++ b), c.
  induction a as [|x a IH]; [reflexivity|].
  change (String x (a ++ b ++ p ++ c) = String x ((a ++ b) ++ p ++ c)).
  rewrite IH. reflexivity.
Qed.

Lemma contains_head (p rest : string) : contains p (p ++ rest) = true.
Proof. apply PyFacts.contains_startswith, PyFacts.startswith_app. Qed.

Lemma contains_self (p : string) : contains p p = true.
Proof.
  apply PyFacts.contains_spec. exists "", "".
  induction p as [|x p IH]; [reflexivity|].
  change (String x p = String x (p ++ "")). f_equal. exact IH.
Qed.

Lemma str_in_In (x : string) (l : list string) :
  str_in x l = true -> In x l.
Proof.
  unfold str_in. intros H. apply existsb_exists in H as (t & Hin & Heq).
  apply String.eqb_eq in Heq. rewrite Heq. exact Hin.
Qed.

End PyMore.

(** ** More on task planning *)

Module PlannerMore.

Import TaskPlanner Readers.

Lemma error_indicators_shape (indicator : string) :
  In indicator error_indicators -> Py.isascii indicator = true /\ indicator <> "".
Proof.
  intros H.
  assert (F : forallb (fun i => Py.isascii i && negb (String.eqb i ""))
                error_indicators = true) by reflexivity.
  rewrite forallb_forall in F. specialize (F _ H).
  apply andb_prop in F as [F1 F2]. split; [exact F1|].
  intros ->. discriminate.
Qed.

(** X1: [should_continue_to_next_step] answers [False] whenever one of the
    failure indicators occurs in the step result, in any letter case, and
    ends within the first 200 characters of the lowered result, whatever the
    position of the step; it answers [False] at the last step whatever the
    result; and it answers [True] at an earlier step when the lowered result
    holds no indicator at all. *)
Theorem should_continue_halts_on_failure (current_step total_steps : Z)
    (before word after indicator text : string) :
  (In indicator error_indicators ->
   Py.isascii word = true -> Py.lower word = indicator ->
   Py.len (Py.lower before) + Py.len indicator <= 200 ->
   should_continue_to_next_step current_step total_steps
     (before ++ word ++ after) = false) /\
  (total_steps - 1 <= current_step ->
   should_continue_to_next_step current_step total_steps text = false) /\
  ((forall i, In i error_indicators -> Py.contains i (Py.lower text) = false) ->
   current_step < total_steps - 1 ->
   should_continue_to_next_step current_step total_steps text = true).
Proof.
  split; [|split].
  - intros Hin Hascii Hw Hlen. unfold should_continue_to_next_step.
    assert (Hany : Py.any
              (fun i => Py.contains i
                          (Py.take 200 (Py.lower (before ++ word ++ after))))
              error_indicators = true).
    { apply (PyFacts.any_true _ _ indicator Hin).
      assert (Hne : word <> "").
      { intros ->. destruct (error_indicators_shape _ Hin) as [_ H].
        apply H. rewrite <- Hw. reflexivity. }
      rewrite PyFacts.lower_app_ascii
        by (apply PyFacts.isascii_head; assumption).
      rewrite (PyFacts.lower_isascii_app _ _ Hascii), Hw.
      apply PyFacts.contains_take_within. unfold Py.len in Hlen. lia. }
    rewrite Hany. reflexivity.
  - intros Hlast. unfold should_continue_to_next_step.
    destruct (Py.any _ _); [reflexivity|]. apply Z.ltb_ge. lia.
  - intros Hclean Hlt. unfold should_continue_to_next_step.
    assert (Hany : Py.any
              (fun i => Py.contains i (Py.take 200 (Py.lower text)))
              error_indicators = false).
    { unfold Py.any. apply not_true_is_false. intros H.
      apply existsb_exists in H as (i & Hi & Hc).
      apply PyFacts.contains_take in Hc. rewrite (Hclean i Hi) in Hc.
      discriminate. }
    rewrite Hany. apply Z.ltb_lt. exact Hlt.
Qed.

(** 150 times the letter e with acute accent, then [ ERROR]: the word ends
    at character 156 and at byte 306. *)
Lemma should_continue_halts_on_failure_witness :
  let accents := Py.times (Py.utf8 233) 150 in
  (String.length accents = 300)%nat /\
  should_continue_to_next_step 0 3 ((accents ++ " ") ++ "ERROR" ++ "!") = false.
Proof.
  intros accents. split; [reflexivity|].
  apply (proj1 (should_continue_halts_on_failure 0 3 (accents ++ " ") "ERROR"
                  "!" "error" "")).
  - simpl. tauto.
  - reflexivity.
  - reflexivity.
  - vm_compute. discriminate.
Defined.

Lemma normalize_step_valid (step : json) (here : list string) :
  normalize_step step = Some here -> Forall (fun s => In s valid_types) here.
Proof.
  unfold normalize_step. destruct step; try discriminate. cbv zeta.
  match goal with |- context [Py.str_in ?t valid_types] => generalize t end.
  intros t. destruct (Py.str_in t valid_types) eqn:E; intros [= <-];
    [|constructor].
  constructor; [|constructor]. exact (PyMore.str_in_In _ _ E).
Qed.

Lemma collect_steps_valid (l : list json) (valid : list string) :
  collect_steps l = Some valid -> Forall (fun s => In s valid_types) valid.
Proof.
  revert valid. induction l as [|step l IH]; simpl; intros valid H.
  - injection H as <-. constructor.
  - destruct (normalize_step step) as [here|] eqn:Hs; [|discriminate].
    destruct (collect_steps l) as [rest|]; [|discriminate].
    injection H as <-. apply Forall_app. split.
    + exact (normalize_step_valid _ _ Hs).
    + apply IH. reflexivity.
Qed.

(** X2: whatever the classifier answers, the plan has at least one step,
    every step is one of the five recognized kinds, and [is_multi_step] says
    exactly whether there is more than one step. *)
Theorem plan_task_steps_recognized (client : bool) (classifier : option json)
    (message : string) :
  let plan := plan_task client classifier message in
  steps plan <> [] /\
  Forall (fun s => In s valid_types) (steps plan) /\
  (is_multi_step plan = true <-> (1 < length (steps plan))%nat).
Proof.
  assert (Hg : Forall (fun s => In s valid_types) ["general"])
    by (constructor; [simpl; tauto|constructor]).
  assert (Hi : Forall (fun s => In s valid_types) ["image_generation"])
    by (constructor; [simpl; tauto|constructor]).
  assert (Hone : forall s : string, false = true <-> (1 < length [s])%nat)
    by (intros s; simpl; split; [discriminate|lia]).
  unfold plan_task.
  destruct client; cbn [negb]; [|split; [discriminate|split; [exact Hg|apply Hone]]].
  destruct (_is_image_request message);
    [split; [discriminate|split; [exact Hi|apply Hone]]|].
  destruct classifier as [result|];
    [|split; [discriminate|split; [exact Hg|apply Hone]]].
  unfold plan_of_result.
  destruct result as [| | | | | |d];
    try (split; [discriminate|split; [exact Hg|apply Hone]]).
  destruct (Py.assoc "steps" d) as [[| | | | |l|]|];
    try (split; [discriminate|split; [exact Hg|apply Hone]]).
  destruct (collect_steps l) as [valid|] eqn:Hc;
    [|split; [discriminate|split; [exact Hg|apply Hone]]].
  apply collect_steps_valid in Hc.
  destruct valid as [|s valid]; cbn [steps is_multi_step].
  - split; [discriminate|split; [exact Hg|apply Hone]].
  - split; [discriminate|]. split; [exact Hc|].
    rewrite Z.ltb_lt. lia.
Qed.

(** X3: with a client and past the image fast path, every failure of the
    classifier ends in the default plan, the single step [general]: a failed
    call or decoding, an answer that is not an object, no list under
    ["steps"], or a step that is not a string; and an answer whose steps are
    all strings but none recognized is planned as the single step [general]
    too, with the reasoning of the classifier. *)
Theorem plan_task_classifier_failure (message : string) :
  _is_image_request message = false ->
  plan_task true None message = _default_plan /\
  (forall v, (forall d, v <> JObj d) ->
     plan_task true (Some v) message = _default_plan) /\
  (forall d, (forall l, Py.assoc "steps" d <> Some (JArr l)) ->
     plan_task true (Some (JObj d)) message = _default_plan) /\
  (forall d l x,
     Py.assoc "steps" d = Some (JArr l) -> In x l -> (forall s, x <> JStr s) ->
     plan_task true (Some (JObj d)) message = _default_plan) /\
  (forall d l,
     Py.assoc "steps" d = Some (JArr l) -> collect_steps l = Some [] ->
     steps (plan_task true (Some (JObj d)) message) = ["general"] /\
     is_multi_step (plan_task true (Some (JObj d)) message) = false).
Proof.
  intros Himg. unfold plan_task. cbn [negb]. rewrite Himg.
  split; [reflexivity|]. split; [|split; [|split]].
  - intros v Hv. destruct v; try reflexivity. destruct (Hv d eq_refl).
  - intros d Hd. unfold plan_of_result.
    destruct (Py.assoc "steps" d) as [[| | | | |l|]|]; try reflexivity.
    destruct (Hd l eq_refl).
  - intros d l x Hs Hin Hx. unfold plan_of_result. rewrite Hs.
    assert (Hc : collect_steps l = None).
    { clear Hs. induction l as [|y l IH]; [destruct Hin|].
      simpl. destruct Hin as [->|Hin].
      - destruct x; try reflexivity. destruct (Hx s eq_refl).
      - destruct (normalize_step y); [|reflexivity].
        rewrite (IH Hin). reflexivity. }
    rewrite Hc. reflexivity.
  - intros d l Hs Hc. unfold plan_of_result. rewrite Hs, Hc. split; reflexivity.
Qed.

Lemma plan_task_classifier_failure_witness :
  plan_task true (Some (JObj [("steps", JArr [JStr "coding"; JNum 3])]))
    "sort this list" = _default_plan.
Proof.
  apply (proj1 (proj2 (proj2 (proj2
           (plan_task_classifier_failure "sort this list" eq_refl))))
           _ [JStr "coding"; JNum 3] (JNum 3)).
  - reflexivity.
  - simpl. tauto.
  - discriminate.
Defined.

End PlannerMore.

(** ** Routing decisions and prompts *)

Module DecisionFacts.

Import Decision.



Lemma contains_dot_cons (c : ascii) (rest : string) :
  Py.contains "." (String c rest)
    = Ascii.eqb "."%char c || Py.contains "." rest.
Proof.
  cbn [Py.contains Py.startswith]. rewrite andb_true_r. reflexivity.
Qed.

(** X5: the file type shown in the prompts is the text after the last dot
    of the file name: it holds no dot, it is the whole name when the name has
    no dot, and otherwise the name is some text, a dot, and the file type. *)
Theorem last_segment_spec (name : string) :
  Py.contains "." (last_segment name) = false /\
  (Py.contains "." name = false -> last_segment name = name) /\
  (Py.contains "." name = true ->
   exists stem, name = stem ++ "." ++ last_segment name).
Proof.
  induction name as [|c rest (IH1 & IH2 & IH3)].
  - split; [reflexivity|]. split; [reflexivity|discriminate].
  - cbn [last_segment]. rewrite contains_dot_cons.
    destruct (Py.contains "." rest) eqn:Hrest.
    + split; [exact IH1|]. split; [rewrite orb_true_r; discriminate|].
      intros _. destruct (IH3 eq_refl) as [stem Hstem].
      exists (String c stem). rewrite Hstem at 1. reflexivity.
    + rewrite orb_false_r. rewrite (Ascii.eqb_sym "."%char c).
      destruct (Ascii.eqb c "."%char) eqn:Hc.
      * split; [exact Hrest|]. split; [discriminate|].
        intros _. apply Ascii.eqb_eq in Hc. subst c. exists "". reflexivity.
      * split; [rewrite contains_dot_cons, Hrest, (Ascii.eqb_sym "."%char c), Hc;
                reflexivity|].
        split; [reflexivity|discriminate].
Qed.

Lemma last_segment_spec_witness :
  exists stem, "report.final.pdf" = stem ++ "." ++ last_segment "report.final.pdf".
Proof.
  apply (proj2 (proj2 (last_segment_spec "report.final.pdf"))).
  reflexivity.
Defined.

End DecisionFacts.

(** ** More on the registry and on worker selection *)

Module RegistryMore.

Import Database Router Readers.






Lemma insert_row_perm (a : agent) (l : list agent) :
  Permutation (insert_row a l) (a :: l).
Proof.
  induction l as [|b l IH]; simpl; [reflexivity|].
  destruct (row_le a b); [reflexivity|].
  rewrite IH. apply perm_swap.
Qed.

Lemma order_rows_perm (l : list agent) : Permutation (order_rows l) l.
Proof.
  induction l as [|a l IH]; simpl; [reflexivity|].
  rewrite insert_row_perm, IH. reflexivity.
Qed.


Lemma get_available_agents_perm (table : list agent) (now : Z)
    (task_type : string) :
  Permutation (get_available_agents table now task_type)
    (List.filter
       (fun a => is_live now a &&
                 (negb (negb (String.eqb task_type "") &&
                        negb (Py.str_in task_type ["general"; "image_generation"]))
                  || serves task_type a)) table).
Proof.
  unfold get_available_agents.
  destruct (negb (String.eqb task_type "") && _); cbn [negb orb];
    rewrite order_rows_perm;
    apply Permutation_refl', List.filter_ext; intros a;
    destruct (is_live now a); reflexivity.
Qed.

Lemma get_available_agents_live (table : list agent) (now : Z)
    (task_type : string) (a : agent) :
  In a (get_available_agents table now task_type) ->
  In a table /\ is_live now a = true.
Proof.
  intros Ha. apply (Permutation_in _ (get_available_agents_perm _ _ _)) in Ha.
  apply filter_In in Ha as [Hin Ha]. apply andb_prop in Ha as [Hl _]. auto.
Qed.

Lemma get_available_agents_none (table : list agent) (now : Z)
    (task_type : string) :
  (forall a, In a table -> is_live now a = false) ->
  get_available_agents table now task_type = [].
Proof.
  intros H.
  apply Permutation_nil. symmetry.
  rewrite get_available_agents_perm.
  assert (E : forall f : agent -> bool,
            List.filter (fun a => is_live now a && f a) table = []).
  { intros f. induction table as [|a table IH]; [reflexivity|]. simpl.
    rewrite (H a (or_introl eq_refl)). simpl. apply IH.
    intros b Hb. apply H. right. exact Hb. }
  rewrite E. reflexivity.
Qed.

(** X7: [get_available_agents] returns each row of the table that it keeps
    exactly once: the rows whose heartbeat is less than 30 seconds old and
    whose status is not [failed]; for a kind other than [general] and
    [image_generation] only those whose capability mentions the kind or is
    [general]; for [general], [image_generation] or no kind all of them.  A
    stale or failed row is never returned. *)
Theorem get_available_agents_rows (table : list agent) (now : Z)
    (task_type : string) :
  let specific :=
    negb (String.eqb task_type "") &&
    negb (Py.str_in task_type ["general"; "image_generation"]) in
  Permutation (get_available_agents table now task_type)
    (List.filter (fun a => is_live now a &&
                           (negb specific || serves task_type a)) table) /\
  (forall a, In a (get_available_agents table now task_type) ->
     now - 30000000 < last_heartbeat a /\ status a <> "failed").
Proof.
  intros specific. split; [apply get_available_agents_perm|].
  intros a Ha. apply get_available_agents_live in Ha as [_ Hl].
  unfold is_live, heartbeat_window in Hl. apply andb_prop in Hl as [H1 H2].
  apply Z.ltb_lt in H1. apply negb_true_iff, String.eqb_neq in H2. auto.
Qed.

Lemma stats_of_log_all results ws name :
  stats_of (log_all results ws) name =
  {| success := success (stats_of ws name) +
                Z.of_nat (length (List.filter
                            (fun r => String.eqb (fst r) name && snd r) results));
     total := total (stats_of ws name) +
              Z.of_nat (length (List.filter
                          (fun r => String.eqb (fst r) name) results)) |}.
Proof.
  revert ws. induction results as [|[worker ok] results IH]; intros ws.
  - simpl. destruct (stats_of ws name). simpl. f_equal; lia.
  - unfold log_all in *. cbn [fold_left fst snd]. rewrite IH.
    rewrite RouterFacts.stats_of_log_result. cbn [List.filter fst snd].
    destruct (String.eqb worker name) eqn:E.
    + apply String.eqb_eq in E. subst worker.
      destruct ok; cbn [andb success total length]; f_equal; lia.
    + cbn [andb]. reflexivity.
Qed.

(** X9: on a new router, after any sequence of [log_result] calls, the
    [total] of a worker is the number of calls that named it and its
    [success] the number of those that reported a success; a worker that was
    never named has no recorded task. *)
Theorem replay_counts (calls : list (string * bool)) (name : string) :
  total (stats_of (replay calls) name)
    = Z.of_nat (length (List.filter (fun r => String.eqb (fst r) name) calls)) /\
  success (stats_of (replay calls) name)
    = Z.of_nat (length (List.filter
                          (fun r => String.eqb (fst r) name && snd r) calls)) /\
  ((forall r, In r calls -> fst r <> name) ->
   stats_of (replay calls) name = no_stats).
Proof.
  pose proof (stats_of_log_all calls ∅ name) as H.
  change (log_all calls ∅) with (replay calls) in H.
  assert (H0 : stats_of ∅ name = no_stats)
    by (unfold stats_of; rewrite lookup_empty; reflexivity).
  rewrite H0 in H. rewrite H. cbn [success total no_stats].
  split; [reflexivity|]. split; [reflexivity|].
  intros Hnone.
  assert (E : List.filter (fun r => String.eqb (fst r) name) calls = []).
  { clear H. induction calls as [|r calls IH]; [reflexivity|]. simpl.
    destruct (String.eqb (fst r) name) eqn:E.
    - apply String.eqb_eq in E. destruct (Hnone r (or_introl eq_refl) E).
    - apply IH. intros r' Hr'. apply Hnone. right. exact Hr'. }
  assert (E' : List.filter (fun r => String.eqb (fst r) name && snd r) calls = []).
  { clear H E. induction calls as [|r calls IH]; [reflexivity|]. simpl.
    destruct (String.eqb (fst r) name) eqn:E.
    - apply String.eqb_eq in E. destruct (Hnone r (or_introl eq_refl) E).
    - apply IH. intros r' Hr'. apply Hnone. right. exact Hr'. }
  rewrite E, E'. reflexivity.
Qed.

Lemma replay_counts_witness :
  stats_of (replay [("coder-1", true); ("coder-1", false)]) "writer-1" = no_stats.
Proof.
  apply (proj2 (proj2 (replay_counts [("coder-1", true); ("coder-1", false)]
                         "writer-1"))).
  intros r [<-|[<-|[]]]; discriminate.
Defined.

End RegistryMore.

(** ** More on calling a worker *)

Module ExecutorMore.

Import Database WorkerExecutor.

(** X10: [execute] reports a success only for a 200 response whose body is
    an object, whose success flag is absent or true-like, whose result is a
    text without ["error"] in its lowercased first 100 characters and whose
    file entry, if any, is an object; the returned text is then that result
    and the extra data that file entry.  Every failure caused by the
    transport or by an exception comes without extra data. *)
Theorem execute_success (post : string -> string -> list upload -> http_outcome)
    (elapsed : Q) (worker : agent) (message : string) (files : list upload)
    (context : string) (timeout : Z) (r : outcome) :
  let reply := post (url_of worker) (prompt_of context message) files in
  execute post elapsed worker message files context timeout = inr r ->
  (success r = true ->
   exists d text,
     reply = Responded 200 (inr (JObj d)) /\
     default (JStr "") (Py.assoc "result" d) = JStr text /\
     output r = JStr text /\
     truthy (default (JBool true) (Py.assoc "success" d)) = true /\
     Py.contains "error" (Py.take 100 (Py.lower text)) = false /\
     extra_data r = Py.assoc "file" d /\
     (forall f, Py.assoc "file" d = Some f -> exists fields, f = JObj fields)) /\
  ((forall d, reply <> Responded 200 (inr (JObj d))) -> extra_data r = None) /\
  duration r = elapsed.
Proof.
  intros reply. unfold execute. fold reply.
  assert (Hfail : forall r0 : outcome,
            success r0 = false ->
            (extra_data r0 = None \/ exists d, reply = Responded 200 (inr (JObj d))) ->
            duration r0 = elapsed ->
            (success r0 = true ->
             exists d text,
               reply = Responded 200 (inr (JObj d)) /\
               default (JStr "") (Py.assoc "result" d) = JStr text /\
               output r0 = JStr text /\
               truthy (default (JBool true) (Py.assoc "success" d)) = true /\
               Py.contains "error" (Py.take 100 (Py.lower text)) = false /\
               extra_data r0 = Py.assoc "file" d /\
               (forall f, Py.assoc "file" d = Some f ->
                  exists fields, f = JObj fields)) /\
            ((forall d, reply <> Responded 200 (inr (JObj d))) ->
             extra_data r0 = None) /\
            duration r0 = elapsed).
  { intros r0 Hs He Hd. split; [rewrite Hs; discriminate|]. split; [|exact Hd].
    intros Hn. destruct He as [He|[d Hr]]; [exact He|destruct (Hn d Hr)]. }
  destruct reply as [[|msg]|status_code body] eqn:Er; cbn [try_block].
  - intros [= <-]. apply Hfail; auto.
  - intros [= <-]. apply Hfail; auto.
  - destruct (status_code =? 200) eqn:Es.
    2:{ intros [= <-]. apply Hfail; auto. }
    apply Z.eqb_eq in Es. subst status_code.
    destruct body as [msg|result]; cbn [on_ok].
    { intros [= <-]. apply Hfail; auto. }
    destruct result as [| | | | | |d];
      try (intros [= <-]; apply Hfail; auto).
    destruct (Py.assoc "file" d) as [[| | | | | |fields]|] eqn:Ef;
      try (intros [= <-]; apply Hfail; auto).
    + destruct (truthy (default (JBool true) (Py.assoc "success" d))) eqn:Et;
        cbn [negb].
      2:{ intros [= <-]. apply Hfail; eauto. }
      destruct (default (JStr "") (Py.assoc "result" d)) as [| | | |text| |] eqn:Eo;
        try (intros [= <-]; apply Hfail; eauto).
      destruct (Py.contains "error" (Py.take 100 (Py.lower text))) eqn:Ee;
        intros [= <-]; [apply Hfail; eauto|].
      cbn [success output extra_data duration].
      split; [|split; [|reflexivity]].
      * intros _. exists d, text. repeat (split; [solve [auto]|]).
        intros f Hf. rewrite Ef in Hf. injection Hf as <-. eexists. reflexivity.
      * intros H. destruct (H d eq_refl).
    + destruct (truthy (default (JBool true) (Py.assoc "success" d))) eqn:Et;
        cbn [negb].
      2:{ intros [= <-]. apply Hfail; eauto. }
      destruct (default (JStr "") (Py.assoc "result" d)) as [| | | |text| |] eqn:Eo;
        try (intros [= <-]; apply Hfail; eauto).
      destruct (Py.contains "error" (Py.take 100 (Py.lower text))) eqn:Ee;
        intros [= <-]; [apply Hfail; eauto|].
      cbn [success output extra_data duration].
      split; [|split; [|reflexivity]].
      * intros _. exists d, text. repeat (split; [solve [auto]|]).
        rewrite Ef. discriminate.
      * intros H. destruct (H d eq_refl).
Qed.

Lemma execute_success_witness :
  let post := fun (_ _ : string) (_ : list upload) =>
                Responded 200
                  (inr (JObj [("result", JStr "def add(a, b): return a + b");
                              ("file", Scenarios.chart)])) in
  exists r d,
    execute post 1 Scenarios.coder "write add" [] "" 120 = inr r /\
    success r = true /\
    output r = JStr "def add(a, b): return a + b" /\
    extra_data r = Py.assoc "file" d /\
    extra_data r = Some Scenarios.chart.
Proof.
  intros post.
  destruct (ExecutorFacts.execute_returns post 1 Scenarios.coder "write add" []
              "" 120) as [r Hr].
  assert (Hs : success r = true /\
               output r = JStr "def add(a, b): return a + b" /\
               extra_data r = Some Scenarios.chart).
  { vm_compute in Hr. injection Hr as <-. repeat split. }
  destruct Hs as (Hs & Ho & He).
  destruct (proj1 (execute_success post 1 Scenarios.coder "write add" [] "" 120
                     r Hr) Hs)
    as (d & text & _ & _ & _ & _ & _ & Hfile & _).
  exists r, d. repeat split; assumption.
Defined.

End ExecutorMore.

(** ** Diagnostics *)

Module EndpointFacts.

Import Endpoints.

Local Open Scope Q_scope.

Lemma min_of_le (a b : Q) : min_of a b <= a /\ min_of a b <= b.
Proof.
  unfold min_of. destruct (Qle_bool a b) eqn:E.
  - apply Qle_bool_iff in E. split; [apply Qle_refl|exact E].
  - split; [|apply Qle_refl].
    apply Qlt_le_weak, Qnot_le_lt. intros H. apply Qle_bool_iff in H. congruence.
Qed.

Lemma min_of_ge (a b c : Q) : c <= a -> c <= b -> c <= min_of a b.
Proof. unfold min_of. destruct (Qle_bool a b); auto. Qed.

Lemma worker_health_score_range (healthy total : Z) :
  (0 <= healthy <= total)%Z -> 0 <= worker_health_score healthy total <= 10.
Proof.
  intros [H0 H1]. unfold worker_health_score.
  destruct total as [|p|p]; cbn [Z.ltb Z.compare]; try (split; discriminate).
  unfold Qle, Qdiv, Qmult, Qinv, inject_Z. simpl. nia.
Qed.

(** X11: in the diagnostics, when the healthy workers are between none and
    all of the workers, the cache efficiency is not negative and the average
    quality is not negative, the system score lies between 0 and 10; and with
    no healthy worker it is at most 6, so the status is [degraded]. *)
Theorem system_score_range (healthy_workers total_workers : Z)
    (cache_efficiency avg_quality : Q) :
  (0 <= healthy_workers <= total_workers)%Z ->
  0 <= cache_efficiency -> 0 <= avg_quality ->
  0 <= system_score healthy_workers total_workers cache_efficiency avg_quality
    <= 10 /\
  (healthy_workers = 0%Z ->
   system_status (system_score healthy_workers total_workers cache_efficiency
                    avg_quality) = "degraded").
Proof.
  intros Hw Hc Hq.
  pose proof (worker_health_score_range _ _ Hw) as [W0 W1].
  pose proof (min_of_le (cache_efficiency / 10) 10) as [_ C1].
  pose proof (min_of_le avg_quality 10) as [_ Q1].
  assert (C0 : 0 <= min_of (cache_efficiency / 10) 10).
  { apply min_of_ge; [|discriminate].
    unfold Qdiv. apply Qmult_le_0_compat; [exact Hc|discriminate]. }
  assert (Q0 : 0 <= min_of avg_quality 10)
    by (apply min_of_ge; [exact Hq|discriminate]).
  unfold system_score, cache_score.
  set (ws := worker_health_score healthy_workers total_workers) in *.
  set (cs := min_of (cache_efficiency / 10) 10) in *.
  set (qs := min_of avg_quality 10) in *.
  split; [split; lra|].
  intros Hz.
  assert (Wz : ws == 0).
  { unfold ws, worker_health_score. rewrite Hz.
    destruct (0 <? total_workers)%Z; [|reflexivity].
    unfold Qdiv. change (inject_Z 0) with 0. lra. }
  unfold system_status.
  assert (Hlt : ws * (4 # 10) + cs * (2 # 10) + qs * (4 # 10) < 7) by lra.
  destruct (Qle_bool (85 # 10) _) eqn:E1.
  { apply Qle_bool_iff in E1. lra. }
  destruct (Qle_bool 7 _) eqn:E2; [|reflexivity].
  apply Qle_bool_iff in E2. lra.
Qed.

Lemma system_score_range_witness :
  system_status (system_score 0 4 100 10) = "degraded".
Proof.
  apply (proj2 (system_score_range 0 4 100 10 ltac:(lia) ltac:(discriminate)
                  ltac:(discriminate))).
  reflexivity.
Defined.

End EndpointFacts.

(** ** More on the pipeline *)

Module PipelineMore.

Import Database WorkerExecutor Pipeline Readers.

Lemma logged_app (l1 l2 : list event) :
  logged (l1 ++ l2) = (logged l1 ++ logged l2)%list.
Proof.
  induction l1 as [|e l1 IH]; [reflexivity|].
  destruct e; simpl; rewrite IH; reflexivity.
Qed.

Lemma selections_app (l1 l2 : list event) :
  selections (l1 ++ l2) = (selections l1 ++ selections l2)%list.
Proof.
  induction l1 as [|e l1 IH]; [reflexivity|].
  destruct e; simpl; rewrite IH; reflexivity.
Qed.

Lemma task_descs_app (l1 l2 : list event) :
  task_descs (l1 ++ l2) = (task_descs l1 ++ task_descs l2)%list.
Proof.
  induction l1 as [|e l1 IH]; [reflexivity|].
  destruct e; simpl; rewrite IH; reflexivity.
Qed.

Lemma log_all_app (l1 l2 : list (string * bool)) ws :
  log_all (l1 ++ l2) ws = log_all l2 (log_all l1 ws).
Proof. unfold log_all. apply fold_left_app. Qed.

(** *** Success counters across the pipeline *)

Lemma tracks_ret {A} (a : A) : tracks (ret a).
Proof. intros w. reflexivity. Qed.

Lemma tracks_ask {A} (f : nat -> A) : tracks (ask f).
Proof. intros w. reflexivity. Qed.

Lemma tracks_emit (e : event) : logged [e] = [] -> tracks (emit e).
Proof. intros H w. cbn [emit calls world]. rewrite H. reflexivity. Qed.

Lemma tracks_read_stats : tracks read_stats.
Proof. intros w. reflexivity. Qed.

Lemma tracks_insert_user_task : tracks insert_user_task.
Proof. intros w. reflexivity. Qed.

Lemma tracks_insert_performance_metric task_id agent_id :
  tracks (insert_performance_metric task_id agent_id).
Proof.
  intros w. unfold insert_performance_metric.
  destruct (performance_metrics w !! task_id); reflexivity.
Qed.

Lemma tracks_bind {A B} (m : M A) (k : A -> M B) :
  tracks m -> (forall a, tracks (k a)) -> tracks (bind m k).
Proof.
  intros Hm Hk w. unfold bind. cbn [world calls].
  rewrite logged_app, log_all_app, <- Hm. apply Hk.
Qed.

Section WithEnv.

Variable env : Env.

Ltac run_binds :=
  unfold bind, emit, ask, ret;
  cbn [result world calls clock worker_stats last_task_id performance_metrics tick].

Ltac step_into f := unfold f; run_binds.

Lemma tracks_log_result worker_name ok : tracks (log_result worker_name ok).
Proof. intros w. reflexivity. Qed.

(** Split a monadic block into its parts; what is left is the calls of other
    blocks and the case distinctions. *)
Ltac tracks_parts :=
  repeat match goal with
    | |- tracks (ret _) => apply tracks_ret
    | |- tracks (ask _) => apply tracks_ask
    | |- tracks read_stats => apply tracks_read_stats
    | |- tracks insert_user_task => apply tracks_insert_user_task
    | |- tracks (insert_performance_metric _ _) =>
        apply tracks_insert_performance_metric
    | |- tracks (log_result _ _) => apply tracks_log_result
    | |- tracks (emit _) => apply tracks_emit; reflexivity
    | |- tracks (bind _ _) => apply tracks_bind; [|intros]
    | |- tracks (match ?x with _ => _ end) => destruct x
    end.

Lemma tracks_answer_directly message history :
  tracks (answer_directly env message history).
Proof. unfold answer_directly. tracks_parts. Qed.

Lemma tracks_try_fallbacks fallbacks worker_type :
  tracks (try_fallbacks env fallbacks worker_type).
Proof.
  induction fallbacks as [|k rest IH]; cbn [try_fallbacks]; [apply tracks_ret|].
  unfold lookup. tracks_parts. exact IH.
Qed.

Lemma tracks_run_attempt step_type message file_data smart_context history
    task_id attempt st :
  tracks (run_attempt env step_type message file_data smart_context history
            task_id attempt st).
Proof.
  unfold run_attempt, find_workers, ask_worker, ensure_answer, validate_and_log,
    lookup, select_best_worker, dispatch, store_execution_result, db_raises.
  tracks_parts;
    try apply tracks_try_fallbacks; try apply tracks_answer_directly.
Qed.

Lemma tracks_execute_single_step step_type message file_data file_context
    history :
  tracks (execute_single_step env step_type message file_data file_context
            history).
Proof.
  unfold execute_single_step, create_task, db_raises. tracks_parts.
  generalize (range max_retries).
  intros attempts.
  match goal with |- tracks (retry_loop _ _ _ _ ?c _ ?t _ ?s) =>
    generalize s; generalize c; generalize t end.
  intros task_id smart_context.
  induction attempts as [|attempt rest IH]; intros st; cbn [retry_loop];
    [apply tracks_ret|].
  apply tracks_bind; [apply tracks_run_attempt|].
  intros [[st1 verdict]|]; [|apply tracks_ret].
  destruct (_ || _); [apply tracks_ret|apply IH].
Qed.

Lemma tracks_multi_loop message file_data history total i todo st :
  tracks (multi_loop env message file_data history total i todo st).
Proof.
  revert i st. induction todo as [|step_type rest IH]; intros i st;
    cbn [multi_loop]; [apply tracks_ret|].
  apply tracks_bind; [apply tracks_execute_single_step|].
  intros [[[| | | |text| |] artifact]|]; try apply tracks_ret.
  destruct (TaskPlanner.should_continue_to_next_step _ _ _);
    [apply IH|apply tracks_ret].
Qed.

Lemma tracks_parsed_texts files : tracks (parsed_texts env files).
Proof.
  induction files as [|file rest IH]; cbn [parsed_texts]; [apply tracks_ret|].
  apply tracks_bind; [apply tracks_ask|]. intros parsed.
  apply tracks_bind; [exact IH|]. intros others.
  destruct parsed as [text|]; [destruct (_ <? _)|]; apply tracks_ret.
Qed.

(** X13: while it handles a request, [process_message] changes the success
    counters only through [log_result]: the counters it leaves are those it
    found with the logged results applied in order; hence counters with
    [0 <= success <= total] stay so. *)
Theorem process_message_counters (user_id message : string)
    (conversation_id : option string) (files : list upload) (w : World) :
  let run := process_message env user_id message conversation_id files w in
  worker_stats (world run) = log_all (logged (calls run)) (worker_stats w) /\
  (Router.sound_stats (worker_stats w) ->
   Router.sound_stats (worker_stats (world run))).
Proof.
  assert (H : tracks (process_message env user_id message conversation_id files)).
  { unfold process_message, prepare, run_plan, process_uploads, plan_task,
      execute_multi_step.
    tracks_parts;
      try apply tracks_parsed_texts; try apply tracks_answer_directly;
      try apply tracks_execute_single_step; try apply tracks_multi_loop. }
  intros run. split; [apply H|].
  intros Hs. subst run. rewrite H. apply RouterFacts.sound_stats_fold, Hs.
Qed.

(** *** When no worker can take the step *)

Lemma readers_of_lookups (kinds : list string) :
  lookups (List.map Lookup kinds) = kinds /\
  selections (List.map Lookup kinds) = [] /\
  dispatched (List.map Lookup kinds) = [] /\
  direct_answers (List.map Lookup kinds) = [] /\
  logged (List.map Lookup kinds) = [] /\
  validations (List.map Lookup kinds) = [].
Proof.
  induction kinds as [|k kinds (H1 & H2 & H3 & H4 & H5 & H6)]; simpl;
    [repeat split|].
  rewrite H1. repeat split; assumption.
Qed.

Lemma try_fallbacks_none fallbacks worker_type w :
  (forall t a, In a (agents_table env t) -> is_live (db_now env t) a = false) ->
  result (try_fallbacks env fallbacks worker_type w) = ([], worker_type) /\
  calls (try_fallbacks env fallbacks worker_type w) = List.map Lookup fallbacks.
Proof.
  intros Hdead. revert w. induction fallbacks as [|k rest IH]; intros w.
  - split; reflexivity.
  - cbn [try_fallbacks]. step_into lookup.
    rewrite (RegistryMore.get_available_agents_none _ _ k (Hdead (clock w))).
    destruct (IH (tick w))
      as [Hr Hc].
    cbn [result world calls]. rewrite Hr, Hc. split; reflexivity.
Qed.

(** X14: in an attempt made while no row of the registry is live, the kind
    of the step and then every kind of its fallback chain are looked up, in
    the order of the chain; nothing is selected or dispatched; the master
    answers once, and that answer is validated and logged as a success of
    [Master-Controller]. *)
Theorem no_worker_means_direct_answer (step_type message : string)
    (file_data : list upload) (smart_context : string) (history : list turn)
    (task_id attempt : Z) (st : attempt_state) (w : World) :
  let run := run_attempt env step_type message file_data smart_context history
               task_id attempt st w in
  (forall t a, In a (agents_table env t) -> is_live (db_now env t) a = false) ->
  lookups (calls run) = kinds_tried step_type /\
  selections (calls run) = [] /\
  dispatched (calls run) = [] /\
  direct_answers (calls run) = [message] /\
  logged (calls run) = [("Master-Controller", true)] /\
  exists answer verdict,
    result run = Some (by_master answer, verdict) /\
    validations (calls run) = [(answer, verdict)].
Proof.
  intros run Hdead. subst run.
  assert (Hfind :
    result (find_workers env step_type w) = ([], step_type) /\
    calls (find_workers env step_type w) = List.map Lookup (kinds_tried step_type)).
  { step_into find_workers. step_into lookup.
    rewrite (RegistryMore.get_available_agents_none _ _ step_type (Hdead (clock w))).
    destruct (try_fallbacks_none
                (default ["general"] (Py.assoc step_type fallback_map)) step_type
                (tick w) Hdead)
      as [Hr Hc].
    rewrite Hr, Hc. split; reflexivity. }
  destruct Hfind as [Fr Fc].
  step_into run_attempt. rewrite Fr, Fc. cbv beta iota.
  unfold ask_worker, ensure_answer. run_binds. cbn [orb].
  run_binds.
  set (w1 := world (find_workers env step_type w)).
  destruct (PipelineFacts.answer_directly_run env message history w1) as [Ac _].
  rewrite Ac.
  destruct (readers_of_lookups (kinds_tried step_type))
    as (H1 & H2 & H3 & H4 & H5 & H6).
  rewrite !PipelineFacts.lookups_app, !selections_app,
    !PipelineFacts.dispatched_app, !PipelineFacts.direct_answers_app,
    !logged_app, !PipelineFacts.validations_app, H1, H2, H3, H4, H5, H6.
  generalize (kinds_tried step_type). intros kinds.
  cbn. rewrite app_nil_r. repeat split. do 2 eexists. split; reflexivity.
Qed.

(** X15: in an attempt where the registry returns workers for the kind of
    the step but none of them passes the health check, no fallback kind is
    looked up and nothing is dispatched: the master answers (a second time
    when its first answer is empty), and the answer is logged as a success of
    [Master-Controller]. *)
Theorem all_excluded_means_direct_answer (step_type message : string)
    (file_data : list upload) (smart_context : string) (history : list turn)
    (task_id attempt : Z) (st : attempt_state) (w : World) :
  let pool := get_available_agents (agents_table env (clock w))
                (db_now env (clock w)) step_type in
  let health := check_worker_health env (S (clock w)) in
  let w2 := tick (tick w) in
  let first_answer := result (answer_directly env message history w2) in
  let run := run_attempt env step_type message file_data smart_context history
               task_id attempt st w in
  pool <> [] ->
  (forall a, In a pool ->
     health (agent_name a) = "unhealthy" \/ health (agent_name a) = "dead") ->
  lookups (calls run) = [step_type] /\
  selections (calls run) = [(step_type, pool)] /\
  dispatched (calls run) = [] /\
  direct_answers (calls run)
    = (if truthy first_answer then [message] else [message; message]) /\
  logged (calls run) = [("Master-Controller", true)] /\
  exists answer verdict,
    result run = Some (by_master answer, verdict) /\
    (truthy first_answer = true -> answer = first_answer).
Proof.
  intros pool health w2 first_answer run Hne Hall. subst run.
  destruct (PipelineFacts.find_workers_found env step_type w Hne) as (Fr & Fc & Fw).
  assert (Hsel : Router.select_best_worker (worker_stats w) health step_type pool
                 = None).
  { apply RouterFacts.select_best_worker_none. intros a Ha.
    apply RouterFacts.excluded_spec. destruct (Hall a Ha); auto. }
  step_into run_attempt. rewrite Fr, Fc, Fw. cbv beta iota. fold pool.
  unfold ask_worker. destruct pool as [|p0 pool'] eqn:Ep; [congruence|].
  rewrite <- Ep in *.
  step_into select_best_worker. unfold read_stats.
  cbn [result world calls clock worker_stats tick]. fold health. rewrite Hsel.
  run_binds. fold w2.
  destruct (PipelineFacts.answer_directly_run env message history w2) as [Ac _].
  rewrite Ac. fold first_answer.
  unfold ensure_answer. rewrite Ep. cbn [orb by_master response_text].
  rewrite <- Ep.
  destruct (truthy first_answer) eqn:Et; cbn [negb]; run_binds.
  - cbn. repeat split. do 2 eexists. split; [reflexivity|]. reflexivity.
  - destruct (PipelineFacts.answer_directly_run env message history
                (world (answer_directly env message history w2))) as [Ac2 _].
    rewrite Ac2. cbn. repeat split.
    do 2 eexists. split; [reflexivity|]. discriminate.
Qed.

(** *** Where a step is sent *)

Lemma try_fallbacks_pool fallbacks worker_type w :
  let r := try_fallbacks env fallbacks worker_type w in
  fst (result r) = [] \/
  exists t,
    fst (result r) = get_available_agents (agents_table env t) (db_now env t)
                       (snd (result r)) /\
    clock (world r) = S t /\ In (snd (result r)) fallbacks.
Proof.
  revert w. induction fallbacks as [|k rest IH]; intros w; [left; reflexivity|].
  cbn [try_fallbacks]. step_into lookup.
  destruct (get_available_agents (agents_table env (clock w))
              (db_now env (clock w)) k) as [|a pool] eqn:E.
  - destruct (IH (tick w))
      as [H|(t & H1 & H2 & H3)]; [left; exact H|].
    right. exists t. cbn [result world] in *. split; [exact H1|].
    split; [exact H2|right; exact H3].
  - right. exists (clock w). cbn [result world fst snd clock].
    split; [symmetry; exact E|]. split; [reflexivity|left; reflexivity].
Qed.

Lemma find_workers_pool step_type w :
  let r := find_workers env step_type w in
  fst (result r) = [] \/
  exists t,
    fst (result r) = get_available_agents (agents_table env t) (db_now env t)
                       (snd (result r)) /\
    clock (world r) = S t /\ In (snd (result r)) (kinds_tried step_type).
Proof.
  step_into find_workers. step_into lookup.
  destruct (get_available_agents (agents_table env (clock w))
              (db_now env (clock w)) step_type) as [|a pool] eqn:E.
  - destruct (try_fallbacks_pool
                (default ["general"] (Py.assoc step_type fallback_map)) step_type
                (tick w))
      as [H|(t & H1 & H2 & H3)]; [left; exact H|].
    right. exists t. cbn [result world] in *. split; [exact H1|].
    split; [exact H2|right; exact H3].
  - right. exists (clock w). cbn [result world fst snd clock].
    split; [symmetry; exact E|]. split; [reflexivity|left; reflexivity].
Qed.

Lemma ask_worker_target message file_data smart_context history task_id attempt
    available worker_type st w g :
  In g (dispatched (calls (ask_worker env message file_data smart_context
                             history task_id attempt available worker_type st w))) ->
  In g available /\
  Router.excluded (check_worker_health env (clock w) (agent_name g)) = false.
Proof.
  unfold ask_worker. destruct available as [|a rest]; [intros []|].
  step_into select_best_worker. unfold read_stats.
  cbn [result world calls clock worker_stats tick].
  destruct (Router.select_best_worker _ _ worker_type (a :: rest)) as [chosen|]
    eqn:Sel.
  - step_into dispatch.
    destruct (RouterFacts.select_best_worker_some _ _ _ _ _ Sel) as (H1 & H2 & _).
    destruct (execute _ _ chosen _ _ _ _) as [e|r];
      [cbn; intros [<-|[]]; auto|].
    run_binds.
    match goal with
    | |- context [store_execution_result env ?a ?b ?c ?d ?w0] =>
        rewrite (proj1 (PipelineFacts.store_execution_result_run env a b c d w0));
        destruct (result (store_execution_result env a b c d w0))
    end; cbn; intros [<-|[]]; auto.
  - run_binds.
    rewrite (proj1 (PipelineFacts.answer_directly_run env message history _)).
    intros [].
Qed.

Lemma run_attempt_target step_type message file_data smart_context history
    task_id attempt st w g :
  In g (dispatched (calls (run_attempt env step_type message file_data
                             smart_context history task_id attempt st w))) ->
  exists t kind,
    In kind (kinds_tried step_type) /\
    In g (get_available_agents (agents_table env t) (db_now env t) kind) /\
    Router.excluded (check_worker_health env (S t) (agent_name g)) = false.
Proof.
  step_into run_attempt.
  destruct (PipelineFacts.find_workers_run env step_type w) as (_ & Fd & _).
  pose proof (find_workers_pool step_type w) as Hpool. cbv zeta in Hpool.
  destruct (find_workers env step_type w) as [[available worker_type] w1 c1].
  cbn [result world calls fst snd] in *.
  pose proof (ask_worker_target message file_data smart_context history task_id
                attempt available worker_type st w1 g) as Hask.
  destruct (ask_worker env message file_data smart_context history task_id
              attempt available worker_type st w1) as [[st1|] w2 c2];
    cbn [result world calls] in *.
  - run_binds.
    destruct (PipelineFacts.ensure_answer_run env message history available st1 w2)
      as (_ & Ed & _).
    rewrite !PipelineFacts.dispatched_app, Fd, Ed. cbn. rewrite app_nil_r.
    intros Hg. destruct (Hask Hg) as [Hin Hok].
    destruct Hpool as [->|(t & Hav & Hclock & Hkind)]; [destruct Hin|].
    exists t, worker_type. rewrite <- Hav, <- Hclock. auto.
  - rewrite !PipelineFacts.dispatched_app, Fd. cbn. rewrite app_nil_r.
    intros Hg. destruct (Hask Hg) as [Hin Hok].
    destruct Hpool as [->|(t & Hav & Hclock & Hkind)]; [destruct Hin|].
    exists t, worker_type. rewrite <- Hav, <- Hclock. auto.
Qed.

(** X16: every worker a single step is dispatched to was returned by a
    registry lookup for the kind of the step or for a kind of its fallback
    chain (so its heartbeat is fresh and its status is not [failed]), and at
    the selection that followed this lookup its health state was neither
    [unhealthy] nor [dead]. *)
Theorem single_step_targets (step_type message : string)
    (file_data : list upload) (file_context : string) (history : list turn)
    (w : World) (g : agent) :
  In g (dispatched (calls (execute_single_step env step_type message file_data
                             file_context history w))) ->
  exists t kind,
    In kind (kinds_tried step_type) /\
    In g (get_available_agents (agents_table env t) (db_now env t) kind) /\
    In g (agents_table env t) /\ is_live (db_now env t) g = true /\
    check_worker_health env (S t) (agent_name g) <> "unhealthy" /\
    check_worker_health env (S t) (agent_name g) <> "dead".
Proof.
  assert (Hloop : forall attempts smart_context task_id st w0,
    In g (dispatched (calls (retry_loop env step_type message file_data
                               smart_context history task_id attempts st w0))) ->
    exists t kind,
      In kind (kinds_tried step_type) /\
      In g (get_available_agents (agents_table env t) (db_now env t) kind) /\
      Router.excluded (check_worker_health env (S t) (agent_name g)) = false).
  { induction attempts as [|attempt rest IH]; intros smart_context task_id st w0;
      [intros []|].
    cbn [retry_loop]. run_binds.
    pose proof (run_attempt_target step_type message file_data smart_context
                  history task_id attempt st w0 g) as Hatt.
    destruct (run_attempt env step_type message file_data smart_context history
                task_id attempt st w0) as [[[st1 v1]|] w1 c1];
      cbn [result world calls] in *; rewrite PipelineFacts.dispatched_app;
      intros Hg; apply in_app_or in Hg as [Hg|Hg]; auto; [|destruct Hg].
    destruct (_ || _); [destruct Hg|]. exact (IH _ _ _ _ Hg). }
  step_into execute_single_step.
  unfold create_task, insert_user_task, db_raises. run_binds.
  destruct (db_refuses_task env message step_type); run_binds;
    [intros []|].
  intros Hg.
  assert (Hg' : exists t kind,
            In kind (kinds_tried step_type) /\
            In g (get_available_agents (agents_table env t) (db_now env t) kind) /\
            Router.excluded (check_worker_health env (S t) (agent_name g)) = false).
  { match type of Hg with
    | context [retry_loop env ?a ?b ?c ?d ?e ?f ?l ?s ?w0] =>
        pose proof (Hloop l d f s w0) as Hl;
        destruct (retry_loop env a b c d e f l s w0) as [[st1|] w1 c1]
    end; cbn [result world calls app dispatched] in *;
      rewrite ?app_nil_r in Hg; exact (Hl Hg). }
  destruct Hg' as (t & kind & Hk & Hin & Hok).
  exists t, kind. split; [exact Hk|]. split; [exact Hin|].
  destruct (RegistryMore.get_available_agents_live _ _ _ _ Hin) as [Ht Hl].
  split; [exact Ht|]. split; [exact Hl|].
  split; intros E; rewrite E in Hok; discriminate.
Qed.

(** *** The master's own answer *)

Lemma last_n_app {A} (n : nat) (old recent : list A) :
  (n <= length recent)%nat -> last_n n (old ++ recent) = last_n n recent.
Proof.
  intros H. unfold last_n. rewrite length_app.
  replace (length old + length recent - n)%nat
    with (length old + (length recent - n))%nat by lia.
  rewrite List.skipn_app. rewrite List.skipn_all2 by lia.
  replace (length old + (length recent - n) - length old)%nat
    with (length recent - n)%nat by lia.
  reflexivity.
Qed.

(** X17: [answer_directly] reads only the last five messages of the
    history: older messages do not change what it does.  Without a client it
    returns the offline text and calls no model; when the model call fails it
    returns the text ["I encountered an error: "] followed by the first 100
    characters of the error, at most. *)
Theorem answer_directly_window (message : string) (old recent : list turn)
    (w : World) :
  ((5 <= length recent)%nat ->
   answer_directly env message (old ++ recent) w
     = answer_directly env message recent w) /\
  (client env = false ->
   result (answer_directly env message recent w)
     = JStr "I'm offline. Please try again later." /\
   clock (world (answer_directly env message recent w)) = clock w) /\
  (client env = true ->
   forall error,
     (forall messages, chat_reply env (clock w) messages = ChatError error) ->
     exists shown rest,
       result (answer_directly env message recent w)
         = JStr ("I encountered an error: " ++ shown) /\
       error = shown ++ rest /\
       Py.len shown <= 100 /\
       (Py.len error <= 100 -> shown = error)).
Proof.
  split; [|split].
  - intros H. unfold answer_directly. rewrite (last_n_app 5 old recent H).
    reflexivity.
  - intros Hc. step_into answer_directly. rewrite Hc. split; reflexivity.
  - intros Hc error Herr. step_into answer_directly. rewrite Hc. cbn [negb].
    run_binds. rewrite Herr. cbn [result].
    destruct (PyFacts.take_prefix 100 error) as [rest Hrest].
    exists (Py.take 100 error), rest. split; [reflexivity|].
    split; [exact Hrest|]. split.
    + pose proof (PyFacts.chars_take 100 error). unfold Py.len. lia.
    + intros Hlen. apply PyFacts.take_all. unfold Py.len in Hlen. lia.
Qed.

(** *** Where a multi-step plan stops *)

Lemma should_continue_true i total text :
  TaskPlanner.should_continue_to_next_step i total text = true ->
  looks_failed text = false /\ i < total - 1.
Proof.
  unfold TaskPlanner.should_continue_to_next_step, looks_failed.
  destruct (Py.any _ _); [discriminate|]. intros H. apply Z.ltb_lt in H. auto.
Qed.

Lemma should_continue_false i total text :
  TaskPlanner.should_continue_to_next_step i total text = false ->
  i < total - 1 -> looks_failed text = true.
Proof.
  unfold TaskPlanner.should_continue_to_next_step, looks_failed.
  destruct (Py.any _ _); [reflexivity|]. intros H Hlt.
  apply Z.ltb_ge in H. lia.
Qed.

Lemma executed_steps_halt message file_data history total todo done context w
    outs :
  total = Z.of_nat (length done + length todo) ->
  result (executed_steps env message file_data history total todo done context w)
    = Some outs ->
  exists more,
    outs = (done ++ more)%list /\
    (todo <> [] -> more <> []) /\
    Forall (fun o => looks_failed (fst o) = false) (removelast more) /\
    ((length more < length todo)%nat ->
     looks_failed (fst (List.last more ("", None))) = true).
Proof.
  revert done context w. induction todo as [|step_type rest IH];
    intros done context w Htotal.
  - cbn. intros [= <-]. exists []. rewrite app_nil_r.
    split; [reflexivity|]. split; [congruence|]. split; [constructor|].
    simpl. lia.
  - cbn [executed_steps]. run_binds.
    destruct (execute_single_step env step_type _ file_data context history w)
      as [[[[| | | |text| |] artifact]|] w1 c1];
      cbn [result world calls]; try discriminate.
    destruct (TaskPlanner.should_continue_to_next_step _ total text) eqn:Ec.
    + apply should_continue_true in Ec as [Hok Hlt].
      intros Hres.
      assert (Ht : total = Z.of_nat (length (done ++ [(text, artifact)])
                                     + length rest)).
      { rewrite length_app. simpl in *. lia. }
      destruct (IH _ _ _ Ht Hres) as (more & -> & Hne & Hf & Hl).
      assert (Hrest : rest <> []).
      { intros ->. simpl in Htotal. lia. }
      specialize (Hne Hrest).
      exists ((text, artifact) :: more). rewrite <- app_assoc.
      split; [reflexivity|]. split; [discriminate|].
      destruct more as [|o more]; [congruence|].
      split.
      * change (removelast ((text, artifact) :: o :: more))
          with ((text, artifact) :: removelast (o :: more)).
        constructor; [exact Hok|exact Hf].
      * intros Hlen. change (List.last ((text, artifact) :: o :: more) ("", None))
          with (List.last (o :: more) ("", None)).
        apply Hl. simpl in *. lia.
    + cbn. intros [= <-]. exists [(text, artifact)].
      split; [reflexivity|]. split; [discriminate|]. split; [constructor|].
      intros Hlen. cbn [List.last fst].
      apply (should_continue_false _ _ _ Ec). cbn [length] in Hlen, Htotal. lia.
Qed.

(** X18: when a multi-step plan returns, the steps before the last one that
    ran all gave an output without a failure indicator in the first 200
    characters of its lowered text; and if fewer steps ran than the plan
    holds, the output of the last step that ran holds such an indicator:
    that is the only reason why the remaining steps are skipped.  The outputs
    are those of the steps that ran, in order; the response is made of
    them. *)
Theorem multi_step_stops_on_failure (task_plan : TaskPlanner.Plan)
    (message : string) (file_data : list upload) (file_context : string)
    (history : list turn) (w : World) (outs : list (string * option json)) :
  let run := execute_multi_step env task_plan message file_data file_context
               history w in
  let ran := executed_steps env message file_data history
               (Z.of_nat (length (TaskPlanner.steps task_plan)))
               (TaskPlanner.steps task_plan) [] file_context w in
  TaskPlanner.steps task_plan <> [] ->
  result ran = Some outs ->
  outs <> [] /\
  result run = Some (join separator (List.map fst outs),
                     latest_artifact (List.map snd outs)) /\
  tasks_created (calls run)
    = firstn (length outs) (TaskPlanner.steps task_plan) /\
  Forall (fun o => looks_failed (fst o) = false) (removelast outs) /\
  ((length outs < length (TaskPlanner.steps task_plan))%nat ->
   exists indicator before after,
     In indicator TaskPlanner.error_indicators /\
     Py.take 200 (Py.lower (fst (List.last outs ("", None))))
       = before ++ indicator ++ after).
Proof.
  intros run ran Hsteps Eo. subst run ran.
  step_into execute_multi_step.
  pose proof (PipelineFacts.multi_loop_run env message file_data history
                (Z.of_nat (length (TaskPlanner.steps task_plan)))
                (TaskPlanner.steps task_plan) []
                {| final_response := ""; final_extra_data := None;
                   accumulated_context := file_context |} w eq_refl eq_refl)
    as (_ & Hc & Hrel).
  cbn [length accumulated_context] in Hc, Hrel.
  rewrite Hc, app_nil_r. rewrite Eo in Hrel.
  destruct Hrel as (st' & -> & H2 & H3 & _). cbn [option_map].
  destruct (PipelineFacts.executed_steps_order env _ _ _ _ _ _ _ _ _ Eo)
    as (more0 & E0 & Hord).
  destruct (executed_steps_halt _ _ _ _ _ _ _ _ _ eq_refl Eo)
    as (more & E1 & Hne & Hf & Hl).
  cbn [app] in E0, E1. subst more0 more.
  split; [exact (Hne Hsteps)|]. split; [rewrite H2, H3; reflexivity|].
  split; [exact Hord|]. split; [exact Hf|].
  intros Hlen. specialize (Hl Hlen). unfold looks_failed, Py.any in Hl.
  apply existsb_exists in Hl as (indicator & Hin & Hfound).
  apply PyFacts.contains_spec in Hfound as (before & after & Hfound).
  exists indicator, before, after. split; assumption.
Qed.

Lemma task_descs_of_created (l : list event) :
  tasks_created l = [] -> task_descs l = [].
Proof.
  induction l as [|e l IH]; [reflexivity|].
  destruct e; simpl; try exact IH. discriminate.
Qed.

Lemma execute_single_step_desc step_type message file_data file_context
    history w :
  task_descs (calls (execute_single_step env step_type message file_data
                       file_context history w)) = [message].
Proof.
  step_into execute_single_step.
  unfold create_task, insert_user_task, db_raises. run_binds.
  destruct (db_refuses_task env message step_type); run_binds;
    [reflexivity|].
  match goal with
  | |- context [retry_loop env ?a ?b ?c ?d ?e ?f ?g ?h ?i] =>
      pose proof (task_descs_of_created _
                    (PipelineFacts.retry_loop_created env a b c d e f g h i)) as Hr;
      destruct (retry_loop env a b c d e f g h i) as [[st1|] w1 c1]
  end; cbn [result world calls app task_descs] in *;
    rewrite !task_descs_app, Hr; reflexivity.
Qed.

(** X19: in a plan of two or more steps whose first step gives a text
    without failure indicator in the first 200 characters of its lowered
    text, the task of the second step is described by the continuation
    message, which holds the original request, the kind of the second step
    and the first 500 characters of the first output (not more: the message
    is at most 600 characters longer than the request and the kind). *)
Theorem second_step_message (task_plan : TaskPlanner.Plan) (message : string)
    (file_data : list upload) (file_context : string) (history : list turn)
    (w : World) (first second : string) (others : list string)
    (output1 : string) (artifact1 : option json) :
  let run := execute_multi_step env task_plan message file_data file_context
               history w in
  let told := step_message 1 message output1 second in
  TaskPlanner.steps task_plan = first :: second :: others ->
  result (execute_single_step env first message file_data file_context history w)
    = Some (JStr output1, artifact1) ->
  looks_failed output1 = false ->
  (exists more, task_descs (calls run) = message :: told :: more) /\
  Py.contains message told = true /\
  Py.contains second told = true /\
  Py.contains (Py.take 500 output1 ++ "...") told = true /\
  (Py.len told <= Py.len message + Py.len second + 600).
Proof.
  intros run told Hsteps H1 Hok. split.
  - subst run. step_into execute_multi_step. rewrite Hsteps.
    cbn [multi_loop]. run_binds.
    cbn [final_response accumulated_context step_message].
    pose proof (execute_single_step_desc first message file_data file_context
                  history w) as D1.
    rewrite H1.
    assert (Hcont : TaskPlanner.should_continue_to_next_step (Z.of_nat 0)
                      (Z.of_nat (length (first :: second :: others))) output1
                    = true).
    { unfold TaskPlanner.should_continue_to_next_step.
      unfold looks_failed in Hok. rewrite Hok. apply Z.ltb_lt.
      cbn [length]. lia. }
    rewrite Hcont. run_binds.
    set (w1 := world (execute_single_step env first message file_data
                        file_context history w)).
    match goal with
    | |- context [execute_single_step env second ?m ?f ?c ?h w1] =>
        pose proof (execute_single_step_desc second m f c h w1) as D2;
        set (r2 := execute_single_step env second m f c h w1) in *
    end.
    rewrite !task_descs_app, D1, D2. cbn [app]. eexists. reflexivity.
  - subst told. unfold step_message.
    split; [do 4 apply PyMore.contains_skip; apply PyMore.contains_head|].
    split; [do 14 apply PyMore.contains_skip; apply PyMore.contains_self|].
    split.
    + do 9 apply PyMore.contains_skip.
      rewrite <- (PipelineFacts.string_app_assoc (Py.take 500 output1) "...").
      apply PyMore.contains_head.
    + rewrite !PyFacts.len_app.
      assert (Hx : Py.len (Py.take 500 output1) <= 500)
        by (pose proof (PyFacts.chars_take 500 output1); unfold Py.len; lia).
      generalize dependent (Py.len (Py.take 500 output1)). intros excerpt Hx.
      change (Py.len nl) with 1.
      change (Py.len "Continue from previous step.") with 28.
      change (Py.len "Original task: ") with 15.
      change (Py.len "Previous step result:") with 21.
      change (Py.len "...") with 3.
      change (Py.len "Now perform: ") with 13.
      lia.
Qed.

(** *** What [process_message] stores and returns *)



End WithEnv.

(** A request of 62 characters, planned as the single step [general]: it
    goes to a worker and its result is logged. *)
Lemma process_message_counters_witness :
  let run := process_message Scenarios.coders_down "u1"
               "write a long program that sorts my whole library by author name"
               None [] Scenarios.after_one_failure in
  logged (calls run) = [("general-a", true)] /\
  Router.sound_stats (worker_stats (world run)).
Proof.
  intros run. split; [vm_compute; reflexivity|].
  apply (proj2 (process_message_counters Scenarios.coders_down "u1"
                  "write a long program that sorts my whole library by author name"
                  None [] Scenarios.after_one_failure)).
  apply (RouterFacts.sound_stats_replay [("general-b", false)]).
Defined.

Lemma multi_step_stops_on_failure_witness :
  let outs := [("Chart drawn.", Some Scenarios.chart);
               ("The chart shows steady growth.", None)] in
  result (execute_multi_step Scenarios.file_then_text Scenarios.two_steps
            "chart sales then report" [] "" [] Scenarios.fresh_world)
    = Some (join separator (List.map fst outs),
            latest_artifact (List.map snd outs)) /\
  Forall (fun o => looks_failed (fst o) = false) (removelast outs).
Proof.
  intros outs.
  destruct (multi_step_stops_on_failure Scenarios.file_then_text
              Scenarios.two_steps "chart sales then report" [] "" []
              Scenarios.fresh_world outs
              ltac:(discriminate) ltac:(vm_compute; reflexivity))
    as (_ & Hr & _ & Hf & _).
  split; assumption.
Defined.

Lemma second_step_message_witness :
  Py.contains "Chart drawn...."
    (step_message 1 "chart sales then report" "Chart drawn." "documentation")
  = true.
Proof.
  apply (second_step_message Scenarios.file_then_text Scenarios.two_steps
           "chart sales then report" [] "" [] Scenarios.fresh_world
           "analysis" "documentation" [] "Chart drawn." (Some Scenarios.chart)
           eq_refl ltac:(vm_compute; reflexivity) ltac:(vm_compute; reflexivity)).
Defined.


Lemma single_step_targets_witness :
  exists t kind,
    In kind (kinds_tried "coding") /\
    In Scenarios.helper_a
      (get_available_agents (agents_table Scenarios.coders_down t)
         (db_now Scenarios.coders_down t) kind).
Proof.
  destruct (single_step_targets Scenarios.coders_down "coding" "write add" []
              "" [] Scenarios.after_one_failure Scenarios.helper_a
              ltac:(vm_compute; left; reflexivity))
    as (t & kind & Hk & Hin & _).
  exists t, kind. split; assumption.
Defined.

Lemma answer_directly_window_witness :
  result (answer_directly
            (Scenarios.deployment [] (fun _ => "healthy")
               (fun _ _ _ => Scenarios.reply_text "ok")
               (fun _ => Scenarios.good_verdict))
            "hi" ([{| role := "user"; said := "old" |}]
                  ++ List.repeat {| role := "user"; said := "new" |} 5)
            Scenarios.fresh_world)
  = result (answer_directly
              (Scenarios.deployment [] (fun _ => "healthy")
                 (fun _ _ _ => Scenarios.reply_text "ok")
                 (fun _ => Scenarios.good_verdict))
              "hi" (List.repeat {| role := "user"; said := "new" |} 5)
              Scenarios.fresh_world).
Proof.
  rewrite (proj1 (answer_directly_window
                    (Scenarios.deployment [] (fun _ => "healthy")
                       (fun _ _ _ => Scenarios.reply_text "ok")
                       (fun _ => Scenarios.good_verdict))
                    "hi" [{| role := "user"; said := "old" |}]
                    (List.repeat {| role := "user"; said := "new" |} 5)
                    Scenarios.fresh_world)).
  - reflexivity.
  - simpl. lia.
Defined.

Lemma no_worker_means_direct_answer_witness :
  lookups (calls (run_attempt (Scenarios.deployment [] (fun _ => "healthy")
                                 (fun _ _ _ => Scenarios.reply_text "ok")
                                 (fun _ => Scenarios.good_verdict))
                    "coding" "write add" [] "" [] 7 0 Scenarios.no_answer_yet
                    Scenarios.fresh_world))
  = ["coding"; "general"; "analysis"].
Proof.
  apply (no_worker_means_direct_answer
           (Scenarios.deployment [] (fun _ => "healthy")
              (fun _ _ _ => Scenarios.reply_text "ok")
              (fun _ => Scenarios.good_verdict))
           "coding" "write add" [] "" [] 7 0 Scenarios.no_answer_yet
           Scenarios.fresh_world).
  intros t a [].
Defined.

Lemma all_excluded_means_direct_answer_witness :
  dispatched (calls (run_attempt
                       (Scenarios.deployment [Scenarios.coder]
                          (fun _ => "unhealthy")
                          (fun _ _ _ => Scenarios.reply_text "ok")
                          (fun _ => Scenarios.good_verdict))
                       "coding" "write add" [] "" [] 7 0
                       Scenarios.no_answer_yet Scenarios.fresh_world)) = [].
Proof.
  apply (all_excluded_means_direct_answer
           (Scenarios.deployment [Scenarios.coder] (fun _ => "unhealthy")
              (fun _ _ _ => Scenarios.reply_text "ok")
              (fun _ => Scenarios.good_verdict))
           "coding" "write add" [] "" [] 7 0 Scenarios.no_answer_yet
           Scenarios.fresh_world).
  - vm_compute. discriminate.
  - intros a _. left. reflexivity.
Defined.

End PipelineMore.
